(** * Authentication and session subsystem of the data-hub backend

    A shallow embedding of
      - pkg/errors/errors.go                       (Module [errors])
      - infrastructure/security/jwt.go             (Module [security])
      - infrastructure/security, password hashing  (Module [security])
      - internal/auth/domain (entities)            (Module [domain])
      - internal/auth/repository (PostgreSQL)      (Module [repository])
      - internal/auth/usecase/usecase.go           (Module [usecase])
      - internal/auth/delivery/http (handleError)  (Module [delivery])

    together with small models of the third-party packages the code calls
    (database/sql with sqlx, golang-jwt/jwt/v5, golang.org/x/crypto/bcrypt),
    written after their documented behaviour.

    Conventions.
      - A Go [error] is a value of [errors.error]; a [nil] error is [None],
        and a Go pair [(v, err)] is a [result].
      - Instants and durations are integers ([Z]) counting nanoseconds, as
        [time.Time] and [time.Duration] do; overflow of int64 is not modelled.
        One reading of the clock is used per operation.
      - Stateful code threads a [repository.World] (the two tables and the
        scripted outcome of the next SQL statements) explicitly.
      - Cryptography is symbolic: a MAC or a password digest is a term that
        records what it was computed from, so distinct inputs never collide. *)

From Stdlib Require Import String Ascii ZArith List Bool Lia.
Import ListNotations.

Local Open Scope string_scope.
Local Open Scope Z_scope.

(** A Go call returning [(value, error)]. *)
Inductive result (A E : Type) : Type :=
| Ok (v : A)
| Err (e : E).
Arguments Ok {A E} v.
Arguments Err {A E} e.

Definition is_ok {A E} (r : result A E) : bool :=
  match r with Ok _ => true | Err _ => false end.

(* ------------------------------------------------------------------ *)
(** ** Clock arithmetic ([time]) *)

Module time.
Definition Nanosecond : Z := 1.
Definition Second : Z := 1000000000.
Definition Minute : Z := 60 * Second.
Definition Hour : Z := 60 * Minute.

(** [t.Add(d)] *)
Definition Add (t d : Z) : Z := t + d.
(** [t.After(u)] *)
Definition After (t u : Z) : bool := u <? t.
(** [t.Before(u)] *)
Definition Before (t u : Z) : bool := t <? u.
(** [t.Truncate(d)] for an instant counted from the epoch, [d > 0]. *)
Definition Truncate (t d : Z) : Z := t - t mod d.
(** [int64(d.Seconds())]: the conversion truncates toward zero. *)
Definition Seconds (d : Z) : Z := Z.quot d Second.
End time.

(* ------------------------------------------------------------------ *)
(** ** pkg/errors *)

Module errors.

(** Package-level error variables. Go compares them by identity, so each
    variable is one constructor. The first group is pkg/errors, then
    security.ErrPasswordTooShort, database/sql's ErrNoRows and bcrypt's
    ErrPasswordTooLong. *)
Inductive sentinel : Type :=
| ErrNotFound | ErrAlreadyExists | ErrInvalidInput | ErrUnauthorized
| ErrForbidden | ErrInternal | ErrDatabase | ErrValidation
| ErrInvalidCredentials | ErrInvalidToken | ErrTokenExpired
| ErrTokenRevoked | ErrUserNotFound | ErrUserDisabled | ErrEmailTaken
| ErrUsernameTaken | ErrUserInactive
| ErrPasswordTooShort
| sql_ErrNoRows
| bcrypt_ErrPasswordTooLong.

(** The dynamic values an [error] takes in this code base. *)
Inductive error : Type :=
| errorVar (v : sentinel)                (* one of the variables above *)
| errorString (msg : string)             (* errors.New(msg) at a call site, or a driver error *)
| wrapError (msg : string) (err : error) (* fmt.Errorf(msg + ": %w", err) *).

Definition sentinel_eq_dec (x y : sentinel) : {x = y} + {x <> y}.
Proof. decide equality. Defined.

(** [Wrap(err, message)] on a non-nil error. The nil case is the
    [option_map] in [WrapNil]. *)
Definition Wrap (err : error) (message : string) : error :=
  wrapError message err.

(** [Wrap] as the source has it, nil included. *)
Definition WrapNil (err : option error) (message : string) : option error :=
  match err with
  | None => None
  | Some e => Some (Wrap e message)
  end.

(** [Is(err, target)] for a package-level [target]: walks the chain of
    wrapped errors and compares each link with the variable. *)
Fixpoint Is (err : error) (target : sentinel) : bool :=
  match err with
  | errorVar v => if sentinel_eq_dec v target then true else false
  | errorString _ => false
  | wrapError _ inner => Is inner target
  end.

(** [New(message)] *)
Definition New (message : string) : error := errorString message.

End errors.

Export errors (error, errorVar, errorString, wrapError).
Coercion errorVar : errors.sentinel >-> error.

(* ------------------------------------------------------------------ *)
(** ** github.com/golang-jwt/jwt/v5 (model of the library) *)

Module jwt.

Inductive HashAlg := SHA256 | SHA384 | SHA512.

(** The registered signing methods, grouped by their Go type. *)
Inductive SigningMethod : Type :=
| SigningMethodHMAC (h : HashAlg)     (* HS256, HS384, HS512 *)
| SigningMethodRSA (h : HashAlg)      (* RS256, RS384, RS512 *)
| SigningMethodRSAPSS (h : HashAlg)   (* PS256, PS384, PS512 *)
| SigningMethodECDSA (h : HashAlg)    (* ES256, ES384, ES512 *)
| SigningMethodEd25519                (* EdDSA *)
| signingMethodNone.                  (* none *)

Definition SigningMethodHS256 := SigningMethodHMAC SHA256.
Definition SigningMethodHS384 := SigningMethodHMAC SHA384.
Definition SigningMethodHS512 := SigningMethodHMAC SHA512.

Definition hash_suffix (h : HashAlg) : string :=
  match h with SHA256 => "256" | SHA384 => "384" | SHA512 => "512" end.

(** [m.Alg()] *)
Definition Alg (m : SigningMethod) : string :=
  match m with
  | SigningMethodHMAC h => "HS" ++ hash_suffix h
  | SigningMethodRSA h => "RS" ++ hash_suffix h
  | SigningMethodRSAPSS h => "PS" ++ hash_suffix h
  | SigningMethodECDSA h => "ES" ++ hash_suffix h
  | SigningMethodEd25519 => "EdDSA"
  | signingMethodNone => "none"
  end.

Definition all_methods : list SigningMethod :=
  [ SigningMethodHMAC SHA256; SigningMethodHMAC SHA384; SigningMethodHMAC SHA512;
    SigningMethodRSA SHA256; SigningMethodRSA SHA384; SigningMethodRSA SHA512;
    SigningMethodRSAPSS SHA256; SigningMethodRSAPSS SHA384; SigningMethodRSAPSS SHA512;
    SigningMethodECDSA SHA256; SigningMethodECDSA SHA384; SigningMethodECDSA SHA512;
    SigningMethodEd25519; signingMethodNone ].

(** [GetSigningMethod(alg)]: the registry lookup; [None] is Go's nil. *)
Definition GetSigningMethod (alg : string) : option SigningMethod :=
  find (fun m => String.eqb (Alg m) alg) all_methods.

(** The type assertion of [m] to a pointer to SigningMethodHMAC. *)
Definition is_SigningMethodHMAC (m : SigningMethod) : bool :=
  match m with SigningMethodHMAC _ => true | _ => false end.

(** [RegisteredClaims]; a [NumericDate] pointer is an [option]. The
    audience and the token id are not used by this code base. *)
Record RegisteredClaims : Type := {
  Issuer : string;
  Subject : string;
  ExpiresAt : option Z;
  NotBefore : option Z;
  IssuedAt : option Z
}.

(** [TimePrecision] and [NewNumericDate(t)]. *)
Definition TimePrecision : Z := time.Second.
Definition NewNumericDate (t : Z) : option Z :=
  Some (time.Truncate t TimePrecision).

(** The library's sentinel errors; a parse error is the set of the ones
    joined into it, and [errors.Is] on it is membership. *)
Inductive ErrKind :=
| ErrTokenMalformed | ErrTokenUnverifiable | ErrTokenSignatureInvalid
| ErrTokenInvalidClaims | ErrTokenExpired | ErrTokenNotValidYet.

Definition ErrKind_eq_dec (x y : ErrKind) : {x = y} + {x <> y}.
Proof. decide equality. Defined.

Definition Is (err : list ErrKind) (target : ErrKind) : bool :=
  existsb (fun k => if ErrKind_eq_dec k target then true else false) err.

Section WithClaims.
(** The claims type of the caller, its registered part (the [Claims]
    interface of the library) and equality of payloads. *)
Context {C : Type} (registered : C -> RegisteredClaims)
        (C_eq_dec : forall x y : C, {x = y} + {x <> y}).

(** What a MAC is computed over: the header and payload segments. *)
Definition SigningString : Type := (string * C)%type.

(** The signature segment: a MAC of a signing string under a key, or
    any other bytes. *)
Inductive Signature : Type :=
| HMAC (h : HashAlg) (key : string) (signed : SigningString)
| OtherSignature (raw : string).

(** A token string: three segments that decode to a header naming an
    algorithm, a payload and a signature; or a string that does not. *)
Inductive TokenString : Type :=
| Compact (alg : string) (claims : C) (sig : Signature)
| Malformed (raw : string).

Definition HashAlg_eq_dec (x y : HashAlg) : {x = y} + {x <> y}.
Proof. decide equality. Defined.

Definition Signature_eq_dec (x y : Signature) : {x = y} + {x <> y}.
Proof.
  decide equality; try apply string_dec; try apply HashAlg_eq_dec.
  decide equality; apply string_dec.
Defined.

Definition TokenString_eq_dec (x y : TokenString) : {x = y} + {x <> y}.
Proof.
  decide equality; try apply string_dec; try apply Signature_eq_dec; apply C_eq_dec.
Defined.

(** A parsed [*jwt.Token]. *)
Record Token : Type := {
  Method : SigningMethod;
  Header_alg : string;
  Claims : C;
  Valid : bool
}.

(** [NewWithClaims(method, claims).SignedString(key)] with an HMAC
    method and a byte-slice key (it cannot fail then). *)
Definition SignedString (h : HashAlg) (claims : C) (key : string) : TokenString :=
  let alg := Alg (SigningMethodHMAC h) in
  Compact alg claims (HMAC h key (alg, claims)).

(** [method.Verify(signingString, sig, key)] for a byte-slice key:
    [true] is a nil error. Every method other than HMAC refuses a
    byte-slice key. *)
Definition Verify (m : SigningMethod) (signed : SigningString)
           (sig : Signature) (key : string) : bool :=
  match m with
  | SigningMethodHMAC h =>
      if Signature_eq_dec sig (HMAC h key signed) then true else false
  | _ => false
  end.

(** [Validator.Validate(claims)] with the default options: expiry and
    not-before are checked when present, the errors are joined. *)
Definition Validate (now : Z) (c : RegisteredClaims) : list ErrKind :=
  (match ExpiresAt c with
   | Some exp => if time.Before now exp then [] else [ErrTokenExpired]
   | None => []
   end) ++
  (match NotBefore c with
   | Some nbf => if time.Before now nbf then [ErrTokenNotValidYet] else []
   | None => []
   end).

(** [ParseWithClaims(tokenString, &Claims{}, keyFunc)] with the default
    parser. [keyFunc] returns the key or fails ([None]). *)
Definition ParseWithClaims (now : Z) (tokenString : TokenString)
           (keyFunc : Token -> option string) : result Token (list ErrKind) :=
  match tokenString with
  | Malformed _ => Err [ErrTokenMalformed]
  | Compact alg claims sig =>
      match GetSigningMethod alg with
      | None => Err [ErrTokenUnverifiable]
      | Some m =>
          let token := {| Method := m; Header_alg := alg; Claims := claims; Valid := false |} in
          match keyFunc token with
          | None => Err [ErrTokenUnverifiable]
          | Some key =>
              if Verify m (alg, claims) sig key then
                match Validate now (registered claims) with
                | [] => Ok {| Method := m; Header_alg := alg; Claims := claims; Valid := true |}
                | errs => Err (ErrTokenInvalidClaims :: errs)
                end
              else Err [ErrTokenSignatureInvalid]
          end
      end
  end.
End WithClaims.

Arguments Signature : clear implicits.
Arguments TokenString : clear implicits.
Arguments Token : clear implicits.

End jwt.

(* ------------------------------------------------------------------ *)
(** ** golang.org/x/crypto/bcrypt (model of the library) *)

Module bcrypt.
Definition MinCost : Z := 4.
Definition MaxCost : Z := 31.
Definition DefaultCost : Z := 10.

(** A stored hash string: the digest of a key under a cost and a salt, or
    a string that is no bcrypt hash. *)
Inductive HashString : Type :=
| Digest (cost : Z) (salt : string) (key : string)
| NotAHash (raw : string).

(** bcrypt keys at most the first 72 bytes of the password. *)
Definition key_of (password : string) : string := substring 0 72 password.

(** [GenerateFromPassword(password, cost)]: passwords longer than 72 bytes
    are refused; a cost below [MinCost] becomes [DefaultCost]; a cost above
    [MaxCost] is an error. The salt is read from the random source. *)
Definition GenerateFromPassword (salt : string) (password : string) (cost : Z)
  : result HashString error :=
  if (72 <? Z.of_nat (String.length password)) then Err (errorVar errors.bcrypt_ErrPasswordTooLong)
  else
    let cost := if cost <? MinCost then DefaultCost else cost in
    if MaxCost <? cost then Err (errorString "crypto/bcrypt: cost outside allowed range")
    else Ok (Digest cost salt (key_of password)).

(** [CompareHashAndPassword(hash, password)]: [true] is a nil error. *)
Definition CompareHashAndPassword (hash : HashString) (password : string) : bool :=
  match hash with
  | Digest _ _ key => String.eqb key (key_of password)
  | NotAHash _ => false
  end.
End bcrypt.

(* ------------------------------------------------------------------ *)
(** ** infrastructure/security *)

Module security.

(** [Claims]: the identity fields and the embedded registered claims. *)
Record Claims : Type := {
  UserID : string;
  OrganizationID : string;
  RoleID : string;
  Email : string;
  RegisteredClaims : jwt.RegisteredClaims
}.

Definition Claims_eq_dec (x y : Claims) : {x = y} + {x <> y}.
Proof.
  decide equality; try apply string_dec.
  decide equality; try apply string_dec;
    decide equality; apply Z.eq_dec.
Defined.

(** Token strings carrying these claims. The empty string is
    [Malformed ""]. *)
Definition TokenString : Type := jwt.TokenString Claims.
Definition TokenString_eq_dec : forall x y : TokenString, {x = y} + {x <> y} :=
  jwt.TokenString_eq_dec Claims_eq_dec.
Definition TokenString_eqb (x y : TokenString) : bool :=
  if TokenString_eq_dec x y then true else false.

Record JWTManager : Type := {
  secret : string;
  accessTokenExpiry : Z;
  refreshTokenExpiry : Z;
  issuer : string
}.

Record TokenPair : Type := {
  AccessToken : TokenString;
  RefreshToken : TokenString;
  ExpiresIn : Z;
  TokenType : string
}.

(** The claims both [generateAccessToken] and [generateRefreshToken]
    build; only the lifetime differs. *)
Definition newClaims (j : JWTManager) (now expiry : Z)
           (userID organizationID roleID email : string) : Claims :=
  let expiresAt := time.Add now expiry in
  {| UserID := userID;
     OrganizationID := organizationID;
     RoleID := roleID;
     Email := email;
     RegisteredClaims :=
       {| jwt.Issuer := issuer j;
          jwt.Subject := userID;
          jwt.ExpiresAt := jwt.NewNumericDate expiresAt;
          jwt.IssuedAt := jwt.NewNumericDate now;
          jwt.NotBefore := jwt.NewNumericDate now |} |}.

Definition generateAccessToken (j : JWTManager) (now : Z)
           (userID organizationID roleID email : string) : TokenString :=
  jwt.SignedString jwt.SHA256
    (newClaims j now (accessTokenExpiry j) userID organizationID roleID email)
    (secret j).

Definition generateRefreshToken (j : JWTManager) (now : Z)
           (userID organizationID roleID email : string) : TokenString :=
  jwt.SignedString jwt.SHA256
    (newClaims j now (refreshTokenExpiry j) userID organizationID roleID email)
    (secret j).

(** [GenerateTokenPair]. Signing with HS256 and a byte-slice key has no
    error path, so the two wrapped-error returns are unreachable. *)
Definition GenerateTokenPair (j : JWTManager) (now : Z)
           (userID organizationID roleID email : string) : result TokenPair error :=
  if String.eqb userID "" then Err (errors.New "user_id is required")
  else
    let accessToken := generateAccessToken j now userID organizationID roleID email in
    let refreshToken := generateRefreshToken j now userID organizationID roleID email in
    Ok {| AccessToken := accessToken;
          RefreshToken := refreshToken;
          ExpiresIn := time.Seconds (accessTokenExpiry j);
          TokenType := "Bearer" |}.

(** The key function [ValidateToken] passes to the parser. *)
Definition keyFunc (j : JWTManager) (token : jwt.Token Claims) : option string :=
  if jwt.is_SigningMethodHMAC (jwt.Method token) then Some (secret j) else None.

Definition is_empty (t : TokenString) : bool :=
  match t with
  | jwt.Malformed "" => true
  | _ => false
  end.

(** [JWTManager.ValidateToken] *)
Definition ValidateToken (j : JWTManager) (now : Z) (tokenString : TokenString)
  : result Claims error :=
  if is_empty tokenString then Err (errorVar errors.ErrInvalidToken)
  else
    match jwt.ParseWithClaims RegisteredClaims Claims_eq_dec now tokenString (keyFunc j) with
    | Err err =>
        if jwt.Is err jwt.ErrTokenExpired then Err (errorVar errors.ErrTokenExpired)
        else Err (errorVar errors.ErrInvalidToken)
    | Ok token =>
        if negb (jwt.Valid token) then Err (errorVar errors.ErrInvalidToken)
        else Ok (jwt.Claims token)
    end.

(** [JWTManager.RefreshAccessToken] *)
Definition RefreshAccessToken (j : JWTManager) (now : Z) (refreshToken : TokenString)
  : result TokenString error :=
  match ValidateToken j now refreshToken with
  | Err err => Err (wrapError "invalid refresh token" err)
  | Ok claims =>
      Ok (generateAccessToken j now (UserID claims) (OrganizationID claims)
            (RoleID claims) (Email claims))
  end.

(** [JWTManager.GetUserIDFromToken] *)
Definition GetUserIDFromToken (j : JWTManager) (now : Z) (tokenString : TokenString)
  : result string error :=
  match ValidateToken j now tokenString with
  | Err err => Err err
  | Ok claims => Ok (UserID claims)
  end.

(** [security.ErrPasswordTooShort] *)
Definition ErrPasswordTooShort : error := errorVar errors.ErrPasswordTooShort.

Record PasswordHandler : Type := { cost : Z }.

Definition NewPasswordHandler : PasswordHandler := {| cost := bcrypt.DefaultCost |}.

(** Go's [len] of a string: its number of bytes. *)
Definition len (s : string) : Z := Z.of_nat (String.length s).

(** [PasswordHandler.Hash]; [salt] is what bcrypt reads from the random
    source. *)
Definition Hash (p : PasswordHandler) (salt : string) (password : string)
  : result bcrypt.HashString error :=
  if len password <? 8 then Err ErrPasswordTooShort
  else
    match bcrypt.GenerateFromPassword salt password (cost p) with
    | Err err => Err err
    | Ok bytes => Ok bytes
    end.

(** [PasswordHandler.Verify] *)
Definition Verify (p : PasswordHandler) (password : string) (hash : bcrypt.HashString) : bool :=
  bcrypt.CompareHashAndPassword hash password.

(** [PasswordHandler.ValidatePassword] *)
Definition ValidatePassword (p : PasswordHandler) (password : string) : option error :=
  if len password <? 8 then Some ErrPasswordTooShort else None.

End security.

(* ------------------------------------------------------------------ *)
(** ** internal/auth/domain *)

Module domain.

Definition UserStatus : Type := string.
Definition UserStatusActive : UserStatus := "active".
Definition UserStatusInactive : UserStatus := "inactive".
Definition UserStatusSuspended : UserStatus := "suspended".
Definition UserStatusDeleted : UserStatus := "deleted".

Module UserInfo.
Record t : Type := {
  ID : string;
  OrganizationID : string;
  RoleID : string;
  Name : string;
  Username : string;
  Email : string;
  Thumbnail : string
}.
End UserInfo.

Module User.
Record t : Type := {
  ID : string;
  OrganizationID : string;
  RoleID : string;
  Name : string;
  Username : string;
  EmployeeID : option string;
  Position : option string;
  Email : string;
  PasswordHash : bcrypt.HashString;
  Address : option string;
  Phone : option string;
  Thumbnail : option string;
  Status : UserStatus;
  CreatedAt : Z;
  UpdatedAt : Z
}.

(** [IsActive] *)
Definition IsActive (u : t) : bool := String.eqb (Status u) UserStatusActive.

(** [ToUserInfo] *)
Definition ToUserInfo (u : t) : UserInfo.t :=
  {| UserInfo.ID := ID u;
     UserInfo.OrganizationID := OrganizationID u;
     UserInfo.RoleID := RoleID u;
     UserInfo.Name := Name u;
     UserInfo.Username := Username u;
     UserInfo.Email := Email u;
     UserInfo.Thumbnail := match Thumbnail u with Some s => s | None => "" end |}.
End User.

Module Token.
Record t : Type := {
  ID : string;
  UserID : string;
  AccessToken : security.TokenString;
  RefreshToken : security.TokenString;
  ExpiresAt : Z;
  Revoked : bool;
  CreatedAt : Z
}.

(** [IsExpired]: [time.Now().After(t.ExpiresAt)] *)
Definition IsExpired (now : Z) (t : t) : bool := time.After now (ExpiresAt t).

(** [IsValid]: not revoked and not expired *)
Definition IsValid (now : Z) (t : t) : bool :=
  negb (Revoked t) && negb (IsExpired now t).
End Token.

Module LoginRequest.
Record t : Type := { Email : string; Password : string }.
End LoginRequest.

Module RegisterRequest.
Record t : Type := {
  OrganizationID : string;
  RoleID : string;
  Name : string;
  Username : string;
  EmployeeID : string;
  Position : string;
  Email : string;
  Password : string;
  Address : string;
  Phone : string
}.
End RegisterRequest.

Module AuthResponse.
Record t : Type := {
  User : UserInfo.t;
  AccessToken : security.TokenString;
  RefreshToken : security.TokenString;
  ExpiresIn : Z;
  TokenType : string
}.
End AuthResponse.

Module TokenClaims.
Record t : Type := {
  UserID : string;
  OrganizationID : string;
  RoleID : string;
  Name : string;
  Username : string;
  Email : string
}.
End TokenClaims.

End domain.

(* ------------------------------------------------------------------ *)
(** ** internal/auth/repository (PostgreSQL through sqlx) *)

Module repository.
Import domain.

(** The database as the repositories see it: the two tables, in row
    order, and the outcome the driver will report for the statements to
    come ([None]: the statement executes; [Some msg]: the driver fails
    with that message and the statement has no effect). Once the script is
    used up every statement executes. *)
Record World : Type := {
  users : list User.t;
  tokens : list Token.t;
  outcomes : list (option string)
}.

Definition with_users (w : World) (us : list User.t) : World :=
  {| users := us; tokens := tokens w; outcomes := outcomes w |}.
Definition with_tokens (w : World) (ts : list Token.t) : World :=
  {| users := users w; tokens := ts; outcomes := outcomes w |}.
Definition with_outcomes (w : World) (os : list (option string)) : World :=
  {| users := users w; tokens := tokens w; outcomes := os |}.

(** A database with no scripted failure. *)
Definition healthy (w : World) : Prop := Forall (fun o => o = None) (outcomes w).

(** Sending one statement: the driver's verdict and the rest of the
    script. *)
Definition statement (w : World) : option error * World :=
  match outcomes w with
  | [] => (None, w)
  | None :: rest => (None, with_outcomes w rest)
  | Some msg :: rest => (Some (errorString msg), with_outcomes w rest)
  end.

(** [db.GetContext(ctx, &dest, query, args...)] for a query whose result
    set is [rows]: scans the first row, [sql.ErrNoRows] when there is
    none. *)
Definition GetContext {R : Type} (rows : World -> list R) (w : World)
  : result R error * World :=
  match statement w with
  | (Some err, w') => (Err err, w')
  | (None, w') =>
      match rows w' with
      | [] => (Err (errorVar errors.sql_ErrNoRows), w')
      | r :: _ => (Ok r, w')
      end
  end.

(** [db.ExecContext] / [db.NamedExecContext] for a statement that turns
    the tables into [update w] and affects [affected w] rows. *)
Definition ExecContext (update : World -> World) (affected : World -> Z) (w : World)
  : result Z error * World :=
  match statement w with
  | (Some err, w') => (Err err, w')
  | (None, w') => (Ok (affected w'), update w')
  end.

(** *** userPostgresRepository *)

(** [handleError] of the user repository, on a non-nil error. *)
Definition user_handleError (err : error) : error :=
  errors.Wrap err "database error".

Definition not_deleted (u : User.t) : bool :=
  negb (String.eqb (User.Status u) "deleted").

(** [GetUserByID]: WHERE id = $1 AND status != 'deleted' *)
Definition GetUserByID (id : string) (w : World) : result User.t error * World :=
  match GetContext
          (fun w => filter (fun u => String.eqb (User.ID u) id && not_deleted u) (users w)) w with
  | (Err err, w') => (Err (user_handleError err), w')
  | (Ok user, w') => (Ok user, w')
  end.

(** [GetUserByEmail]: WHERE email = $1 AND status != 'deleted' *)
Definition GetUserByEmail (email : string) (w : World) : result User.t error * World :=
  match GetContext
          (fun w => filter (fun u => String.eqb (User.Email u) email && not_deleted u) (users w)) w with
  | (Err err, w') => (Err (user_handleError err), w')
  | (Ok user, w') => (Ok user, w')
  end.

(** [GetUserByUsername]: WHERE username = $1 AND status != 'deleted' *)
Definition GetUserByUsername (username : string) (w : World) : result User.t error * World :=
  match GetContext
          (fun w => filter (fun u => String.eqb (User.Username u) username && not_deleted u) (users w)) w with
  | (Err err, w') => (Err (user_handleError err), w')
  | (Ok user, w') => (Ok user, w')
  end.

(** [CreateUser]: INSERT INTO users *)
Definition CreateUser (user : User.t) (w : World) : option error * World :=
  match ExecContext (fun w => with_users w (users w ++ [user])) (fun _ => 1) w with
  | (Err err, w') => (Some (wrapError "failed to create user" err), w')
  | (Ok _, w') => (None, w')
  end.

(** [IsEmailExists]: SELECT EXISTS(... WHERE email = $1 AND status != 'deleted');
    the result set is one row holding the boolean. *)
Definition IsEmailExists (email : string) (w : World) : result bool error * World :=
  match GetContext
          (fun w => [existsb (fun u => String.eqb (User.Email u) email && not_deleted u) (users w)]) w with
  | (Err err, w') => (Err (wrapError "failed to check email existence" err), w')
  | (Ok exists_, w') => (Ok exists_, w')
  end.

(** [IsUsernameExists] *)
Definition IsUsernameExists (username : string) (w : World) : result bool error * World :=
  match GetContext
          (fun w => [existsb (fun u => String.eqb (User.Username u) username && not_deleted u) (users w)]) w with
  | (Err err, w') => (Err (wrapError "failed to check username existence" err), w')
  | (Ok exists_, w') => (Ok exists_, w')
  end.

(** The row an UPDATE of [UpdateUser] writes over [row]: every column but
    the id and the creation time is taken from [user]. *)
Definition updated (user : User.t) (now : Z) (row : User.t) : User.t :=
  {| User.ID := User.ID row;
     User.OrganizationID := User.OrganizationID user;
     User.RoleID := User.RoleID user;
     User.Name := User.Name user;
     User.Username := User.Username user;
     User.EmployeeID := User.EmployeeID user;
     User.Position := User.Position user;
     User.Email := User.Email user;
     User.PasswordHash := User.PasswordHash user;
     User.Address := User.Address user;
     User.Phone := User.Phone user;
     User.Thumbnail := User.Thumbnail user;
     User.Status := User.Status user;
     User.CreatedAt := User.CreatedAt row;
     User.UpdatedAt := now |}.

Definition user_has_id (id : string) (u : User.t) : bool := String.eqb (User.ID u) id.

(** [UpdateUser]: sets updated_at to the clock reading, then
    UPDATE users SET ... WHERE id = :id *)
Definition UpdateUser (now : Z) (user : User.t) (w : World) : option error * World :=
  match ExecContext
          (fun w => with_users w
                      (map (fun row => if user_has_id (User.ID user) row
                                       then updated user now row else row) (users w)))
          (fun w => Z.of_nat (List.length (filter (user_has_id (User.ID user)) (users w)))) w with
  | (Err err, w') => (Some (wrapError "failed to update user" err), w')
  | (Ok rows, w') =>
      if rows =? 0 then (Some (errorVar errors.ErrNotFound), w') else (None, w')
  end.

(** The row a soft delete leaves. *)
Definition soft_deleted (now : Z) (row : User.t) : User.t :=
  {| User.ID := User.ID row;
     User.OrganizationID := User.OrganizationID row;
     User.RoleID := User.RoleID row;
     User.Name := User.Name row;
     User.Username := User.Username row;
     User.EmployeeID := User.EmployeeID row;
     User.Position := User.Position row;
     User.Email := User.Email row;
     User.PasswordHash := User.PasswordHash row;
     User.Address := User.Address row;
     User.Phone := User.Phone row;
     User.Thumbnail := User.Thumbnail row;
     User.Status := "deleted";
     User.CreatedAt := User.CreatedAt row;
     User.UpdatedAt := now |}.

(** [DeleteUser]:
    UPDATE users SET status = 'deleted', updated_at = NOW() WHERE id = $1 *)
Definition DeleteUser (now : Z) (id : string) (w : World) : option error * World :=
  match ExecContext
          (fun w => with_users w
                      (map (fun row => if user_has_id id row then soft_deleted now row else row)
                           (users w)))
          (fun w => Z.of_nat (List.length (filter (user_has_id id) (users w)))) w with
  | (Err err, w') => (Some (wrapError "failed to delete user" err), w')
  | (Ok rows, w') =>
      if rows =? 0 then (Some (errorVar errors.ErrNotFound), w') else (None, w')
  end.

(** *** tokenPostgresRepository *)

(** [handleError] of the token repository, on a non-nil error. *)
Definition token_handleError (err : error) : error :=
  errors.Wrap err "database error".

(** What either [handleError] returns when a query yields no row: the
    driver's ErrNoRows wrapped as a database error. *)
Definition no_rows : error := token_handleError (errorVar errors.sql_ErrNoRows).

(** ORDER BY created_at DESC LIMIT 1: the row created last; among rows
    created at the same instant the one met first in table order (SQL
    leaves that choice open). *)
Fixpoint newest (rows : list Token.t) : list Token.t :=
  match rows with
  | [] => []
  | r :: rest =>
      match newest rest with
      | [] => [r]
      | r' :: _ => if Token.CreatedAt r <? Token.CreatedAt r' then [r'] else [r]
      end
  end.

(** [CreateToken]: INSERT INTO tokens *)
Definition CreateToken (token : Token.t) (w : World) : option error * World :=
  match ExecContext (fun w => with_tokens w (tokens w ++ [token])) (fun _ => 1) w with
  | (Err err, w') => (Some (wrapError "failed to create token" err), w')
  | (Ok _, w') => (None, w')
  end.

Definition by_refresh_token (refreshToken : security.TokenString) (t : Token.t) : bool :=
  security.TokenString_eqb (Token.RefreshToken t) refreshToken.
Definition by_access_token (accessToken : security.TokenString) (t : Token.t) : bool :=
  security.TokenString_eqb (Token.AccessToken t) accessToken.

(** [GetTokenByRefreshToken]:
    WHERE refresh_token = $1 ORDER BY created_at DESC LIMIT 1 *)
Definition GetTokenByRefreshToken (refreshToken : security.TokenString) (w : World)
  : result Token.t error * World :=
  match GetContext (fun w => newest (filter (by_refresh_token refreshToken) (tokens w))) w with
  | (Err err, w') => (Err (token_handleError err), w')
  | (Ok token, w') => (Ok token, w')
  end.

(** [GetTokenByAccessToken]:
    WHERE access_token = $1 ORDER BY created_at DESC LIMIT 1 *)
Definition GetTokenByAccessToken (accessToken : security.TokenString) (w : World)
  : result Token.t error * World :=
  match GetContext (fun w => newest (filter (by_access_token accessToken) (tokens w))) w with
  | (Err err, w') => (Err (token_handleError err), w')
  | (Ok token, w') => (Ok token, w')
  end.

(** SET revoked = true on one row. *)
Definition revoke (t : Token.t) : Token.t :=
  {| Token.ID := Token.ID t;
     Token.UserID := Token.UserID t;
     Token.AccessToken := Token.AccessToken t;
     Token.RefreshToken := Token.RefreshToken t;
     Token.ExpiresAt := Token.ExpiresAt t;
     Token.Revoked := true;
     Token.CreatedAt := Token.CreatedAt t |}.

(** UPDATE tokens SET revoked = true WHERE [sel] *)
Definition revoke_where (sel : Token.t -> bool) (rows : list Token.t) : list Token.t :=
  map (fun t => if sel t then revoke t else t) rows.

Definition count_where (sel : Token.t -> bool) (rows : list Token.t) : Z :=
  Z.of_nat (List.length (filter sel rows)).

Definition has_id (id : string) (t : Token.t) : bool := String.eqb (Token.ID t) id.
Definition has_user (userID : string) (t : Token.t) : bool := String.eqb (Token.UserID t) userID.

(** [RevokeToken]: UPDATE tokens SET revoked = true WHERE id = $1 *)
Definition RevokeToken (id : string) (w : World) : option error * World :=
  match ExecContext (fun w => with_tokens w (revoke_where (has_id id) (tokens w)))
                    (fun w => count_where (has_id id) (tokens w)) w with
  | (Err err, w') => (Some (wrapError "failed to revoke token" err), w')
  | (Ok rows, w') =>
      if rows =? 0 then (Some (errorVar errors.ErrNotFound), w') else (None, w')
  end.

(** [RevokeUserTokens]: UPDATE tokens SET revoked = true WHERE user_id = $1 *)
Definition RevokeUserTokens (userID : string) (w : World) : option error * World :=
  match ExecContext (fun w => with_tokens w (revoke_where (has_user userID) (tokens w)))
                    (fun w => count_where (has_user userID) (tokens w)) w with
  | (Err err, w') => (Some (wrapError "failed to revoke user tokens" err), w')
  | (Ok _, w') => (None, w')
  end.

(** [DeleteToken]: DELETE FROM tokens WHERE id = $1 *)
Definition DeleteToken (id : string) (w : World) : option error * World :=
  match ExecContext (fun w => with_tokens w (filter (fun t => negb (has_id id t)) (tokens w)))
                    (fun w => count_where (has_id id) (tokens w)) w with
  | (Err err, w') => (Some (wrapError "failed to delete token" err), w')
  | (Ok rows, w') =>
      if rows =? 0 then (Some (errorVar errors.ErrNotFound), w') else (None, w')
  end.

(** [CleanupExpiredTokens]:
    DELETE FROM tokens WHERE expires_at < NOW() OR revoked = true *)
Definition CleanupExpiredTokens (now : Z) (w : World) : option error * World :=
  let purged t := (Token.ExpiresAt t <? now) || Token.Revoked t in
  match ExecContext (fun w => with_tokens w (filter (fun t => negb (purged t)) (tokens w)))
                    (fun w => count_where purged (tokens w)) w with
  | (Err err, w') => (Some (wrapError "failed to cleanup expired tokens" err), w')
  | (Ok _, w') => (None, w')
  end.

End repository.

(* ------------------------------------------------------------------ *)
(** ** internal/auth/usecase *)

Module usecase.
Import domain repository.

(** [authUsecase]; the two repositories are the tables of the [World]. *)
Record authUsecase : Type := {
  jwtManager : security.JWTManager;
  passwordHasher : security.PasswordHandler
}.

(** The session row built after minting a pair: it expires seven days
    after [now] and is not revoked. *)
Definition newSession (id userID : string) (tokenPair : security.TokenPair) (now : Z) : Token.t :=
  {| Token.ID := id;
     Token.UserID := userID;
     Token.AccessToken := security.AccessToken tokenPair;
     Token.RefreshToken := security.RefreshToken tokenPair;
     Token.ExpiresAt := time.Add now (24 * time.Hour * 7);
     Token.Revoked := false;
     Token.CreatedAt := now |}.

Definition newAuthResponse (user : User.t) (tokenPair : security.TokenPair) : AuthResponse.t :=
  {| AuthResponse.User := User.ToUserInfo user;
     AuthResponse.AccessToken := security.AccessToken tokenPair;
     AuthResponse.RefreshToken := security.RefreshToken tokenPair;
     AuthResponse.ExpiresIn := security.ExpiresIn tokenPair;
     AuthResponse.TokenType := security.TokenType tokenPair |}.

(** [Login]; [tokenID] is the value of [uuid.New().String()]. *)
Definition Login (a : authUsecase) (now : Z) (tokenID : string)
           (req : LoginRequest.t) (w : World) : result AuthResponse.t error * World :=
  match GetUserByEmail (LoginRequest.Email req) w with
  | (Err err, w1) =>
      if errors.Is err errors.ErrNotFound
      then (Err (errorVar errors.ErrInvalidCredentials), w1)
      else (Err (wrapError "failed to get user" err), w1)
  | (Ok user, w1) =>
      if negb (security.Verify (passwordHasher a) (LoginRequest.Password req) (User.PasswordHash user))
      then (Err (errorVar errors.ErrInvalidCredentials), w1)
      else if negb (User.IsActive user)
      then (Err (errorVar errors.ErrUserDisabled), w1)
      else
        match security.GenerateTokenPair (jwtManager a) now
                (User.ID user) (User.OrganizationID user) (User.RoleID user) (User.Email user) with
        | Err err => (Err (wrapError "failed to generate tokens" err), w1)
        | Ok tokenPair =>
            let token := newSession tokenID (User.ID user) tokenPair now in
            match CreateToken token w1 with
            | (Some err, w2) => (Err (wrapError "failed to store token" err), w2)
            | (None, w2) => (Ok (newAuthResponse user tokenPair), w2)
            end
        end
  end.

Definition optional (s : string) : option string :=
  if String.eqb s "" then None else Some s.

(** [Register]; [userID] and [tokenID] are the two fresh UUIDs, [salt]
    the random bytes bcrypt draws. *)
Definition Register (a : authUsecase) (now : Z) (userID tokenID salt : string)
           (req : RegisterRequest.t) (w : World) : result AuthResponse.t error * World :=
  match IsEmailExists (RegisterRequest.Email req) w with
  | (Err err, w1) => (Err (wrapError "failed to check email existence" err), w1)
  | (Ok true, w1) => (Err (errorVar errors.ErrEmailTaken), w1)
  | (Ok false, w1) =>
      match IsUsernameExists (RegisterRequest.Username req) w1 with
      | (Err err, w2) => (Err (wrapError "failed to check username existence" err), w2)
      | (Ok true, w2) => (Err (errorVar errors.ErrUsernameTaken), w2)
      | (Ok false, w2) =>
          match security.Hash (passwordHasher a) salt (RegisterRequest.Password req) with
          | Err err => (Err (wrapError "failed to hash password" err), w2)
          | Ok passwordHash =>
              let user :=
                {| User.ID := userID;
                   User.OrganizationID := RegisterRequest.OrganizationID req;
                   User.RoleID := RegisterRequest.RoleID req;
                   User.Name := RegisterRequest.Name req;
                   User.Username := RegisterRequest.Username req;
                   User.EmployeeID := optional (RegisterRequest.EmployeeID req);
                   User.Position := optional (RegisterRequest.Position req);
                   User.Email := RegisterRequest.Email req;
                   User.PasswordHash := passwordHash;
                   User.Address := optional (RegisterRequest.Address req);
                   User.Phone := optional (RegisterRequest.Phone req);
                   User.Thumbnail := None;
                   User.Status := UserStatusActive;
                   User.CreatedAt := now;
                   User.UpdatedAt := now |} in
              match CreateUser user w2 with
              | (Some err, w3) => (Err (wrapError "failed to create user" err), w3)
              | (None, w3) =>
                  match security.GenerateTokenPair (jwtManager a) now
                          (User.ID user) (User.OrganizationID user) (User.RoleID user) (User.Email user) with
                  | Err err => (Err (wrapError "failed to generate tokens" err), w3)
                  | Ok tokenPair =>
                      let token := newSession tokenID (User.ID user) tokenPair now in
                      match CreateToken token w3 with
                      | (Some err, w4) => (Err (wrapError "failed to store token" err), w4)
                      | (None, w4) => (Ok (newAuthResponse user tokenPair), w4)
                      end
                  end
              end
          end
      end
  end.

(** [Logout] *)
Definition Logout (a : authUsecase) (accessToken refreshToken : security.TokenString)
           (w : World) : option error * World :=
  match GetTokenByRefreshToken refreshToken w with
  | (Err err, w1) =>
      if errors.Is err errors.ErrNotFound
      then (Some (errorVar errors.ErrInvalidToken), w1)
      else (Some (wrapError "failed to get token" err), w1)
  | (Ok token, w1) =>
      if negb (security.TokenString_eqb (Token.AccessToken token) accessToken)
      then (Some (errorVar errors.ErrInvalidToken), w1)
      else
        match RevokeToken (Token.ID token) w1 with
        | (Some err, w2) => (Some (wrapError "failed to revoke token" err), w2)
        | (None, w2) => (None, w2)
        end
  end.

(** [RefreshToken]; [tokenID] is the fresh UUID of the new session. *)
Definition RefreshToken (a : authUsecase) (now : Z) (tokenID : string)
           (refreshToken : security.TokenString) (w : World)
  : result AuthResponse.t error * World :=
  match GetTokenByRefreshToken refreshToken w with
  | (Err err, w1) =>
      if errors.Is err errors.ErrNotFound
      then (Err (errorVar errors.ErrInvalidToken), w1)
      else (Err (wrapError "failed to get token" err), w1)
  | (Ok storedToken, w1) =>
      if negb (Token.IsValid now storedToken)
      then (Err (errorVar errors.ErrTokenExpired), w1)
      else
        match GetUserByID (Token.UserID storedToken) w1 with
        | (Err err, w2) => (Err (wrapError "failed to get user" err), w2)
        | (Ok user, w2) =>
            match security.GenerateTokenPair (jwtManager a) now
                    (User.ID user) (User.OrganizationID user) (User.RoleID user) (User.Email user) with
            | Err err => (Err (wrapError "failed to generate new tokens" err), w2)
            | Ok tokenPair =>
                match RevokeToken (Token.ID storedToken) w2 with
                | (Some err, w3) => (Err (wrapError "failed to revoke old token" err), w3)
                | (None, w3) =>
                    let newToken := newSession tokenID (User.ID user) tokenPair now in
                    match CreateToken newToken w3 with
                    | (Some err, w4) => (Err (wrapError "failed to store new token" err), w4)
                    | (None, w4) => (Ok (newAuthResponse user tokenPair), w4)
                    end
                end
            end
        end
  end.

(** [RevokeAllTokens] *)
Definition RevokeAllTokens (a : authUsecase) (userID : string) (w : World)
  : option error * World :=
  match RevokeUserTokens userID w with
  | (Some err, w1) => (Some (wrapError "failed to revoke user tokens" err), w1)
  | (None, w1) => (None, w1)
  end.

(** [ValidateToken]. After a lookup error that is [ErrNotFound] the
    stored token is nil and the claims are returned. *)
Definition ValidateToken (a : authUsecase) (now : Z) (token : security.TokenString)
           (w : World) : result TokenClaims.t error * World :=
  match security.ValidateToken (jwtManager a) now token with
  | Err err => (Err err, w)
  | Ok claims =>
      let tokenClaims :=
        {| TokenClaims.UserID := security.UserID claims;
           TokenClaims.OrganizationID := security.OrganizationID claims;
           TokenClaims.RoleID := security.RoleID claims;
           TokenClaims.Name := "";
           TokenClaims.Username := "";
           TokenClaims.Email := security.Email claims |} in
      match GetTokenByAccessToken token w with
      | (Err err, w1) =>
          if negb (errors.Is err errors.ErrNotFound)
          then (Err (wrapError "failed to get stored token" err), w1)
          else (Ok tokenClaims, w1)
      | (Ok storedToken, w1) =>
          if negb (Token.IsValid now storedToken)
          then (Err (errorVar errors.ErrTokenRevoked), w1)
          else (Ok tokenClaims, w1)
      end
  end.

(** [GetCurrentUser] *)
Definition GetCurrentUser (a : authUsecase) (userID : string) (w : World)
  : result UserInfo.t error * World :=
  match GetUserByID userID w with
  | (Err err, w1) => (Err (wrapError "failed to get user" err), w1)
  | (Ok user, w1) => (Ok (User.ToUserInfo user), w1)
  end.

(** *** Sequences of calls

    One request to the orchestrator, with the clock reading, the fresh
    identifiers and the driver outcomes it meets. *)
Inductive Call : Type :=
| CallLogin (now : Z) (tokenID : string) (req : LoginRequest.t)
| CallRegister (now : Z) (userID tokenID salt : string) (req : RegisterRequest.t)
| CallLogout (accessToken refreshToken : security.TokenString)
| CallRefreshToken (now : Z) (tokenID : string) (refreshToken : security.TokenString)
| CallRevokeAllTokens (userID : string)
| CallValidateToken (now : Z) (token : security.TokenString)
| CallGetCurrentUser (userID : string).

(** The error a call reports, [None] when it succeeds. *)
Definition outcome {A : Type} (r : result A error * World) : option error * World :=
  match r with
  | (Ok _, w) => (None, w)
  | (Err e, w) => (Some e, w)
  end.

(** Serving [c] under the driver script [script]: the error reported and
    the database afterwards. *)
Definition serve (a : authUsecase) (script : list (option string)) (c : Call) (w : World)
  : option error * World :=
  let w := with_outcomes w script in
  match c with
  | CallLogin now tokenID req => outcome (Login a now tokenID req w)
  | CallRegister now userID tokenID salt req => outcome (Register a now userID tokenID salt req w)
  | CallLogout accessToken refreshToken => Logout a accessToken refreshToken w
  | CallRefreshToken now tokenID refreshToken => outcome (RefreshToken a now tokenID refreshToken w)
  | CallRevokeAllTokens userID => RevokeAllTokens a userID w
  | CallValidateToken now token => outcome (ValidateToken a now token w)
  | CallGetCurrentUser userID => outcome (GetCurrentUser a userID w)
  end.



End usecase.

(* ------------------------------------------------------------------ *)
(** ** internal/auth/delivery/http *)

Module delivery.

Record Response : Type := { status : Z; code : string; message : string }.

(** [Handler.handleError]: the HTTP answer to a use-case error. *)
Definition handleError (err : error) : Response :=
  if errors.Is err errors.ErrInvalidCredentials then
    {| status := 401; code := "UNAUTHORIZED"; message := "Invalid credentials" |}
  else if errors.Is err errors.ErrUserDisabled then
    {| status := 403; code := "FORBIDDEN"; message := "User account is disabled" |}
  else if errors.Is err errors.ErrEmailTaken then
    {| status := 409; code := "CONFLICT"; message := "Email already registered" |}
  else if errors.Is err errors.ErrUsernameTaken then
    {| status := 409; code := "CONFLICT"; message := "Username already taken" |}
  else if errors.Is err errors.ErrInvalidToken then
    {| status := 401; code := "UNAUTHORIZED"; message := "Invalid token" |}
  else if errors.Is err errors.ErrTokenExpired then
    {| status := 401; code := "UNAUTHORIZED"; message := "Token expired" |}
  else if errors.Is err errors.ErrTokenRevoked then
    {| status := 401; code := "UNAUTHORIZED"; message := "Token revoked" |}
  else if errors.Is err errors.ErrNotFound then
    {| status := 404; code := "NOT_FOUND"; message := "Resource not found" |}
  else
    {| status := 500; code := "INTERNAL_SERVER_ERROR"; message := "Internal server error" |}.

End delivery.

(* ------------------------------------------------------------------ *)
(** ** infrastructure/http/middleware and the protected routes *)

Module middleware.

(** The value of the Authorization header: a text that holds no token
    string, or the text "Bearer " followed by a token string. An absent
    header is the empty text. *)
Inductive Authorization : Type :=
| HeaderText (s : string)
| HeaderBearer (t : security.TokenString).

(** What the middleware stores in the request context. *)
Record Identity : Type := {
  user_id : string;
  organization_id : string;
  role_id : string;
  email : string
}.

(** The middleware answers itself or calls the next handler with the
    identity in the context. *)
Inductive Verdict : Type :=
| Answer (resp : delivery.Response)
| Next (ctx : Identity).

Definition Unauthorized (message : string) : delivery.Response :=
  {| delivery.status := 401; delivery.code := "UNAUTHORIZED"; delivery.message := message |}.

(** [authHeader[7:]] of a header that starts with "Bearer ". *)
Definition bearer_token (authHeader : Authorization) : security.TokenString :=
  match authHeader with
  | HeaderText s => jwt.Malformed (substring 7 (String.length s - 7) s)
  | HeaderBearer t => t
  end.

(** [authHeader == ""] and [strings.HasPrefix(authHeader, "Bearer ")] *)
Definition header_is_empty (authHeader : Authorization) : bool :=
  match authHeader with
  | HeaderText s => String.eqb s ""
  | HeaderBearer _ => false
  end.
Definition has_bearer_prefix (authHeader : Authorization) : bool :=
  match authHeader with
  | HeaderText s => String.prefix "Bearer " s
  | HeaderBearer _ => true
  end.

(** [Auth(jwtManager)] applied to a request. *)
Definition Auth (jwtManager : security.JWTManager) (now : Z) (authHeader : Authorization)
  : Verdict :=
  if header_is_empty authHeader then Answer (Unauthorized "Authorization header required")
  else if negb (has_bearer_prefix authHeader)
  then Answer (Unauthorized "Invalid authorization header format")
  else
    let token := bearer_token authHeader in
    match security.ValidateToken jwtManager now token with
    | Err err =>
        if errors.Is err errors.ErrTokenExpired
        then Answer (Unauthorized "Token expired")
        else Answer (Unauthorized "Invalid token")
    | Ok claims =>
        Next {| user_id := security.UserID claims;
                organization_id := security.OrganizationID claims;
                role_id := security.RoleID claims;
                email := security.Email claims |}
    end.

End middleware.

Module routes.
Import domain repository.

(** What a handler writes: the envelope and, for /me, the profile. *)
Record Reply : Type := {
  response : delivery.Response;
  profile : option UserInfo.t
}.

Definition OK (message : string) (profile : option UserInfo.t) : Reply :=
  {| response := {| delivery.status := 200;
                    delivery.code := "OPERATION_SUCCESSFUL";
                    delivery.message := message |};
     profile := profile |}.

Definition failed (resp : delivery.Response) : Reply :=
  {| response := resp; profile := None |}.

(** [Handler.GetCurrentUser], given the context the middleware set. *)
Definition GetCurrentUser (a : usecase.authUsecase) (ctx : middleware.Identity) (w : World)
  : Reply * World :=
  if String.eqb (middleware.user_id ctx) "" then (failed (middleware.Unauthorized "Unauthorized"), w)
  else
    match usecase.GetCurrentUser a (middleware.user_id ctx) w with
    | (Err err, w1) => (failed (delivery.handleError err), w1)
    | (Ok userInfo, w1) => (OK "User retrieved successfully" (Some userInfo), w1)
    end.

(** [Handler.RevokeAllTokens], given the context the middleware set. *)
Definition RevokeAllTokens (a : usecase.authUsecase) (ctx : middleware.Identity) (w : World)
  : Reply * World :=
  if String.eqb (middleware.user_id ctx) "" then (failed (middleware.Unauthorized "Unauthorized"), w)
  else
    match usecase.RevokeAllTokens a (middleware.user_id ctx) w with
    | (Some err, w1) => (failed (delivery.handleError err), w1)
    | (None, w1) => (OK "All tokens revoked successfully" None, w1)
    end.

(** A route of the protected group: the Auth middleware, then the handler. *)
Definition protected (a : usecase.authUsecase) (now : Z)
           (handler : usecase.authUsecase -> middleware.Identity -> World -> Reply * World)
           (authHeader : middleware.Authorization) (w : World) : Reply * World :=
  match middleware.Auth (usecase.jwtManager a) now authHeader with
  | middleware.Answer resp => (failed resp, w)
  | middleware.Next ctx => handler a ctx w
  end.

(** GET /me and POST /auth/revoke-all. *)
Definition me (a : usecase.authUsecase) (now : Z) := protected a now GetCurrentUser.
Definition revoke_all (a : usecase.authUsecase) (now : Z) := protected a now RevokeAllTokens.

End routes.

(* ------------------------------------------------------------------ *)
(** ** A concrete deployment, used to exercise the definitions *)

Module Scenario.
Import domain repository usecase.

Definition manager : security.JWTManager :=
  {| security.secret := "k3y";
     security.accessTokenExpiry := 15 * time.Minute;
     security.refreshTokenExpiry := 7 * 24 * time.Hour;
     security.issuer := "portal-data" |}.

Definition orchestrator : authUsecase :=
  {| jwtManager := manager; passwordHasher := security.NewPasswordHandler |}.

Definition empty : World := {| users := []; tokens := []; outcomes := [] |}.

Definition alice : RegisterRequest.t :=
  {| RegisterRequest.OrganizationID := "org-1";
     RegisterRequest.RoleID := "role-1";
     RegisterRequest.Name := "Alice";
     RegisterRequest.Username := "alice";
     RegisterRequest.EmployeeID := "";
     RegisterRequest.Position := "";
     RegisterRequest.Email := "a@x.com";
     RegisterRequest.Password := "longenough1";
     RegisterRequest.Address := "";
     RegisterRequest.Phone := "" |}.

(** Alice registers five seconds after the epoch. *)
Definition t_register : Z := 5 * time.Second + 7.
Definition registered : result AuthResponse.t error * World :=
  Register orchestrator t_register "user-1" "session-1" "salt" alice empty.
Definition w_registered : World := snd registered.

Definition access1 : security.TokenString :=
  security.generateAccessToken manager t_register "user-1" "org-1" "role-1" "a@x.com".
Definition refresh1 : security.TokenString :=
  security.generateRefreshToken manager t_register "user-1" "org-1" "role-1" "a@x.com".

(** She logs in from a second device a minute later. *)
Definition t_login : Z := 65 * time.Second.
Definition logged_in : result AuthResponse.t error * World :=
  Login orchestrator t_login "session-2"
    {| LoginRequest.Email := "a@x.com"; LoginRequest.Password := "longenough1" |} w_registered.
Definition w_two_sessions : World := snd logged_in.

Definition access2 : security.TokenString :=
  security.generateAccessToken manager t_login "user-1" "org-1" "role-1" "a@x.com".
Definition refresh2 : security.TokenString :=
  security.generateRefreshToken manager t_login "user-1" "org-1" "role-1" "a@x.com".

(** The first device rotates its pair two minutes after the epoch. *)
Definition t_refresh : Z := 120 * time.Second.
Definition refreshed : result AuthResponse.t error * World :=
  RefreshToken orchestrator t_refresh "session-3" refresh1 w_registered.
Definition w_refreshed : World := snd refreshed.

Definition t_later : Z := 180 * time.Second.

(** The second device rotates its pair half a second after logging in. *)
Definition t_hasty : Z := t_login + 500000000.
Definition hasty : result AuthResponse.t error * World :=
  RefreshToken orchestrator t_hasty "session-3" refresh2 w_two_sessions.

(** A token never issued to anybody. *)
Definition stranger : security.TokenString := jwt.Malformed "no.such.token".

(** The claims of Alice's first access token. *)
Definition claims1 : security.Claims :=
  security.newClaims manager t_register (security.accessTokenExpiry manager)
    "user-1" "org-1" "role-1" "a@x.com".

(** The same claims signed with the deployment's secret under HS384. *)
Definition hs384_token : security.TokenString :=
  jwt.SignedString jwt.SHA384 claims1 (security.secret manager).

(** The same claims under the algorithm none, with an empty signature. *)
Definition none_token : security.TokenString :=
  jwt.Compact "none" claims1 (jwt.OtherSignature "").

(** A session that expires at the instant 100, read at that instant. *)
Definition session_at_expiry : Token.t :=
  {| Token.ID := "session-9";
     Token.UserID := "user-1";
     Token.AccessToken := access1;
     Token.RefreshToken := refresh1;
     Token.ExpiresAt := 100;
     Token.Revoked := false;
     Token.CreatedAt := 0 |}.

(** A password of 73 bytes. *)
Definition long_password : string :=
  "0123456789012345678901234567890123456789012345678901234567890123456789012".

(** The row the registration wrote for Alice. *)
Definition alice_user : User.t :=
  {| User.ID := "user-1";
     User.OrganizationID := "org-1";
     User.RoleID := "role-1";
     User.Name := "Alice";
     User.Username := "alice";
     User.EmployeeID := None;
     User.Position := None;
     User.Email := "a@x.com";
     User.PasswordHash := bcrypt.Digest 10 "salt" "longenough1";
     User.Address := None;
     User.Phone := None;
     User.Thumbnail := None;
     User.Status := "active";
     User.CreatedAt := t_register;
     User.UpdatedAt := t_register |}.

(** The pair minted for Alice at [now], and her first two sessions. *)
Definition pair_at (now : Z) : security.TokenPair :=
  {| security.AccessToken :=
       security.generateAccessToken manager now "user-1" "org-1" "role-1" "a@x.com";
     security.RefreshToken :=
       security.generateRefreshToken manager now "user-1" "org-1" "role-1" "a@x.com";
     security.ExpiresIn := 900;
     security.TokenType := "Bearer" |}.
Definition session1 : Token.t := newSession "session-1" "user-1" (pair_at t_register) t_register.
Definition session2 : Token.t := newSession "session-2" "user-1" (pair_at t_login) t_login.

(** Bob, whose account is suspended, stored beside Alice. *)
Definition bob_user : User.t :=
  {| User.ID := "user-2";
     User.OrganizationID := "org-1";
     User.RoleID := "role-2";
     User.Name := "Bob";
     User.Username := "bob";
     User.EmployeeID := None;
     User.Position := None;
     User.Email := "b@x.com";
     User.PasswordHash := bcrypt.Digest 10 "pepper" "bobs-password";
     User.Address := None;
     User.Phone := None;
     User.Thumbnail := None;
     User.Status := "suspended";
     User.CreatedAt := t_login;
     User.UpdatedAt := t_login |}.
Definition w_with_bob : World := with_users w_two_sessions [alice_user; bob_user].

(** A session Bob opened before he was suspended. *)
Definition bob_pair : security.TokenPair :=
  {| security.AccessToken :=
       security.generateAccessToken manager t_login "user-2" "org-1" "role-2" "b@x.com";
     security.RefreshToken :=
       security.generateRefreshToken manager t_login "user-2" "org-1" "role-2" "b@x.com";
     security.ExpiresIn := 900;
     security.TokenType := "Bearer" |}.
Definition bob_session : Token.t := newSession "session-7" "user-2" bob_pair t_login.
Definition w_bob_session : World :=
  with_tokens w_with_bob (tokens w_with_bob ++ [bob_session]).

(** The instant at which Alice's first access token expires. *)
Definition t_expired : Z := 905 * time.Second.

End Scenario.

(* ================================================================== *)
(** * Properties *)

Import domain repository usecase.

(** ** Sessions: expiry and validity *)

Section SessionPredicates.
Variables (now : Z) (t : Token.t).

Lemma IsExpired_spec : Token.IsExpired now t = true <-> Token.ExpiresAt t < now.
Proof. unfold Token.IsExpired, time.After. apply Z.ltb_lt. Qed.

Lemma IsValid_spec :
  Token.IsValid now t = true <-> Token.Revoked t = false /\ now <= Token.ExpiresAt t.
Proof.
  unfold Token.IsValid, Token.IsExpired, time.After.
  rewrite andb_true_iff, !negb_true_iff, Z.ltb_ge. tauto.
Qed.
End SessionPredicates.

(** C7 (as amended). [IsExpired] and [IsValid] are functions of the session
    and of the clock reading alone; a session is expired exactly when the
    clock is past its expiry, and valid exactly when it is not revoked and
    the clock is not past its expiry: the instant of expiry itself is still
    valid. *)
Theorem C7_IsValid_iff_not_revoked_and_not_past_expiry :
  forall (now : Z) (t : Token.t),
    (Token.IsExpired now t = true <-> Token.ExpiresAt t < now) /\
    (Token.IsValid now t = true <-> Token.Revoked t = false /\ now <= Token.ExpiresAt t).
Proof. intros now t. split; [apply IsExpired_spec | apply IsValid_spec]. Qed.

(** C7 (as stated) fails at the instant of expiry: the session is valid
    although [now < expiry] is false. *)
Lemma C7_valid_at_the_instant_of_expiry :
  ~ (forall (now : Z) (t : Token.t),
        Token.IsValid now t = true <->
        Token.Revoked t = false /\ now < Token.ExpiresAt t).
Proof.
  intros H.
  destruct (H 100 Scenario.session_at_expiry) as [H1 _].
  destruct (H1 eq_refl) as [_ Hlt]. simpl in Hlt. lia.
Qed.

(** ** The credential hasher *)

Lemma substring_whole (s : string) :
  forall n : nat, (String.length s <= n)%nat -> substring 0 n s = s.
Proof.
  induction s as [|c s IH]; intros [|n] Hn; simpl in *; try reflexivity; try lia.
  f_equal. apply IH. lia.
Qed.

Lemma key_of_short (password : string) :
  security.len password <= 72 -> bcrypt.key_of password = password.
Proof.
  unfold security.len, bcrypt.key_of. intros H. apply substring_whole. lia.
Qed.

(** C9 (as amended). [Hash] of a password shorter than 8 bytes fails with
    ErrPasswordTooShort; of a password of 8 to 72 bytes it returns the bcrypt
    digest, without error; a password longer than 72 bytes is refused by
    bcrypt and [Hash] returns that error. *)
Theorem C9_Hash_by_password_length :
  forall (salt password : string),
    (security.len password < 8 /\
     security.Hash security.NewPasswordHandler salt password
     = Err security.ErrPasswordTooShort)
    \/
    (8 <= security.len password <= 72 /\
     security.Hash security.NewPasswordHandler salt password
     = Ok (bcrypt.Digest bcrypt.DefaultCost salt password))
    \/
    (72 < security.len password /\
     security.Hash security.NewPasswordHandler salt password
     = Err (errorVar errors.bcrypt_ErrPasswordTooLong)).
Proof.
  intros salt password. unfold security.Hash, bcrypt.GenerateFromPassword.
  fold (security.len password).
  destruct (security.len password <? 8) eqn:Hshort.
  - left. apply Z.ltb_lt in Hshort. split; [assumption | reflexivity].
  - right. apply Z.ltb_ge in Hshort.
    destruct (72 <? security.len password) eqn:Hlong.
    + right. apply Z.ltb_lt in Hlong. split; [assumption | reflexivity].
    + left. apply Z.ltb_ge in Hlong. split; [lia |].
      simpl. rewrite key_of_short by assumption. reflexivity.
Qed.

(** C9 (as stated) fails for a password of 73 bytes: it is at least 8 long
    and [Hash] returns an error. *)
Lemma C9_long_password_is_refused :
  ~ (forall (salt password : string),
        8 <= security.len password ->
        exists hash, security.Hash security.NewPasswordHandler salt password = Ok hash).
Proof.
  intros H.
  destruct (H "salt" Scenario.long_password) as [hash Hhash].
  - vm_compute. discriminate.
  - vm_compute in Hhash. discriminate.
Qed.

(** ** The token issuer: which algorithms are accepted *)

Lemma GetSigningMethod_Alg (alg : string) (m : jwt.SigningMethod) :
  jwt.GetSigningMethod alg = Some m -> jwt.Alg m = alg.
Proof.
  unfold jwt.GetSigningMethod. intros H.
  apply find_some in H. destruct H as [_ H]. now apply String.eqb_eq.
Qed.

Lemma keyFunc_refuses_non_HMAC (j : security.JWTManager) (token : jwt.Token security.Claims) :
  jwt.is_SigningMethodHMAC (jwt.Method token) = false -> security.keyFunc j token = None.
Proof. unfold security.keyFunc. now intros ->. Qed.

(** A token whose header names no HMAC algorithm never gets past the key
    function, whatever its signature. *)
Lemma ValidateToken_rejects_non_HMAC (j : security.JWTManager) (now : Z)
      (alg : string) (claims : security.Claims) (sig : jwt.Signature security.Claims) :
  alg <> "HS256" -> alg <> "HS384" -> alg <> "HS512" ->
  security.ValidateToken j now (jwt.Compact alg claims sig)
  = Err (errorVar errors.ErrInvalidToken).
Proof.
  intros H256 H384 H512.
  unfold security.ValidateToken, jwt.ParseWithClaims. simpl security.is_empty. cbv iota.
  destruct (jwt.GetSigningMethod alg) as [m|] eqn:Hm; [|reflexivity].
  apply GetSigningMethod_Alg in Hm.
  rewrite keyFunc_refuses_non_HMAC; [reflexivity|].
  destruct m as [h| | | | |]; try reflexivity.
  destruct h; simpl in Hm; congruence.
Qed.

(** C5 (as amended). A token whose header declares an algorithm outside the
    HMAC family (HS256, HS384, HS512), the algorithm none included, is
    rejected with ErrInvalidToken whatever its signature, by the issuer and
    by the orchestrator, and no claims are returned. *)
Theorem C5_non_HMAC_algorithm_is_rejected :
  forall (a : authUsecase) (now : Z) (alg : string) (claims : security.Claims)
         (sig : jwt.Signature security.Claims) (w : World),
    alg <> "HS256" -> alg <> "HS384" -> alg <> "HS512" ->
    security.ValidateToken (jwtManager a) now (jwt.Compact alg claims sig)
    = Err (errorVar errors.ErrInvalidToken)
    /\ ValidateToken a now (jwt.Compact alg claims sig) w
       = (Err (errorVar errors.ErrInvalidToken), w).
Proof.
  intros a now alg claims sig w H256 H384 H512.
  pose proof (ValidateToken_rejects_non_HMAC (jwtManager a) now alg claims sig H256 H384 H512) as H.
  split; [exact H|]. unfold ValidateToken. rewrite H. reflexivity.
Qed.

(** C5 at the token that declares the algorithm none. *)
Lemma C5_none_algorithm_witness :
  security.ValidateToken Scenario.manager Scenario.t_later Scenario.none_token
  = Err (errorVar errors.ErrInvalidToken)
  /\ ValidateToken Scenario.orchestrator Scenario.t_later Scenario.none_token Scenario.empty
     = (Err (errorVar errors.ErrInvalidToken), Scenario.empty).
Proof.
  apply (C5_non_HMAC_algorithm_is_rejected Scenario.orchestrator Scenario.t_later
           "none" Scenario.claims1 (jwt.OtherSignature "") Scenario.empty);
    discriminate.
Defined.

(** C5 (as stated) fails for HS384: a token whose header declares HS384 and
    whose signature is the HS384 MAC under the configured secret is not
    HS256, and [ValidateToken] returns its claims. *)
Lemma C5_HS384_token_is_accepted :
  ~ (forall (j : security.JWTManager) (now : Z) (alg : string)
            (claims : security.Claims) (sig : jwt.Signature security.Claims),
        alg <> "HS256" ->
        security.ValidateToken j now (jwt.Compact alg claims sig)
        = Err (errorVar errors.ErrInvalidToken)).
Proof.
  intros H.
  specialize (H Scenario.manager Scenario.t_later "HS384" Scenario.claims1
                (jwt.HMAC jwt.SHA384 "k3y" ("HS384", Scenario.claims1))).
  assert (Hne : "HS384" <> "HS256") by discriminate.
  specialize (H Hne). vm_compute in H. discriminate.
Qed.

(** ** The database: what one statement does *)

Lemma statement_inv (w w' : World) (o : option error) :
  statement w = (o, w') ->
  users w' = users w /\ tokens w' = tokens w /\
  (o = None \/ exists msg, o = Some (errorString msg)) /\
  (healthy w -> o = None /\ healthy w').
Proof.
  unfold statement, healthy. destruct w as [us ts os]; simpl.
  destruct os as [|[msg|] rest]; intros H; inversion H; subst; clear H; simpl;
    (split; [reflexivity | split; [reflexivity | split]]); eauto;
    intros Hh; inversion Hh; subst; try discriminate; auto.
Qed.

Lemma GetContext_healthy {R : Type} (rows : World -> list R) (w : World) :
  healthy w ->
  exists w', users w' = users w /\ tokens w' = tokens w /\ healthy w' /\
    GetContext rows w =
    (match rows w' with
     | [] => Err (errorVar errors.sql_ErrNoRows)
     | r :: _ => Ok r
     end, w').
Proof.
  intros Hh. unfold GetContext.
  destruct (statement w) as [o w'] eqn:Hs.
  destruct (statement_inv _ _ _ Hs) as (Hu & Ht & _ & Hn).
  destruct (Hn Hh) as [-> Hh'].
  exists w'. repeat split; auto. destruct (rows w'); reflexivity.
Qed.

Lemma ExecContext_healthy (update : World -> World) (affected : World -> Z) (w : World) :
  healthy w ->
  exists w', users w' = users w /\ tokens w' = tokens w /\ healthy w' /\
    ExecContext update affected w = (Ok (affected w'), update w').
Proof.
  intros Hh. unfold ExecContext.
  destruct (statement w) as [o w'] eqn:Hs.
  destruct (statement_inv _ _ _ Hs) as (Hu & Ht & _ & Hn).
  destruct (Hn Hh) as [-> Hh'].
  exists w'. repeat split; auto.
Qed.

(** Replaces the next [GetContext] or [ExecContext] of the goal by its
    result on a healthy database. *)
Ltac healthy_step Hh :=
  match goal with
  | |- context [GetContext ?rows ?w] =>
      let w' := fresh "w" in
      let Hu := fresh "Hu" in
      let Ht := fresh "Ht" in
      let Hh' := fresh "Hh" in
      let Hg := fresh "Hg" in
      destruct (GetContext_healthy rows w Hh) as (w' & Hu & Ht & Hh' & Hg);
      rewrite Hg; cbv beta; rewrite ?Hu, ?Ht
  | |- context [ExecContext ?upd ?aff ?w] =>
      let w' := fresh "w" in
      let Hu := fresh "Hu" in
      let Ht := fresh "Ht" in
      let Hh' := fresh "Hh" in
      let Hg := fresh "Hg" in
      destruct (ExecContext_healthy upd aff w Hh) as (w' & Hu & Ht & Hh' & Hg);
      rewrite Hg; cbv beta; rewrite ?Hu, ?Ht
  end.

(** ** Lookups that find no row *)

Lemma newest_nil (rows : list Token.t) : rows = [] -> newest rows = [].
Proof. now intros ->. Qed.

Lemma GetTokenByRefreshToken_no_row (rt : security.TokenString) (w : World) :
  healthy w ->
  filter (by_refresh_token rt) (tokens w) = [] ->
  fst (GetTokenByRefreshToken rt w) = Err no_rows.
Proof.
  intros Hh Hnone. unfold GetTokenByRefreshToken.
  healthy_step Hh. rewrite Hnone. reflexivity.
Qed.

Lemma GetTokenByAccessToken_no_row (t : security.TokenString) (w : World) :
  healthy w ->
  filter (by_access_token t) (tokens w) = [] ->
  fst (GetTokenByAccessToken t w) = Err no_rows.
Proof.
  intros Hh Hnone. unfold GetTokenByAccessToken.
  healthy_step Hh. rewrite Hnone. reflexivity.
Qed.

(** C4 (what the code does). On a database that answers, a lookup by refresh
    token or by access token that matches no session row fails with the
    driver's ErrNoRows wrapped as a database error, and [errors.Is] of that
    error and ErrNotFound is false. *)
Theorem C4_lookup_without_row_is_not_ErrNotFound :
  forall (t : security.TokenString) (w : World),
    healthy w ->
    filter (by_refresh_token t) (tokens w) = [] ->
    filter (by_access_token t) (tokens w) = [] ->
    fst (GetTokenByRefreshToken t w) = Err no_rows /\
    fst (GetTokenByAccessToken t w) = Err no_rows /\
    errors.Is no_rows errors.ErrNotFound = false.
Proof.
  intros t w Hh Hr Ha. repeat split.
  - now apply GetTokenByRefreshToken_no_row.
  - now apply GetTokenByAccessToken_no_row.
Qed.

(** C4 at a token nobody was issued, in the store holding Alice's session. *)
Lemma C4_stranger_witness :
  fst (GetTokenByRefreshToken Scenario.stranger Scenario.w_registered) = Err no_rows /\
  fst (GetTokenByAccessToken Scenario.stranger Scenario.w_registered) = Err no_rows /\
  errors.Is no_rows errors.ErrNotFound = false.
Proof.
  apply (C4_lookup_without_row_is_not_ErrNotFound Scenario.stranger Scenario.w_registered).
  - vm_compute. constructor.
  - vm_compute. reflexivity.
  - vm_compute. reflexivity.
Defined.

(** ** Login: unknown e-mail against wrong password *)

Lemma Login_unknown_email (a : authUsecase) (now : Z) (tokenID : string)
      (req : LoginRequest.t) (w : World) :
  healthy w ->
  filter (fun u => String.eqb (User.Email u) (LoginRequest.Email req) && not_deleted u) (users w) = [] ->
  fst (Login a now tokenID req w) = Err (wrapError "failed to get user" no_rows).
Proof.
  intros Hh Hnone. unfold Login, GetUserByEmail.
  healthy_step Hh. rewrite Hnone. reflexivity.
Qed.

Lemma Login_wrong_password (a : authUsecase) (now : Z) (tokenID : string)
      (req : LoginRequest.t) (w : World) (u : User.t) (rest : list User.t) :
  healthy w ->
  filter (fun u => String.eqb (User.Email u) (LoginRequest.Email req) && not_deleted u) (users w)
  = u :: rest ->
  security.Verify (passwordHasher a) (LoginRequest.Password req) (User.PasswordHash u) = false ->
  fst (Login a now tokenID req w) = Err (errorVar errors.ErrInvalidCredentials).
Proof.
  intros Hh Hsome Hverify. unfold Login, GetUserByEmail.
  healthy_step Hh. rewrite Hsome. cbv iota. rewrite Hverify. reflexivity.
Qed.

(** C3 (what the code does). On a database that answers, a login with an
    e-mail no identity has fails with the wrapped no-rows database error,
    which is not ErrInvalidCredentials and is answered 500 over HTTP; a login
    with a known e-mail and a password that does not verify fails with
    ErrInvalidCredentials, answered 401. The two cases are told apart. *)
Theorem C3_unknown_email_is_told_apart_from_wrong_password :
  forall (a : authUsecase) (now : Z) (tokenID : string)
         (unknown known : LoginRequest.t) (w : World) (u : User.t) (rest : list User.t),
    healthy w ->
    filter (fun u => String.eqb (User.Email u) (LoginRequest.Email unknown) && not_deleted u) (users w)
    = [] ->
    filter (fun u => String.eqb (User.Email u) (LoginRequest.Email known) && not_deleted u) (users w)
    = u :: rest ->
    security.Verify (passwordHasher a) (LoginRequest.Password known) (User.PasswordHash u) = false ->
    fst (Login a now tokenID known w) = Err (errorVar errors.ErrInvalidCredentials) /\
    fst (Login a now tokenID unknown w) = Err (wrapError "failed to get user" no_rows) /\
    errors.Is (wrapError "failed to get user" no_rows) errors.ErrInvalidCredentials = false /\
    delivery.status (delivery.handleError (errorVar errors.ErrInvalidCredentials)) = 401 /\
    delivery.status (delivery.handleError (wrapError "failed to get user" no_rows)) = 500.
Proof.
  intros a now tokenID unknown known w u rest Hh Hnone Hsome Hverify.
  split; [eapply Login_wrong_password; eassumption|].
  split; [apply Login_unknown_email; assumption|].
  repeat split.
Qed.

(** C3 at Alice's e-mail with a wrong password and at an unknown e-mail. *)
Lemma C3_alice_witness :
  fst (Login Scenario.orchestrator Scenario.t_login "session-2"
         {| LoginRequest.Email := "a@x.com"; LoginRequest.Password := "not-her-password" |}
         Scenario.w_registered)
  = Err (errorVar errors.ErrInvalidCredentials) /\
  fst (Login Scenario.orchestrator Scenario.t_login "session-2"
         {| LoginRequest.Email := "nobody@x.com"; LoginRequest.Password := "not-her-password" |}
         Scenario.w_registered)
  = Err (wrapError "failed to get user" no_rows) /\
  errors.Is (wrapError "failed to get user" no_rows) errors.ErrInvalidCredentials = false /\
  delivery.status (delivery.handleError (errorVar errors.ErrInvalidCredentials)) = 401 /\
  delivery.status (delivery.handleError (wrapError "failed to get user" no_rows)) = 500.
Proof.
  eapply (C3_unknown_email_is_told_apart_from_wrong_password
            Scenario.orchestrator Scenario.t_login "session-2"
            {| LoginRequest.Email := "nobody@x.com"; LoginRequest.Password := "not-her-password" |}
            {| LoginRequest.Email := "a@x.com"; LoginRequest.Password := "not-her-password" |}
            Scenario.w_registered).
  - vm_compute. constructor.
  - vm_compute. reflexivity.
  - vm_compute. reflexivity.
  - vm_compute. reflexivity.
Defined.

(** ** ValidateToken: the store-backed check *)

Lemma ValidateToken_no_row (a : authUsecase) (now : Z) (t : security.TokenString)
      (claims : security.Claims) (w : World) :
  security.ValidateToken (jwtManager a) now t = Ok claims ->
  healthy w ->
  filter (by_access_token t) (tokens w) = [] ->
  fst (ValidateToken a now t w) = Err (wrapError "failed to get stored token" no_rows).
Proof.
  intros Hsig Hh Hnone. unfold ValidateToken, GetTokenByAccessToken. rewrite Hsig.
  healthy_step Hh. rewrite Hnone. reflexivity.
Qed.

Lemma ValidateToken_row_invalid (a : authUsecase) (now : Z) (t : security.TokenString)
      (claims : security.Claims) (w : World) (row : Token.t) (rest : list Token.t) :
  security.ValidateToken (jwtManager a) now t = Ok claims ->
  healthy w ->
  newest (filter (by_access_token t) (tokens w)) = row :: rest ->
  Token.IsValid now row = false ->
  fst (ValidateToken a now t w) = Err (errorVar errors.ErrTokenRevoked).
Proof.
  intros Hsig Hh Hrow Hinvalid. unfold ValidateToken, GetTokenByAccessToken. rewrite Hsig.
  healthy_step Hh. rewrite Hrow. cbv iota. rewrite Hinvalid. reflexivity.
Qed.

(** C1 (what the code does). For a token that passes the issuer's validation,
    on a database that answers: (a) when no session row carries it as access
    token, the orchestrator's [ValidateToken] does not return the claims but
    fails with the wrapped no-rows database error; (b) when the row found is
    not valid (revoked or past expiry) it fails with ErrTokenRevoked. *)
Theorem C1_ValidateToken_against_the_store :
  forall (a : authUsecase) (now : Z) (t : security.TokenString)
         (claims : security.Claims) (w : World),
    security.ValidateToken (jwtManager a) now t = Ok claims ->
    healthy w ->
    (filter (by_access_token t) (tokens w) = [] ->
     fst (ValidateToken a now t w) = Err (wrapError "failed to get stored token" no_rows)) /\
    (forall row rest,
        newest (filter (by_access_token t) (tokens w)) = row :: rest ->
        Token.IsValid now row = false ->
        fst (ValidateToken a now t w) = Err (errorVar errors.ErrTokenRevoked)).
Proof.
  intros a now t claims w Hsig Hh. split.
  - intros Hnone. eapply ValidateToken_no_row; eassumption.
  - intros row rest Hrow Hinvalid. eapply ValidateToken_row_invalid; eassumption.
Qed.

(** C1 at Alice's access token and a store without any session. *)
Lemma C1_unstored_token_witness :
  fst (ValidateToken Scenario.orchestrator Scenario.t_later Scenario.access1 Scenario.empty)
  = Err (wrapError "failed to get stored token" no_rows).
Proof.
  refine (proj1 (C1_ValidateToken_against_the_store
                   Scenario.orchestrator Scenario.t_later Scenario.access1
                   Scenario.claims1 Scenario.empty _ _) _).
  - vm_compute. reflexivity.
  - vm_compute. constructor.
  - vm_compute. reflexivity.
Defined.

(** ** Revoking by identity and by session id *)

Lemma RevokeUserTokens_error_shape (userID : string) (w : World) (e : error) :
  fst (RevokeUserTokens userID w) = Some e ->
  exists msg, e = wrapError "failed to revoke user tokens" (errorString msg).
Proof.
  unfold RevokeUserTokens, ExecContext.
  destruct (statement w) as [o w'] eqn:Hs.
  destruct (statement_inv _ _ _ Hs) as (_ & _ & [-> | [msg ->]] & _); simpl.
  - discriminate.
  - intros H. inversion H. eauto.
Qed.

(** C10. [RevokeAllTokens] never reports ErrNotFound, whatever the driver
    does; on a database that answers it succeeds for every identity, one
    without any session included, while [RevokeToken] of an id no row has
    fails with ErrNotFound. *)
Theorem C10_RevokeAllTokens_never_ErrNotFound :
  forall (a : authUsecase) (userID id : string) (w : World),
    healthy w ->
    filter (has_id id) (tokens w) = [] ->
    fst (RevokeAllTokens a userID w) = None /\
    (forall script e,
        fst (RevokeAllTokens a userID (with_outcomes w script)) = Some e ->
        errors.Is e errors.ErrNotFound = false) /\
    fst (RevokeToken id w) = Some (errorVar errors.ErrNotFound).
Proof.
  intros a userID id w Hh Hnone. repeat split.
  - unfold RevokeAllTokens, RevokeUserTokens. healthy_step Hh. reflexivity.
  - intros script e. unfold RevokeAllTokens.
    destruct (RevokeUserTokens userID (with_outcomes w script)) as [[e'|] w'] eqn:Hr;
      simpl; [|discriminate].
    intros H. inversion H; subst.
    destruct (RevokeUserTokens_error_shape userID (with_outcomes w script) e') as [msg ->].
    + now rewrite Hr.
    + reflexivity.
  - unfold RevokeToken. healthy_step Hh.
    unfold count_where. rewrite Hnone. reflexivity.
Qed.

(** C10 at an identity and a session id the store does not know. *)
Lemma C10_identity_without_sessions_witness :
  fst (RevokeAllTokens Scenario.orchestrator "user-without-sessions" Scenario.w_registered) = None /\
  (forall script e,
      fst (RevokeAllTokens Scenario.orchestrator "user-without-sessions"
             (with_outcomes Scenario.w_registered script)) = Some e ->
      errors.Is e errors.ErrNotFound = false) /\
  fst (RevokeToken "no-such-session" Scenario.w_registered) = Some (errorVar errors.ErrNotFound).
Proof.
  apply (C10_RevokeAllTokens_never_ErrNotFound Scenario.orchestrator
           "user-without-sessions" "no-such-session" Scenario.w_registered).
  - vm_compute. constructor.
  - vm_compute. reflexivity.
Defined.

(** ** The database under any driver script *)

Lemma GetContext_inv {R : Type} (rows : World -> list R) (w w' : World) (r : result R error) :
  GetContext rows w = (r, w') ->
  users w' = users w /\ tokens w' = tokens w /\
  match r with
  | Ok row => exists rest, rows w' = row :: rest
  | Err e => (e = errorVar errors.sql_ErrNoRows /\ rows w' = []) \/ exists msg, e = errorString msg
  end.
Proof.
  unfold GetContext. destruct (statement w) as [o w0] eqn:Hs.
  destruct (statement_inv _ _ _ Hs) as (Hu & Ht & [-> | [msg ->]] & _).
  - destruct (rows w0) as [|row rest] eqn:Hrows; intros H; inversion H; subst;
      rewrite ?Hrows; eauto 6.
  - intros H; inversion H; subst; eauto 6.
Qed.

Lemma ExecContext_inv (update : World -> World) (affected : World -> Z)
      (w w' : World) (r : result Z error) :
  ExecContext update affected w = (r, w') ->
  exists w0, users w0 = users w /\ tokens w0 = tokens w /\
    match r with
    | Ok n => n = affected w0 /\ w' = update w0
    | Err e => w' = w0 /\ exists msg, e = errorString msg
    end.
Proof.
  unfold ExecContext. destruct (statement w) as [o w0] eqn:Hs.
  destruct (statement_inv _ _ _ Hs) as (Hu & Ht & [-> | [msg ->]] & _);
    intros H; inversion H; subst; eexists; eauto 6.
Qed.

Lemma revoke_where_none (sel : Token.t -> bool) (rows : list Token.t) :
  filter sel rows = [] -> revoke_where sel rows = rows.
Proof.
  induction rows as [|t rows IH]; simpl; [reflexivity|].
  destruct (sel t); [discriminate|]. intros H. now rewrite IH.
Qed.

Lemma count_where_zero (sel : Token.t -> bool) (rows : list Token.t) :
  count_where sel rows = 0 -> filter sel rows = [].
Proof.
  unfold count_where. destruct (filter sel rows); [reflexivity|]. simpl. lia.
Qed.

(** Reads leave both tables as they are. *)
Lemma GetTokenByRefreshToken_inv (rt : security.TokenString) (w w' : World)
      (r : result Token.t error) :
  GetTokenByRefreshToken rt w = (r, w') ->
  users w' = users w /\ tokens w' = tokens w /\
  match r with
  | Ok row => exists rest, newest (filter (by_refresh_token rt) (tokens w)) = row :: rest
  | Err e => errors.Is e errors.ErrNotFound = false /\
             ((e = no_rows /\ newest (filter (by_refresh_token rt) (tokens w)) = [])
              \/ exists msg, e = wrapError "database error" (errorString msg))
  end.
Proof.
  unfold GetTokenByRefreshToken.
  destruct (GetContext _ w) as [[row|e] w0] eqn:Hg;
    destruct (GetContext_inv _ _ _ _ Hg) as (Hu & Ht & Hr);
    intros H; inversion H; subst; (split; [assumption | split; [assumption|]]).
  - destruct Hr as [rest Hr]. rewrite Ht in Hr. eauto.
  - destruct Hr as [[-> Hr] | [msg ->]]; split; try reflexivity; eauto.
    left. rewrite Ht in Hr. split; [reflexivity | assumption].
Qed.

Lemma GetTokenByAccessToken_inv (t : security.TokenString) (w w' : World)
      (r : result Token.t error) :
  GetTokenByAccessToken t w = (r, w') ->
  users w' = users w /\ tokens w' = tokens w /\
  match r with
  | Ok row => exists rest, newest (filter (by_access_token t) (tokens w)) = row :: rest
  | Err e => errors.Is e errors.ErrNotFound = false /\
             ((e = no_rows /\ newest (filter (by_access_token t) (tokens w)) = [])
              \/ exists msg, e = wrapError "database error" (errorString msg))
  end.
Proof.
  unfold GetTokenByAccessToken.
  destruct (GetContext _ w) as [[row|e] w0] eqn:Hg;
    destruct (GetContext_inv _ _ _ _ Hg) as (Hu & Ht & Hr);
    intros H; inversion H; subst; (split; [assumption | split; [assumption|]]).
  - destruct Hr as [rest Hr]. rewrite Ht in Hr. eauto.
  - destruct Hr as [[-> Hr] | [msg ->]]; split; try reflexivity; eauto.
    left. rewrite Ht in Hr. split; [reflexivity | assumption].
Qed.

Lemma GetUserByID_tables (id : string) (w w' : World) (r : result User.t error) :
  GetUserByID id w = (r, w') -> users w' = users w /\ tokens w' = tokens w.
Proof.
  unfold GetUserByID.
  destruct (GetContext _ w) as [[row|e] w0] eqn:Hg;
    destruct (GetContext_inv _ _ _ _ Hg) as (Hu & Ht & _);
    intros H; inversion H; subst; auto.
Qed.

Lemma GetUserByEmail_tables (email : string) (w w' : World) (r : result User.t error) :
  GetUserByEmail email w = (r, w') -> users w' = users w /\ tokens w' = tokens w.
Proof.
  unfold GetUserByEmail.
  destruct (GetContext _ w) as [[row|e] w0] eqn:Hg;
    destruct (GetContext_inv _ _ _ _ Hg) as (Hu & Ht & _);
    intros H; inversion H; subst; auto.
Qed.

Lemma IsEmailExists_tables (email : string) (w w' : World) (r : result bool error) :
  IsEmailExists email w = (r, w') -> users w' = users w /\ tokens w' = tokens w.
Proof.
  unfold IsEmailExists.
  destruct (GetContext _ w) as [[row|e] w0] eqn:Hg;
    destruct (GetContext_inv _ _ _ _ Hg) as (Hu & Ht & _);
    intros H; inversion H; subst; auto.
Qed.

Lemma IsUsernameExists_tables (username : string) (w w' : World) (r : result bool error) :
  IsUsernameExists username w = (r, w') -> users w' = users w /\ tokens w' = tokens w.
Proof.
  unfold IsUsernameExists.
  destruct (GetContext _ w) as [[row|e] w0] eqn:Hg;
    destruct (GetContext_inv _ _ _ _ Hg) as (Hu & Ht & _);
    intros H; inversion H; subst; auto.
Qed.

Lemma CreateUser_inv (user : User.t) (w w' : World) (o : option error) :
  CreateUser user w = (o, w') ->
  tokens w' = tokens w /\
  match o with
  | None => users w' = (users w ++ [user])%list
  | Some _ => users w' = users w
  end.
Proof.
  unfold CreateUser.
  destruct (ExecContext _ _ w) as [[n|e] w0] eqn:He;
    destruct (ExecContext_inv _ _ _ _ _ He) as (w1 & Hu & Ht & Hr);
    intros H; inversion H; subst.
  - destruct Hr as [_ ->]. simpl. rewrite Hu. auto.
  - destruct Hr as [-> _]. auto.
Qed.

(** An insert stores the whole row or nothing. *)
Lemma CreateToken_inv (token : Token.t) (w w' : World) (o : option error) :
  CreateToken token w = (o, w') ->
  users w' = users w /\
  match o with
  | None => tokens w' = (tokens w ++ [token])%list
  | Some e => tokens w' = tokens w
  end.
Proof.
  unfold CreateToken.
  destruct (ExecContext _ _ w) as [[n|e] w0] eqn:He;
    destruct (ExecContext_inv _ _ _ _ _ He) as (w1 & Hu & Ht & Hr);
    intros H; inversion H; subst.
  - destruct Hr as [_ ->]. simpl. rewrite Ht. auto.
  - destruct Hr as [-> _]. auto.
Qed.

Lemma RevokeToken_inv (id : string) (w w' : World) (o : option error) :
  RevokeToken id w = (o, w') ->
  users w' = users w /\
  match o with
  | None => tokens w' = revoke_where (has_id id) (tokens w) /\ filter (has_id id) (tokens w) <> []
  | Some e => tokens w' = tokens w
  end.
Proof.
  unfold RevokeToken.
  destruct (ExecContext _ _ w) as [[n|e] w0] eqn:He;
    destruct (ExecContext_inv _ _ _ _ _ He) as (w1 & Hu & Ht & Hr).
  - destruct Hr as [-> ->]. rewrite Ht.
    destruct (count_where (has_id id) (tokens w) =? 0) eqn:Hz;
      intros H; inversion H; subst; simpl; (split; [assumption|]).
    + apply Z.eqb_eq, count_where_zero in Hz. now apply revoke_where_none.
    + split; [reflexivity|]. intros Hnil. apply Z.eqb_neq in Hz.
      apply Hz. unfold count_where. now rewrite Hnil.
  - destruct Hr as [-> _]. intros H; inversion H; subst. auto.
Qed.

Lemma RevokeUserTokens_inv (userID : string) (w w' : World) (o : option error) :
  RevokeUserTokens userID w = (o, w') ->
  users w' = users w /\
  match o with
  | None => tokens w' = revoke_where (has_user userID) (tokens w)
  | Some e => tokens w' = tokens w
  end.
Proof.
  unfold RevokeUserTokens.
  destruct (ExecContext _ _ w) as [[n|e] w0] eqn:He;
    destruct (ExecContext_inv _ _ _ _ _ He) as (w1 & Hu & Ht & Hr);
    intros H; inversion H; subst.
  - destruct Hr as [_ ->]. simpl. rewrite Ht. auto.
  - destruct Hr as [-> _]. auto.
Qed.

(** ** What each operation does to the two tables *)

Lemma Login_effect (a : authUsecase) (now : Z) (tokenID : string) (req : LoginRequest.t)
      (w w' : World) (r : result AuthResponse.t error) :
  Login a now tokenID req w = (r, w') ->
  users w' = users w /\
  match r with
  | Err _ => tokens w' = tokens w
  | Ok resp =>
      exists user tokenPair,
        resp = newAuthResponse user tokenPair /\
        tokens w' = (tokens w ++ [newSession tokenID (User.ID user) tokenPair now])%list
  end.
Proof.
  unfold Login.
  destruct (GetUserByEmail _ w) as [[user|e] w1] eqn:E1;
    destruct (GetUserByEmail_tables _ _ _ _ E1) as [Hu1 Ht1].
  - destruct (negb (security.Verify _ _ _)); [intros H; inversion H; subst; auto|].
    destruct (negb (User.IsActive user)); [intros H; inversion H; subst; auto|].
    destruct (security.GenerateTokenPair _ _ _ _ _ _) as [tokenPair|e];
      [|intros H; inversion H; subst; auto].
    destruct (CreateToken _ w1) as [[e|] w2] eqn:E2;
      destruct (CreateToken_inv _ _ _ _ E2) as [Hu2 Ht2];
      intros H; inversion H; subst; (split; [congruence|]).
    + congruence.
    + exists user, tokenPair. split; [reflexivity|]. now rewrite Ht2, Ht1.
  - destruct (errors.Is e errors.ErrNotFound); intros H; inversion H; subst; auto.
Qed.

(** A registration that fails after the identity was inserted leaves the
    identity in place, without a session. *)
Lemma Register_effect (a : authUsecase) (now : Z) (userID tokenID salt : string)
      (req : RegisterRequest.t) (w w' : World) (r : result AuthResponse.t error) :
  Register a now userID tokenID salt req w = (r, w') ->
  match r with
  | Err e =>
      tokens w' = tokens w /\
      (users w' = users w \/
       exists user inner,
         User.ID user = userID /\
         users w' = (users w ++ [user])%list /\
         (e = wrapError "failed to generate tokens" inner \/
          e = wrapError "failed to store token" inner))
  | Ok resp =>
      exists user tokenPair,
        resp = newAuthResponse user tokenPair /\
        users w' = (users w ++ [user])%list /\
        tokens w' = (tokens w ++ [newSession tokenID (User.ID user) tokenPair now])%list
  end.
Proof.
  unfold Register.
  destruct (IsEmailExists _ w) as [[[|]|e] w1] eqn:E1;
    destruct (IsEmailExists_tables _ _ _ _ E1) as [Hu1 Ht1];
    try solve [intros H; inversion H; subst; auto].
  destruct (IsUsernameExists _ w1) as [[[|]|e] w2] eqn:E2;
    destruct (IsUsernameExists_tables _ _ _ _ E2) as [Hu2 Ht2];
    try solve [intros H; inversion H; subst; split; [congruence | left; congruence]].
  destruct (security.Hash _ _ _) as [passwordHash|e];
    [|intros H; inversion H; subst; split; [congruence | left; congruence]].
  destruct (CreateUser _ w2) as [[e|] w3] eqn:E3;
    destruct (CreateUser_inv _ _ _ _ E3) as [Ht3 Hu3];
    [intros H; inversion H; subst; split; [congruence | left; congruence]|].
  rewrite Hu2, Hu1 in Hu3. rewrite Ht2, Ht1 in Ht3.
  destruct (security.GenerateTokenPair _ _ _ _ _ _) as [tokenPair|e].
  - destruct (CreateToken _ w3) as [[e|] w4] eqn:E4;
      destruct (CreateToken_inv _ _ _ _ E4) as [Hu4 Ht4];
      intros H; inversion H; subst.
    + split; [congruence|]. right. eexists _, e. rewrite Hu4.
      split; [|split; [exact Hu3 | auto]]. reflexivity.
    + eexists _, tokenPair. split; [reflexivity|]. rewrite Hu4, Ht4, Ht3. auto.
  - intros H; inversion H; subst. split; [assumption|]. right. eexists _, e.
    split; [|split; [exact Hu3 | auto]]. reflexivity.
Qed.

Lemma Logout_effect (a : authUsecase) (accessToken refreshToken : security.TokenString)
      (w w' : World) (o : option error) :
  Logout a accessToken refreshToken w = (o, w') ->
  users w' = users w /\
  match o with
  | Some _ => tokens w' = tokens w
  | None =>
      exists target rest,
        newest (filter (by_refresh_token refreshToken) (tokens w)) = target :: rest /\
        security.TokenString_eqb (Token.AccessToken target) accessToken = true /\
        tokens w' = revoke_where (has_id (Token.ID target)) (tokens w)
  end.
Proof.
  unfold Logout.
  destruct (GetTokenByRefreshToken _ w) as [[target|e] w1] eqn:E1;
    destruct (GetTokenByRefreshToken_inv _ _ _ _ E1) as (Hu1 & Ht1 & Hr1).
  - destruct (security.TokenString_eqb (Token.AccessToken target) accessToken) eqn:Hacc; simpl;
      [|intros H; inversion H; subst; auto].
    destruct (RevokeToken _ w1) as [[e|] w2] eqn:E2;
      destruct (RevokeToken_inv _ _ _ _ E2) as [Hu2 Ht2];
      intros H; inversion H; subst; (split; [congruence|]).
    + congruence.
    + destruct Hr1 as [rest Hr1]. destruct Ht2 as [Ht2 _].
      exists target, rest. repeat split; try assumption. now rewrite Ht2, Ht1.
  - destruct (errors.Is e errors.ErrNotFound); intros H; inversion H; subst; auto.
Qed.

Lemma RefreshToken_effect (a : authUsecase) (now : Z) (tokenID : string)
      (refreshToken : security.TokenString) (w w' : World)
      (r : result AuthResponse.t error) :
  RefreshToken a now tokenID refreshToken w = (r, w') ->
  users w' = users w /\
  match r with
  | Err e =>
      tokens w' = tokens w \/
      exists old rest inner,
        newest (filter (by_refresh_token refreshToken) (tokens w)) = old :: rest /\
        e = wrapError "failed to store new token" inner /\
        tokens w' = revoke_where (has_id (Token.ID old)) (tokens w)
  | Ok resp =>
      exists old rest user tokenPair w2 w3,
        newest (filter (by_refresh_token refreshToken) (tokens w)) = old :: rest /\
        Token.IsValid now old = true /\
        resp = newAuthResponse user tokenPair /\
        tokens w2 = tokens w /\
        RevokeToken (Token.ID old) w2 = (None, w3) /\
        tokens w3 = revoke_where (has_id (Token.ID old)) (tokens w) /\
        CreateToken (newSession tokenID (User.ID user) tokenPair now) w3 = (None, w') /\
        tokens w' = (tokens w3 ++ [newSession tokenID (User.ID user) tokenPair now])%list
  end.
Proof.
  unfold RefreshToken.
  destruct (GetTokenByRefreshToken _ w) as [[old|e] w1] eqn:E1;
    destruct (GetTokenByRefreshToken_inv _ _ _ _ E1) as (Hu1 & Ht1 & Hr1).
  - destruct Hr1 as [rest Hr1].
    destruct (Token.IsValid now old) eqn:Hvalid; simpl;
      [|intros H; inversion H; subst; auto].
    destruct (GetUserByID _ w1) as [[user|e] w2] eqn:E2;
      destruct (GetUserByID_tables _ _ _ _ E2) as [Hu2 Ht2];
      [|intros H; inversion H; subst; split; [|left]; congruence].
    destruct (security.GenerateTokenPair _ _ _ _ _ _) as [tokenPair|e];
      [|intros H; inversion H; subst; split; [|left]; congruence].
    destruct (RevokeToken _ w2) as [[e|] w3] eqn:E3;
      destruct (RevokeToken_inv _ _ _ _ E3) as [Hu3 Ht3];
      [intros H; inversion H; subst; split; [|left]; congruence|].
    destruct Ht3 as [Ht3 _].
    assert (Ht3' : tokens w3 = revoke_where (has_id (Token.ID old)) (tokens w))
      by (rewrite Ht3; congruence).
    destruct (CreateToken _ w3) as [[e|] w4] eqn:E4;
      destruct (CreateToken_inv _ _ _ _ E4) as [Hu4 Ht4];
      intros H; inversion H; subst; (split; [congruence|]).
    + right. exists old, rest, e. repeat split; try assumption. congruence.
    + exists old, rest, user, tokenPair, w2, w3.
      repeat split; try assumption. congruence.
  - destruct (errors.Is e errors.ErrNotFound); intros H; inversion H; subst; auto.
Qed.

Lemma RevokeAllTokens_effect (a : authUsecase) (userID : string) (w w' : World)
      (o : option error) :
  RevokeAllTokens a userID w = (o, w') ->
  users w' = users w /\
  match o with
  | Some _ => tokens w' = tokens w
  | None => tokens w' = revoke_where (has_user userID) (tokens w)
  end.
Proof.
  unfold RevokeAllTokens.
  destruct (RevokeUserTokens _ w) as [[e|] w1] eqn:E1;
    destruct (RevokeUserTokens_inv _ _ _ _ E1) as [Hu1 Ht1];
    intros H; inversion H; subst; auto.
Qed.

Lemma ValidateToken_tables (a : authUsecase) (now : Z) (token : security.TokenString)
      (w w' : World) (r : result TokenClaims.t error) :
  ValidateToken a now token w = (r, w') -> users w' = users w /\ tokens w' = tokens w.
Proof.
  unfold ValidateToken.
  destruct (security.ValidateToken _ _ _) as [claims|e];
    [|intros H; inversion H; subst; auto].
  destruct (GetTokenByAccessToken _ w) as [[row|e] w1] eqn:E1;
    destruct (GetTokenByAccessToken_inv _ _ _ _ E1) as (Hu1 & Ht1 & _).
  - destruct (negb (Token.IsValid now row)); intros H; inversion H; subst; auto.
  - destruct (negb (errors.Is e errors.ErrNotFound)); intros H; inversion H; subst; auto.
Qed.

Lemma GetCurrentUser_tables (a : authUsecase) (userID : string)
      (w w' : World) (r : result UserInfo.t error) :
  GetCurrentUser a userID w = (r, w') -> users w' = users w /\ tokens w' = tokens w.
Proof.
  unfold GetCurrentUser.
  destruct (GetUserByID _ w) as [[user|e] w1] eqn:E1;
    destruct (GetUserByID_tables _ _ _ _ E1) as [Hu1 Ht1];
    intros H; inversion H; subst; auto.
Qed.

Lemma revoke_where_length (sel : Token.t -> bool) (rows : list Token.t) :
  List.length (revoke_where sel rows) = List.length rows.
Proof. unfold revoke_where. apply List.length_map. Qed.

(** C6 (as amended). When a call to the orchestrator fails, no session row is
    created (an insert stores a whole row or nothing), and both tables are as
    they were before the call, with two exceptions: a refresh that fails at
    its last step, the insert of the new session, leaves the session it
    consumed revoked; a registration that fails after the identity was
    inserted leaves the identity in place without a session. *)
Theorem C6_failed_call_and_the_store :
  forall (a : authUsecase) (script : list (option string)) (c : Call)
         (w w' : World) (e : error),
    serve a script c w = (Some e, w') ->
    List.length (tokens w') = List.length (tokens w) /\
    (tokens w' = tokens w \/
     exists now tokenID refreshToken old rest inner,
       c = CallRefreshToken now tokenID refreshToken /\
       newest (filter (by_refresh_token refreshToken) (tokens w)) = old :: rest /\
       e = wrapError "failed to store new token" inner /\
       tokens w' = revoke_where (has_id (Token.ID old)) (tokens w)) /\
    (users w' = users w \/
     exists now userID tokenID salt req user inner,
       c = CallRegister now userID tokenID salt req /\
       User.ID user = userID /\
       users w' = (users w ++ [user])%list /\
       (e = wrapError "failed to generate tokens" inner \/
        e = wrapError "failed to store token" inner)).
Proof.
  intros a script c w w' e Hserve.
  assert (Hcases :
            (tokens w' = tokens w \/
             exists now tokenID refreshToken old rest inner,
               c = CallRefreshToken now tokenID refreshToken /\
               newest (filter (by_refresh_token refreshToken) (tokens w)) = old :: rest /\
               e = wrapError "failed to store new token" inner /\
               tokens w' = revoke_where (has_id (Token.ID old)) (tokens w)) /\
            (users w' = users w \/
             exists now userID tokenID salt req user inner,
               c = CallRegister now userID tokenID salt req /\
               User.ID user = userID /\
               users w' = (users w ++ [user])%list /\
               (e = wrapError "failed to generate tokens" inner \/
                e = wrapError "failed to store token" inner))).
  { destruct c; simpl in Hserve; unfold outcome in Hserve.
    - destruct (Login _ _ _ _ _) as [[resp|e0] w0] eqn:E; inversion Hserve; subst.
      destruct (Login_effect _ _ _ _ _ _ _ E) as [Hu Ht]. auto.
    - destruct (Register _ _ _ _ _ _ _) as [[resp|e0] w0] eqn:E; inversion Hserve; subst.
      destruct (Register_effect _ _ _ _ _ _ _ _ _ E)
        as [Ht [Hu | (user & inner & Hid & Hu & He)]]; [auto|].
      split; [auto|]. right. exists now, userID, tokenID, salt, req, user, inner. auto.
    - destruct (Logout_effect _ _ _ _ _ _ Hserve) as [Hu Ht]. auto.
    - destruct (RefreshToken _ _ _ _ _) as [[resp|e0] w0] eqn:E; inversion Hserve; subst.
      destruct (RefreshToken_effect _ _ _ _ _ _ _ E)
        as [Hu [Hsame | (old & rest & inner & Hold & He & Ht)]]; [auto|].
      split; [|auto]. right. exists now, tokenID, refreshToken, old, rest, inner. auto.
    - destruct (RevokeAllTokens_effect _ _ _ _ _ Hserve) as [Hu Ht]. auto.
    - destruct (ValidateToken _ _ _ _) as [[resp|e0] w0] eqn:E; inversion Hserve; subst.
      destruct (ValidateToken_tables _ _ _ _ _ _ E) as [Hu Ht]. auto.
    - destruct (GetCurrentUser _ _ _) as [[resp|e0] w0] eqn:E; inversion Hserve; subst.
      destruct (GetCurrentUser_tables _ _ _ _ _ E) as [Hu Ht]. auto. }
  split; [|exact Hcases].
  destruct Hcases as [[-> | (_ & _ & _ & old & _ & _ & _ & _ & _ & ->)] _];
    [reflexivity | apply revoke_where_length].
Qed.

(** C6 at a rotation whose last insert meets a full disk. *)
Lemma C6_disk_full_witness :
  List.length (tokens (snd (serve Scenario.orchestrator [None; None; None; Some "disk full"]
                              (CallRefreshToken Scenario.t_refresh "session-3" Scenario.refresh1)
                              Scenario.w_registered)))
  = List.length (tokens Scenario.w_registered).
Proof.
  refine (proj1 (C6_failed_call_and_the_store
                   Scenario.orchestrator [None; None; None; Some "disk full"]
                   (CallRefreshToken Scenario.t_refresh "session-3" Scenario.refresh1)
                   Scenario.w_registered _
                   (wrapError "failed to store new token"
                      (wrapError "failed to create token" (errorString "disk full"))) _)).
  vm_compute. reflexivity.
Defined.

(** C6 (as stated) fails for a refresh whose last insert fails: the call
    returns an error and the session it consumed is revoked in the store. *)
Lemma C6_failed_refresh_changes_the_store :
  ~ (forall (a : authUsecase) (now : Z) (tokenID : string) (rt : security.TokenString)
            (w w' : World) (e : error),
        RefreshToken a now tokenID rt w = (Err e, w') -> tokens w' = tokens w).
Proof.
  intros H.
  destruct (RefreshToken Scenario.orchestrator Scenario.t_refresh "session-3" Scenario.refresh1
              (with_outcomes Scenario.w_registered [None; None; None; Some "disk full"]))
    as [[resp|e] w'] eqn:E.
  - vm_compute in E. discriminate.
  - specialize (H _ _ _ _ _ _ _ E). vm_compute in E. inversion E; subst.
    vm_compute in H. discriminate.
Qed.

(** ** Logout touches one row *)

Lemma newest_In (rows : list Token.t) (r : Token.t) (rest : list Token.t) :
  newest rows = r :: rest -> In r rows.
Proof.
  revert r rest. induction rows as [|x rows IH]; simpl; intros r rest H; [discriminate|].
  destruct (newest rows) as [|r' rest'] eqn:Hn.
  - inversion H; auto.
  - destruct (Token.CreatedAt x <? Token.CreatedAt r'); inversion H; subst; eauto.
Qed.

Lemma TokenString_eqb_eq (x y : security.TokenString) :
  security.TokenString_eqb x y = true <-> x = y.
Proof.
  unfold security.TokenString_eqb.
  destruct (security.TokenString_eq_dec x y); split; congruence.
Qed.


Lemma revoke_where_nth_error (sel : Token.t -> bool) (rows : list Token.t) (k : nat) :
  nth_error (revoke_where sel rows) k
  = option_map (fun t => if sel t then revoke t else t) (nth_error rows k).
Proof. unfold revoke_where. apply nth_error_map. Qed.





(** ** Rotation: a consumed refresh token stays consumed *)

Lemma filter_revoke_where (p sel : Token.t -> bool) (rows : list Token.t) :
  (forall r, p (revoke r) = p r) ->
  filter p (revoke_where sel rows) = revoke_where sel (filter p rows).
Proof.
  intros Hp. induction rows as [|x rows IH]; simpl; [reflexivity|].
  destruct (sel x) eqn:Hx; rewrite ?Hp; destruct (p x); simpl; rewrite ?Hx, IH; reflexivity.
Qed.

Lemma newest_revoke_where (sel : Token.t -> bool) (rows : list Token.t) :
  newest (revoke_where sel rows) = revoke_where sel (newest rows).
Proof.
  induction rows as [|x rows IH]; simpl; [reflexivity|].
  fold (revoke_where sel rows). rewrite IH.
  assert (Hc : forall r, Token.CreatedAt (if sel r then revoke r else r) = Token.CreatedAt r)
    by (intros r; destruct (sel r); reflexivity).
  destruct (newest rows) as [|r' rest]; simpl; [reflexivity|].
  rewrite !Hc. destruct (Token.CreatedAt x <? Token.CreatedAt r'); reflexivity.
Qed.








(** Tokens minted in different seconds differ: the issued-at claim has the
    precision of a second. *)
Lemma generateRefreshToken_other_second (j : security.JWTManager) (now now' : Z)
      (userID organizationID roleID email : string) :
  time.Truncate now time.Second <> time.Truncate now' time.Second ->
  security.generateRefreshToken j now userID organizationID roleID email
  <> security.generateRefreshToken j now' userID organizationID roleID email.
Proof.
  intros Hne Heq.
  apply (f_equal (fun t => match t with
                           | jwt.Compact _ c _ => jwt.IssuedAt (security.RegisteredClaims c)
                           | jwt.Malformed _ => None
                           end)) in Heq.
  unfold security.generateRefreshToken, jwt.SignedString, security.newClaims,
    jwt.NewNumericDate in Heq.
  cbn [jwt.IssuedAt security.RegisteredClaims] in Heq.
  injection Heq as Heq. exact (Hne Heq).
Qed.

(** Within one second they do not: a rotation half a second after the login
    mints the very pair it consumes, persists it as a new session, and the
    refresh token is accepted again afterwards. This is why the statement
    below speaks of a token that no later session carries. *)
Lemma rotation_within_the_second_reissues_the_token :
  match fst Scenario.hasty with
  | Ok resp => AuthResponse.RefreshToken resp = Scenario.refresh2
  | Err _ => False
  end /\
  is_ok (fst (RefreshToken Scenario.orchestrator Scenario.t_later "session-4"
                Scenario.refresh2 (snd Scenario.hasty))) = true.
Proof. vm_compute. split; reflexivity. Qed.




(** ** The end-to-end scenario *)

(** Alice registers and her access token validates; she rotates her pair,
    after which the old refresh token is refused and the old access token no
    longer validates; she logs out with the new pair, after which the new
    access token fails with ErrTokenRevoked. *)
Example register_refresh_logout_validate :
  is_ok (fst Scenario.registered) = true /\
  is_ok (fst (ValidateToken Scenario.orchestrator Scenario.t_login Scenario.access1
                Scenario.w_registered)) = true /\
  is_ok (fst Scenario.refreshed) = true /\
  fst (RefreshToken Scenario.orchestrator Scenario.t_later "session-4" Scenario.refresh1
         Scenario.w_refreshed)
  = Err (errorVar errors.ErrTokenExpired) /\
  fst (ValidateToken Scenario.orchestrator Scenario.t_later Scenario.access1
         Scenario.w_refreshed)
  = Err (errorVar errors.ErrTokenRevoked) /\
  (let access3 := security.generateAccessToken Scenario.manager Scenario.t_refresh
                    "user-1" "org-1" "role-1" "a@x.com" in
   let refresh3 := security.generateRefreshToken Scenario.manager Scenario.t_refresh
                     "user-1" "org-1" "role-1" "a@x.com" in
   let logged_out := Logout Scenario.orchestrator access3 refresh3 Scenario.w_refreshed in
   fst logged_out = None /\
   fst (ValidateToken Scenario.orchestrator Scenario.t_later access3 (snd logged_out))
   = Err (errorVar errors.ErrTokenRevoked)).
Proof. vm_compute. repeat split. Qed.

(* ================================================================== *)
(** * Further properties of the code *)

(** ** The token issuer *)

Lemma Truncate_bounds (t d : Z) :
  0 < d -> time.Truncate t d <= t < time.Truncate t d + d.
Proof.
  intros Hd. unfold time.Truncate. pose proof (Z.mod_pos_bound t d Hd). lia.
Qed.

Lemma GetSigningMethod_HMAC (h : jwt.HashAlg) :
  jwt.GetSigningMethod (jwt.Alg (jwt.SigningMethodHMAC h)) = Some (jwt.SigningMethodHMAC h).
Proof. destruct h; reflexivity. Qed.

(** The claims validator finds nothing exactly inside the token's window. *)
Lemma Validate_nil_iff (now : Z) (c : jwt.RegisteredClaims) :
  jwt.Validate now c = [] <->
  (forall exp, jwt.ExpiresAt c = Some exp -> now < exp) /\
  (forall nbf, jwt.NotBefore c = Some nbf -> nbf <= now).
Proof.
  unfold jwt.Validate, time.Before.
  destruct (jwt.ExpiresAt c) as [exp|], (jwt.NotBefore c) as [nbf|];
    repeat match goal with
           | |- context [?a <? ?b] => destruct (Z.ltb_spec a b)
           end;
    simpl; split;
    try (intros Hnil; discriminate Hnil);
    try (intros _; split; intros x Hx; inversion Hx; subst; lia);
    try (intros _; reflexivity);
    try (intros [Hexp Hnbf]; exfalso;
         try (specialize (Hexp _ eq_refl)); try (specialize (Hnbf _ eq_refl)); lia).
Qed.

Lemma Validate_expired (now exp : Z) (c : jwt.RegisteredClaims) :
  jwt.ExpiresAt c = Some exp -> exp <= now ->
  exists rest, jwt.Validate now c = jwt.ErrTokenExpired :: rest.
Proof.
  intros He Hle. unfold jwt.Validate, time.Before. rewrite He.
  destruct (Z.ltb_spec now exp); [lia|]. simpl. eauto.
Qed.

(** What [ValidateToken] does with a token that carries an HMAC of its own
    header and payload. *)
Lemma ValidateToken_SignedString (j : security.JWTManager) (now : Z)
      (h : jwt.HashAlg) (c : security.Claims) (key : string) :
  security.ValidateToken j now (jwt.SignedString h c key) =
  if string_dec key (security.secret j) then
    match jwt.Validate now (security.RegisteredClaims c) with
    | [] => Ok c
    | errs =>
        if jwt.Is (jwt.ErrTokenInvalidClaims :: errs) jwt.ErrTokenExpired
        then Err (errorVar errors.ErrTokenExpired)
        else Err (errorVar errors.ErrInvalidToken)
    end
  else Err (errorVar errors.ErrInvalidToken).
Proof.
  unfold security.ValidateToken, jwt.SignedString, jwt.ParseWithClaims.
  cbn [security.is_empty]. rewrite GetSigningMethod_HMAC.
  cbn [security.keyFunc jwt.Method jwt.is_SigningMethodHMAC jwt.Verify].
  destruct (jwt.Signature_eq_dec _ _ _) as [Heq | Hne].
  - injection Heq as Hkey. destruct (string_dec key (security.secret j)); [|contradiction].
    destruct (jwt.Validate now (security.RegisteredClaims c)); reflexivity.
  - destruct (string_dec key (security.secret j)) as [-> | _]; [|reflexivity].
    exfalso. apply Hne. reflexivity.
Qed.

Lemma ValidateToken_Ok_inv (j : security.JWTManager) (now : Z)
      (t : security.TokenString) (c : security.Claims) :
  security.ValidateToken j now t = Ok c ->
  exists h, t = jwt.SignedString h c (security.secret j) /\
            jwt.Validate now (security.RegisteredClaims c) = [].
Proof.
  unfold security.ValidateToken, jwt.ParseWithClaims.
  destruct t as [alg claims sig | raw].
  - cbn [security.is_empty].
    destruct (jwt.GetSigningMethod alg) as [m|] eqn:Hm; [|simpl; discriminate].
    apply GetSigningMethod_Alg in Hm.
    destruct m as [h| | | | |]; try (simpl; discriminate).
    cbn [security.keyFunc jwt.Method jwt.is_SigningMethodHMAC jwt.Verify].
    destruct (jwt.Signature_eq_dec _ _ _) as [-> | _]; [|simpl; discriminate].
    destruct (jwt.Validate now (security.RegisteredClaims claims)) eqn:Hv.
    + simpl. intros H. inversion H; subst. exists h. split; [|assumption].
      unfold jwt.SignedString. reflexivity.
    + destruct (jwt.Is _ _); discriminate.
  - destruct (security.is_empty (jwt.Malformed raw)); simpl; discriminate.
Qed.

(** X1. [ValidateToken] returns the claims [c] for a token exactly when the
    token is [c] under an HMAC algorithm with the MAC of the manager's
    secret, and the clock is before the expiry of [c] and not before its
    not-before time (each when present). *)
Theorem ValidateToken_accepts_exactly_the_signed_tokens_in_their_window :
  forall (j : security.JWTManager) (now : Z) (t : security.TokenString) (c : security.Claims),
    security.ValidateToken j now t = Ok c <->
    (exists h, t = jwt.SignedString h c (security.secret j)) /\
    (forall exp, jwt.ExpiresAt (security.RegisteredClaims c) = Some exp -> now < exp) /\
    (forall nbf, jwt.NotBefore (security.RegisteredClaims c) = Some nbf -> nbf <= now).
Proof.
  intros j now t c. split.
  - intros H. apply ValidateToken_Ok_inv in H. destruct H as (h & -> & Hv).
    apply Validate_nil_iff in Hv. split; [eauto | exact Hv].
  - intros [[h ->] Hw]. apply Validate_nil_iff in Hw.
    rewrite ValidateToken_SignedString, Hw.
    destruct (string_dec _ _); [reflexivity | contradiction].
Qed.

Lemma ValidateToken_error_kinds (j : security.JWTManager) (now : Z)
      (t : security.TokenString) (e : error) :
  security.ValidateToken j now t = Err e ->
  e = errorVar errors.ErrInvalidToken \/ e = errorVar errors.ErrTokenExpired.
Proof.
  unfold security.ValidateToken.
  destruct (security.is_empty t); [intros H; inversion H; auto|].
  destruct (jwt.ParseWithClaims _ _ _ _ _) as [token|err].
  - destruct (negb (jwt.Valid token)); intros H; inversion H; auto.
  - destruct (jwt.Is err jwt.ErrTokenExpired); intros H; inversion H; auto.
Qed.

(** X2. Every failure of [ValidateToken] is ErrInvalidToken or
    ErrTokenExpired, for every token string whatsoever. *)
Theorem ValidateToken_fails_only_with_invalid_or_expired :
  forall (j : security.JWTManager) (now : Z) (t : security.TokenString),
    match security.ValidateToken j now t with
    | Ok _ => True
    | Err e => e = errorVar errors.ErrInvalidToken \/ e = errorVar errors.ErrTokenExpired
    end.
Proof.
  intros j now t.
  destruct (security.ValidateToken j now t) as [c|e] eqn:H; [exact I|].
  exact (ValidateToken_error_kinds j now t e H).
Qed.

(** X3. A token signed with the manager's secret whose expiry has come
    ([exp <= now]) fails with ErrTokenExpired, whatever its other claims. *)
Theorem ValidateToken_signed_but_expired :
  forall (j : security.JWTManager) (now exp : Z) (h : jwt.HashAlg) (c : security.Claims),
    jwt.ExpiresAt (security.RegisteredClaims c) = Some exp ->
    exp <= now ->
    security.ValidateToken j now (jwt.SignedString h c (security.secret j))
    = Err (errorVar errors.ErrTokenExpired).
Proof.
  intros j now exp h c He Hle.
  rewrite ValidateToken_SignedString.
  destruct (string_dec _ _); [|contradiction].
  destruct (Validate_expired now exp _ He Hle) as [rest ->]. reflexivity.
Qed.


Lemma minted_window (now now' expiry : Z) :
  time.Truncate now time.Second <= now' ->
  now' < time.Truncate (now + expiry) time.Second ->
  forall (j : security.JWTManager) (userID organizationID roleID email : string),
    jwt.Validate now'
      (security.RegisteredClaims
         (security.newClaims j now expiry userID organizationID roleID email)) = [].
Proof.
  intros Hnbf Hexp j userID organizationID roleID email.
  apply Validate_nil_iff. unfold security.newClaims, jwt.NewNumericDate, time.Add. simpl.
  split; intros x Hx; inversion Hx; subst; assumption.
Qed.

(** X5. A pair is minted exactly for a non-empty user id, and its access
    token validates, from the second it was minted in until the second its
    lifetime ends in, to claims that carry the identity it was minted for;
    [GetUserIDFromToken] then returns the user id. *)
Theorem GenerateTokenPair_access_token_round_trip :
  forall (j : security.JWTManager) (now now' : Z)
         (userID organizationID roleID email : string) (pair : security.TokenPair),
    security.GenerateTokenPair j now userID organizationID roleID email = Ok pair ->
    time.Truncate now time.Second <= now' ->
    now' < time.Truncate (now + security.accessTokenExpiry j) time.Second ->
    userID <> "" /\
    security.TokenType pair = "Bearer" /\
    security.GetUserIDFromToken j now' (security.AccessToken pair) = Ok userID /\
    exists c,
      security.ValidateToken j now' (security.AccessToken pair) = Ok c /\
      security.UserID c = userID /\
      security.OrganizationID c = organizationID /\
      security.RoleID c = roleID /\
      security.Email c = email /\
      jwt.Subject (security.RegisteredClaims c) = userID /\
      jwt.Issuer (security.RegisteredClaims c) = security.issuer j.
Proof.
  intros j now now' userID organizationID roleID email pair Hgen Hnbf Hexp.
  unfold security.GenerateTokenPair in Hgen.
  destruct (String.eqb_spec userID "") as [-> | Hne]; [discriminate|].
  inversion Hgen; subst; clear Hgen. cbn [security.AccessToken security.TokenType].
  assert (Hok : security.ValidateToken j now'
                  (security.generateAccessToken j now userID organizationID roleID email)
                = Ok (security.newClaims j now (security.accessTokenExpiry j)
                        userID organizationID roleID email)).
  { unfold security.generateAccessToken. rewrite ValidateToken_SignedString.
    destruct (string_dec _ _); [|contradiction].
    now rewrite minted_window. }
  repeat split; try assumption.
  - unfold security.GetUserIDFromToken. rewrite Hok. reflexivity.
  - eexists. split; [exact Hok|]. repeat split.
Qed.

Lemma now_inside_its_own_window (now expiry : Z) :
  time.Second <= expiry ->
  time.Truncate now time.Second <= now /\
  now < time.Truncate (now + expiry) time.Second.
Proof.
  intros He.
  assert (Hs : 0 < time.Second) by reflexivity.
  pose proof (Truncate_bounds now time.Second Hs).
  pose proof (Truncate_bounds (now + expiry) time.Second Hs).
  lia.
Qed.

(** X6. With an access-token lifetime of at least a second,
    [RefreshAccessToken] succeeds exactly on the tokens [ValidateToken]
    accepts, and the access token it returns validates at once to the
    identity of the token presented; otherwise it returns the validation
    error wrapped, which is still ErrInvalidToken or ErrTokenExpired for
    [errors.Is]. *)
Theorem RefreshAccessToken_outcome :
  forall (j : security.JWTManager) (now : Z) (refreshToken : security.TokenString),
    time.Second <= security.accessTokenExpiry j ->
    match security.RefreshAccessToken j now refreshToken with
    | Ok accessToken =>
        exists c c',
          security.ValidateToken j now refreshToken = Ok c /\
          security.ValidateToken j now accessToken = Ok c' /\
          security.UserID c' = security.UserID c /\
          security.OrganizationID c' = security.OrganizationID c /\
          security.RoleID c' = security.RoleID c /\
          security.Email c' = security.Email c
    | Err e =>
        exists inner,
          security.ValidateToken j now refreshToken = Err inner /\
          e = wrapError "invalid refresh token" inner /\
          (errors.Is e errors.ErrInvalidToken = true \/
           errors.Is e errors.ErrTokenExpired = true)
    end.
Proof.
  intros j now refreshToken Hexpiry. unfold security.RefreshAccessToken.
  destruct (security.ValidateToken j now refreshToken) as [c|inner] eqn:Hv.
  - exists c, (security.newClaims j now (security.accessTokenExpiry j)
                 (security.UserID c) (security.OrganizationID c)
                 (security.RoleID c) (security.Email c)).
    split; [reflexivity|]. split; [|repeat split].
    unfold security.generateAccessToken. rewrite ValidateToken_SignedString.
    destruct (string_dec _ _); [|contradiction].
    destruct (now_inside_its_own_window now _ Hexpiry) as [Hnbf Hexp].
    now rewrite minted_window.
  - exists inner. repeat split.
    destruct (ValidateToken_error_kinds j now refreshToken inner Hv) as [-> | ->]; auto.
Qed.

(** X7. [RefreshAccessToken] does not tell an access token from a refresh
    token: presented with the access token of a pair inside its window, it
    mints a new access token for the same identity. *)
Theorem RefreshAccessToken_accepts_an_access_token :
  forall (j : security.JWTManager) (now now' : Z)
         (userID organizationID roleID email : string) (pair : security.TokenPair),
    security.GenerateTokenPair j now userID organizationID roleID email = Ok pair ->
    time.Truncate now time.Second <= now' ->
    now' < time.Truncate (now + security.accessTokenExpiry j) time.Second ->
    security.RefreshAccessToken j now' (security.AccessToken pair)
    = Ok (security.generateAccessToken j now' userID organizationID roleID email).
Proof.
  intros j now now' userID organizationID roleID email pair Hgen Hnbf Hexp.
  unfold security.GenerateTokenPair in Hgen.
  destruct (String.eqb userID ""); [discriminate|].
  inversion Hgen; subst; clear Hgen. cbn [security.AccessToken].
  unfold security.RefreshAccessToken.
  unfold security.generateAccessToken at 1. rewrite ValidateToken_SignedString.
  destruct (string_dec _ _); [|contradiction].
  now rewrite minted_window.
Qed.

(** ** The credential hasher *)



(** ** The repositories on a database that answers *)

Lemma healthy_with_tokens (w : World) (ts : list Token.t) :
  healthy w -> healthy (with_tokens w ts).
Proof. unfold healthy. now destruct w. Qed.

Lemma healthy_with_users (w : World) (us : list User.t) :
  healthy w -> healthy (with_users w us).
Proof. unfold healthy. now destruct w. Qed.

Lemma GetTokenByRefreshToken_healthy (rt : security.TokenString) (w : World) :
  healthy w ->
  exists w1, users w1 = users w /\ tokens w1 = tokens w /\ healthy w1 /\
    GetTokenByRefreshToken rt w =
    (match newest (filter (by_refresh_token rt) (tokens w)) with
     | [] => Err no_rows
     | row :: _ => Ok row
     end, w1).
Proof.
  intros Hh. unfold GetTokenByRefreshToken.
  destruct (GetContext_healthy
              (fun w => newest (filter (by_refresh_token rt) (tokens w))) w Hh)
    as (w1 & Hu & Ht & Hh1 & Hg).
  rewrite Hg. clear Hg. cbv beta. rewrite Ht. exists w1. repeat split; try assumption.
  destruct (newest _); reflexivity.
Qed.

Lemma GetTokenByAccessToken_healthy (t : security.TokenString) (w : World) :
  healthy w ->
  exists w1, users w1 = users w /\ tokens w1 = tokens w /\ healthy w1 /\
    GetTokenByAccessToken t w =
    (match newest (filter (by_access_token t) (tokens w)) with
     | [] => Err no_rows
     | row :: _ => Ok row
     end, w1).
Proof.
  intros Hh. unfold GetTokenByAccessToken.
  destruct (GetContext_healthy
              (fun w => newest (filter (by_access_token t) (tokens w))) w Hh)
    as (w1 & Hu & Ht & Hh1 & Hg).
  rewrite Hg. clear Hg. cbv beta. rewrite Ht. exists w1. repeat split; try assumption.
  destruct (newest _); reflexivity.
Qed.

Lemma GetUserByID_healthy (id : string) (w : World) :
  healthy w ->
  exists w1, users w1 = users w /\ tokens w1 = tokens w /\ healthy w1 /\
    GetUserByID id w =
    (match filter (fun u => String.eqb (User.ID u) id && not_deleted u) (users w) with
     | [] => Err no_rows
     | user :: _ => Ok user
     end, w1).
Proof.
  intros Hh. unfold GetUserByID.
  destruct (GetContext_healthy
              (fun w => filter (fun u => String.eqb (User.ID u) id && not_deleted u) (users w))
              w Hh) as (w1 & Hu & Ht & Hh1 & Hg).
  rewrite Hg. clear Hg. cbv beta. rewrite Hu. exists w1. repeat split; try assumption.
  destruct (filter _ _); reflexivity.
Qed.

Lemma GetUserByEmail_healthy (email : string) (w : World) :
  healthy w ->
  exists w1, users w1 = users w /\ tokens w1 = tokens w /\ healthy w1 /\
    GetUserByEmail email w =
    (match filter (fun u => String.eqb (User.Email u) email && not_deleted u) (users w) with
     | [] => Err no_rows
     | user :: _ => Ok user
     end, w1).
Proof.
  intros Hh. unfold GetUserByEmail.
  destruct (GetContext_healthy
              (fun w => filter (fun u => String.eqb (User.Email u) email && not_deleted u) (users w))
              w Hh) as (w1 & Hu & Ht & Hh1 & Hg).
  rewrite Hg. clear Hg. cbv beta. rewrite Hu. exists w1. repeat split; try assumption.
  destruct (filter _ _); reflexivity.
Qed.

Lemma GetUserByUsername_healthy (username : string) (w : World) :
  healthy w ->
  exists w1, users w1 = users w /\ tokens w1 = tokens w /\ healthy w1 /\
    GetUserByUsername username w =
    (match filter (fun u => String.eqb (User.Username u) username && not_deleted u) (users w) with
     | [] => Err no_rows
     | user :: _ => Ok user
     end, w1).
Proof.
  intros Hh. unfold GetUserByUsername.
  destruct (GetContext_healthy
              (fun w => filter (fun u => String.eqb (User.Username u) username && not_deleted u)
                          (users w))
              w Hh) as (w1 & Hu & Ht & Hh1 & Hg).
  rewrite Hg. clear Hg. cbv beta. rewrite Hu. exists w1. repeat split; try assumption.
  destruct (filter _ _); reflexivity.
Qed.

Lemma IsEmailExists_healthy (email : string) (w : World) :
  healthy w ->
  exists w1, users w1 = users w /\ tokens w1 = tokens w /\ healthy w1 /\
    IsEmailExists email w =
    (Ok (existsb (fun u => String.eqb (User.Email u) email && not_deleted u) (users w)), w1).
Proof.
  intros Hh. unfold IsEmailExists.
  destruct (GetContext_healthy
              (fun w => [existsb (fun u => String.eqb (User.Email u) email && not_deleted u)
                           (users w)])
              w Hh) as (w1 & Hu & Ht & Hh1 & Hg).
  rewrite Hg. cbv beta. rewrite Hu. exists w1. repeat split; assumption.
Qed.

Lemma IsUsernameExists_healthy (username : string) (w : World) :
  healthy w ->
  exists w1, users w1 = users w /\ tokens w1 = tokens w /\ healthy w1 /\
    IsUsernameExists username w =
    (Ok (existsb (fun u => String.eqb (User.Username u) username && not_deleted u) (users w)), w1).
Proof.
  intros Hh. unfold IsUsernameExists.
  destruct (GetContext_healthy
              (fun w => [existsb (fun u => String.eqb (User.Username u) username && not_deleted u)
                           (users w)])
              w Hh) as (w1 & Hu & Ht & Hh1 & Hg).
  rewrite Hg. cbv beta. rewrite Hu. exists w1. repeat split; assumption.
Qed.

Lemma CreateToken_healthy (token : Token.t) (w : World) :
  healthy w ->
  exists w1, users w1 = users w /\ tokens w1 = (tokens w ++ [token])%list /\ healthy w1 /\
    CreateToken token w = (None, w1).
Proof.
  intros Hh. unfold CreateToken.
  destruct (ExecContext_healthy
              (fun w => with_tokens w (tokens w ++ [token])) (fun _ => 1) w Hh)
    as (w0 & Hu & Ht & Hh0 & He).
  rewrite He. exists (with_tokens w0 (tokens w0 ++ [token])).
  split; [exact Hu|]. split; [simpl; now rewrite Ht|].
  split; [now apply healthy_with_tokens | reflexivity].
Qed.

Lemma CreateUser_healthy (user : User.t) (w : World) :
  healthy w ->
  exists w1, users w1 = (users w ++ [user])%list /\ tokens w1 = tokens w /\ healthy w1 /\
    CreateUser user w = (None, w1).
Proof.
  intros Hh. unfold CreateUser.
  destruct (ExecContext_healthy
              (fun w => with_users w (users w ++ [user])) (fun _ => 1) w Hh)
    as (w0 & Hu & Ht & Hh0 & He).
  rewrite He. exists (with_users w0 (users w0 ++ [user])).
  split; [simpl; now rewrite Hu|]. split; [exact Ht|].
  split; [now apply healthy_with_users | reflexivity].
Qed.

Lemma RevokeToken_healthy (id : string) (w : World) :
  healthy w ->
  exists w1, users w1 = users w /\
    tokens w1 = revoke_where (has_id id) (tokens w) /\ healthy w1 /\
    RevokeToken id w =
    (if count_where (has_id id) (tokens w) =? 0
     then Some (errorVar errors.ErrNotFound) else None, w1).
Proof.
  intros Hh. unfold RevokeToken.
  destruct (ExecContext_healthy
              (fun w => with_tokens w (revoke_where (has_id id) (tokens w)))
              (fun w => count_where (has_id id) (tokens w)) w Hh)
    as (w0 & Hu & Ht & Hh0 & He).
  rewrite He. clear He. cbv beta. rewrite Ht.
  exists (with_tokens w0 (revoke_where (has_id id) (tokens w))).
  split; [exact Hu|]. split; [reflexivity|].
  split; [now apply healthy_with_tokens|].
  destruct (count_where (has_id id) (tokens w) =? 0); reflexivity.
Qed.

Lemma RevokeUserTokens_healthy (userID : string) (w : World) :
  healthy w ->
  exists w1, users w1 = users w /\
    tokens w1 = revoke_where (has_user userID) (tokens w) /\ healthy w1 /\
    RevokeUserTokens userID w = (None, w1).
Proof.
  intros Hh. unfold RevokeUserTokens.
  destruct (ExecContext_healthy
              (fun w => with_tokens w (revoke_where (has_user userID) (tokens w)))
              (fun w => count_where (has_user userID) (tokens w)) w Hh)
    as (w0 & Hu & Ht & Hh0 & He).
  rewrite He. clear He. cbv beta. rewrite Ht.
  exists (with_tokens w0 (revoke_where (has_user userID) (tokens w))).
  split; [exact Hu|]. split; [reflexivity|].
  split; [now apply healthy_with_tokens | reflexivity].
Qed.

(** ** The session store *)

Lemma newest_cases (rows : list Token.t) :
  (rows = [] /\ newest rows = []) \/
  exists r, newest rows = [r] /\ In r rows /\
            forall x, In x rows -> Token.CreatedAt x <= Token.CreatedAt r.
Proof.
  induction rows as [|x rows IH]; [left; auto|]. right.
  destruct IH as [[-> _] | (r & Hr & Hin & Hmax)]; simpl.
  - exists x. repeat split; auto. intros y [-> | []]. lia.
  - rewrite Hr. destruct (Z.ltb_spec (Token.CreatedAt x) (Token.CreatedAt r)).
    + exists r. repeat split; auto. intros y [-> | Hy]; [lia | auto].
    + exists x. repeat split; auto. intros y [-> | Hy]; [lia|].
      specialize (Hmax y Hy). lia.
Qed.

Lemma newest_of_matches (p : Token.t -> bool) (rows : list Token.t) :
  match newest (filter p rows) with
  | [] => forall r, In r rows -> p r = false
  | row :: _ =>
      In row rows /\ p row = true /\
      forall r, In r rows -> p r = true -> Token.CreatedAt r <= Token.CreatedAt row
  end.
Proof.
  destruct (newest_cases (filter p rows)) as [[Hnil ->] | (row & -> & Hin & Hmax)].
  - intros r Hr. destruct (p r) eqn:Hp; [|reflexivity].
    assert (H : In r (filter p rows)) by (apply filter_In; auto).
    rewrite Hnil in H. contradiction.
  - apply filter_In in Hin. destruct Hin as [Hin Hp]. repeat split; auto.
    intros r Hr Hpr. apply Hmax. apply filter_In. auto.
Qed.

Lemma by_refresh_token_false (rt : security.TokenString) (r : Token.t) :
  by_refresh_token rt r = false <-> Token.RefreshToken r <> rt.
Proof.
  unfold by_refresh_token. rewrite <- TokenString_eqb_eq.
  destruct (security.TokenString_eqb _ _); split; congruence.
Qed.

Lemma by_access_token_false (t : security.TokenString) (r : Token.t) :
  by_access_token t r = false <-> Token.AccessToken r <> t.
Proof.
  unfold by_access_token. rewrite <- TokenString_eqb_eq.
  destruct (security.TokenString_eqb _ _); split; congruence.
Qed.

(** X9. On a database that answers, a lookup by refresh token returns a
    stored session that carries the token and was created no earlier than
    any other session carrying it; it fails, with the wrapped no-rows error,
    exactly when no stored session carries the token. The same holds for the
    lookup by access token. *)
Theorem lookup_returns_the_newest_session_carrying_the_token :
  forall (t : security.TokenString) (w : World),
    healthy w ->
    match fst (GetTokenByRefreshToken t w) with
    | Ok row =>
        In row (tokens w) /\ Token.RefreshToken row = t /\
        forall r, In r (tokens w) -> Token.RefreshToken r = t ->
                  Token.CreatedAt r <= Token.CreatedAt row
    | Err e => e = no_rows /\ forall r, In r (tokens w) -> Token.RefreshToken r <> t
    end /\
    match fst (GetTokenByAccessToken t w) with
    | Ok row =>
        In row (tokens w) /\ Token.AccessToken row = t /\
        forall r, In r (tokens w) -> Token.AccessToken r = t ->
                  Token.CreatedAt r <= Token.CreatedAt row
    | Err e => e = no_rows /\ forall r, In r (tokens w) -> Token.AccessToken r <> t
    end.
Proof.
  intros t w Hh. split.
  - destruct (GetTokenByRefreshToken_healthy t w Hh) as (w1 & _ & _ & _ & ->).
    pose proof (newest_of_matches (by_refresh_token t) (tokens w)) as H.
    destruct (newest (filter (by_refresh_token t) (tokens w))) as [|row rest]; simpl.
    + split; [reflexivity|]. intros r Hr. apply by_refresh_token_false. auto.
    + destruct H as (Hin & Hp & Hmax). apply TokenString_eqb_eq in Hp.
      repeat split; auto. intros r Hr Heq. apply Hmax; [assumption|].
      now apply TokenString_eqb_eq.
  - destruct (GetTokenByAccessToken_healthy t w Hh) as (w1 & _ & _ & _ & ->).
    pose proof (newest_of_matches (by_access_token t) (tokens w)) as H.
    destruct (newest (filter (by_access_token t) (tokens w))) as [|row rest]; simpl.
    + split; [reflexivity|]. intros r Hr. apply by_access_token_false. auto.
    + destruct H as (Hin & Hp & Hmax). apply TokenString_eqb_eq in Hp.
      repeat split; auto. intros r Hr Heq. apply Hmax; [assumption|].
      now apply TokenString_eqb_eq.
Qed.

Lemma newest_app_last (rows : list Token.t) (token : Token.t) :
  (forall r, In r rows -> Token.CreatedAt r < Token.CreatedAt token) ->
  newest (rows ++ [token]) = [token].
Proof.
  induction rows as [|x rows IH]; intros Hlt; simpl; [reflexivity|].
  rewrite IH by (intros r Hr; apply Hlt; now right).
  destruct (Z.ltb_spec (Token.CreatedAt x) (Token.CreatedAt token)); [reflexivity|].
  specialize (Hlt x (or_introl eq_refl)). lia.
Qed.

(** X10. A session inserted on a database that answers is the one both
    lookups find afterwards, provided every stored session carrying the same
    refresh token, or the same access token, was created strictly earlier. *)
Theorem CreateToken_then_lookup :
  forall (token : Token.t) (w : World),
    healthy w ->
    (forall r, In r (tokens w) ->
               Token.RefreshToken r = Token.RefreshToken token \/
               Token.AccessToken r = Token.AccessToken token ->
               Token.CreatedAt r < Token.CreatedAt token) ->
    exists w1,
      CreateToken token w = (None, w1) /\
      users w1 = users w /\
      tokens w1 = (tokens w ++ [token])%list /\
      fst (GetTokenByRefreshToken (Token.RefreshToken token) w1) = Ok token /\
      fst (GetTokenByAccessToken (Token.AccessToken token) w1) = Ok token.
Proof.
  intros token w Hh Hold.
  destruct (CreateToken_healthy token w Hh) as (w1 & Hu & Ht & Hh1 & Hc).
  exists w1. repeat split; try assumption.
  - destruct (GetTokenByRefreshToken_healthy (Token.RefreshToken token) w1 Hh1)
      as (w2 & _ & _ & _ & ->).
    rewrite Ht, filter_app. simpl.
    unfold by_refresh_token at 2. rewrite (proj2 (TokenString_eqb_eq _ _) eq_refl).
    rewrite newest_app_last; [reflexivity|].
    intros r Hr. apply filter_In in Hr. destruct Hr as [Hr Hp].
    apply TokenString_eqb_eq in Hp. apply Hold; auto.
  - destruct (GetTokenByAccessToken_healthy (Token.AccessToken token) w1 Hh1)
      as (w2 & _ & _ & _ & ->).
    rewrite Ht, filter_app. simpl.
    unfold by_access_token at 2. rewrite (proj2 (TokenString_eqb_eq _ _) eq_refl).
    rewrite newest_app_last; [reflexivity|].
    intros r Hr. apply filter_In in Hr. destruct Hr as [Hr Hp].
    apply TokenString_eqb_eq in Hp. apply Hold; auto.
Qed.

Lemma In_revoke_where (sel : Token.t -> bool) (rows : list Token.t) (r : Token.t) :
  In r (revoke_where sel rows) ->
  exists r0, In r0 rows /\ r = (if sel r0 then revoke r0 else r0).
Proof.
  unfold revoke_where. intros H. apply in_map_iff in H.
  destruct H as (r0 & Heq & Hin). eauto.
Qed.

Lemma revoke_where_idem (sel : Token.t -> bool) (rows : list Token.t) :
  (forall r, sel (revoke r) = sel r) ->
  revoke_where sel (revoke_where sel rows) = revoke_where sel rows.
Proof.
  intros Hsel. unfold revoke_where. rewrite map_map. apply map_ext.
  intros r. destruct (sel r) eqn:Hr; [|now rewrite Hr].
  now rewrite Hsel, Hr.
Qed.

Lemma count_where_revoke_where (p sel : Token.t -> bool) (rows : list Token.t) :
  (forall r, p (revoke r) = p r) ->
  count_where p (revoke_where sel rows) = count_where p rows.
Proof.
  intros Hp. unfold count_where.
  now rewrite filter_revoke_where, revoke_where_length.
Qed.

Lemma count_where_pos (p : Token.t -> bool) (rows : list Token.t) :
  filter p rows <> [] -> (count_where p rows =? 0) = false.
Proof.
  intros H. apply Z.eqb_neq. intros Hz. apply H. now apply count_where_zero.
Qed.

Lemma revoke_where_other_rows (sel : Token.t -> bool) (rows : list Token.t)
      (k : nat) (r : Token.t) :
  nth_error rows k = Some r -> sel r = false ->
  nth_error (revoke_where sel rows) k = Some r.
Proof.
  intros Hk Hsel. rewrite revoke_where_nth_error, Hk. simpl. now rewrite Hsel.
Qed.

(** X11. Revoking a stored session by id on a database that answers
    succeeds, leaves every row with that id invalid at every instant and every
    other row, and the users, as they were; doing it again succeeds too and
    changes nothing. *)
Theorem RevokeToken_is_idempotent :
  forall (id : string) (w : World),
    healthy w ->
    filter (has_id id) (tokens w) <> [] ->
    exists w1 w2,
      RevokeToken id w = (None, w1) /\
      RevokeToken id w1 = (None, w2) /\
      tokens w2 = tokens w1 /\
      users w1 = users w /\
      (forall r now, In r (tokens w1) -> Token.ID r = id -> Token.IsValid now r = false) /\
      (forall k r, nth_error (tokens w) k = Some r -> Token.ID r <> id ->
                   nth_error (tokens w1) k = Some r).
Proof.
  intros id w Hh Hsome.
  destruct (RevokeToken_healthy id w Hh) as (w1 & Hu1 & Ht1 & Hh1 & Hr1).
  destruct (RevokeToken_healthy id w1 Hh1) as (w2 & Hu2 & Ht2 & Hh2 & Hr2).
  rewrite (count_where_pos _ _ Hsome) in Hr1.
  rewrite Ht1, count_where_revoke_where, (count_where_pos _ _ Hsome) in Hr2 by reflexivity.
  exists w1, w2. repeat split; try assumption.
  - rewrite Ht2, Ht1. now apply revoke_where_idem.
  - intros r now Hin Hid. rewrite Ht1 in Hin.
    destruct (In_revoke_where _ _ _ Hin) as (r0 & _ & ->).
    destruct (has_id id r0) eqn:Hsel; [reflexivity|].
    apply String.eqb_neq in Hsel. contradiction.
  - intros k r Hk Hid. rewrite Ht1. apply revoke_where_other_rows; [assumption|].
    now apply String.eqb_neq.
Qed.

(** X12. On a database that answers, [RevokeAllTokens] succeeds and leaves
    every session of the identity invalid at every instant, the sessions of
    everyone else and the users untouched. Afterwards a refresh whose lookup
    finds a session of the identity fails with ErrTokenExpired, and a
    correctly signed access token whose lookup finds one fails
    [ValidateToken] with ErrTokenRevoked. *)
Theorem RevokeAllTokens_invalidates_the_sessions_of_the_identity :
  forall (a : authUsecase) (userID : string) (w : World),
    healthy w ->
    exists w1,
      RevokeAllTokens a userID w = (None, w1) /\
      healthy w1 /\
      users w1 = users w /\
      List.length (tokens w1) = List.length (tokens w) /\
      (forall r now, In r (tokens w1) -> Token.UserID r = userID ->
                     Token.IsValid now r = false) /\
      (forall k r, nth_error (tokens w) k = Some r -> Token.UserID r <> userID ->
                   nth_error (tokens w1) k = Some r) /\
      (forall now tokenID rt row rest,
          newest (filter (by_refresh_token rt) (tokens w1)) = row :: rest ->
          Token.UserID row = userID ->
          fst (RefreshToken a now tokenID rt w1) = Err (errorVar errors.ErrTokenExpired)) /\
      (forall now t c row rest,
          security.ValidateToken (jwtManager a) now t = Ok c ->
          newest (filter (by_access_token t) (tokens w1)) = row :: rest ->
          Token.UserID row = userID ->
          fst (ValidateToken a now t w1) = Err (errorVar errors.ErrTokenRevoked)).
Proof.
  intros a userID w Hh.
  destruct (RevokeUserTokens_healthy userID w Hh) as (w1 & Hu1 & Ht1 & Hh1 & Hr1).
  assert (Hinvalid : forall r now, In r (tokens w1) -> Token.UserID r = userID ->
                                   Token.IsValid now r = false).
  { intros r now Hin Hid. rewrite Ht1 in Hin.
    destruct (In_revoke_where _ _ _ Hin) as (r0 & _ & ->).
    destruct (has_user userID r0) eqn:Hsel; [reflexivity|].
    apply String.eqb_neq in Hsel. contradiction. }
  exists w1. unfold RevokeAllTokens. rewrite Hr1.
  split; [reflexivity|]. split; [assumption|]. split; [assumption|].
  split; [rewrite Ht1; apply revoke_where_length|].
  split; [exact Hinvalid|]. split; [|split].
  - intros k r Hk Hid. rewrite Ht1. apply revoke_where_other_rows; [assumption|].
    now apply String.eqb_neq.
  - intros now tokenID rt row rest Hrow Hid. unfold RefreshToken.
    destruct (GetTokenByRefreshToken_healthy rt w1 Hh1) as (w2 & _ & _ & _ & ->).
    rewrite Hrow. cbv iota.
    rewrite (Hinvalid row now); [reflexivity | | assumption].
    pose proof (newest_In _ _ _ Hrow) as Hin. apply filter_In in Hin. tauto.
  - intros now t c row rest Hsig Hrow Hid.
    apply (ValidateToken_row_invalid a now t c w1 row rest Hsig Hh1 Hrow).
    apply Hinvalid; [|assumption].
    pose proof (newest_In _ _ _ Hrow) as Hin. apply filter_In in Hin. tauto.
Qed.

Lemma CleanupExpiredTokens_healthy (now : Z) (w : World) :
  healthy w ->
  exists w1, users w1 = users w /\
    tokens w1 = filter (fun t => negb ((Token.ExpiresAt t <? now) || Token.Revoked t)) (tokens w) /\
    healthy w1 /\
    CleanupExpiredTokens now w = (None, w1).
Proof.
  intros Hh. unfold CleanupExpiredTokens.
  match goal with
  | |- context [ExecContext ?upd ?aff w] =>
      destruct (ExecContext_healthy upd aff w Hh) as (w0 & Hu & Ht & Hh0 & He);
      rewrite He; clear He; cbv beta; rewrite Ht
  end.
  eexists (with_tokens w0 _).
  split; [exact Hu|]. split; [reflexivity|].
  split; [now apply healthy_with_tokens | reflexivity].
Qed.

Lemma filter_idem {A : Type} (p : A -> bool) (l : list A) :
  filter p (filter p l) = filter p l.
Proof.
  induction l as [|x l IH]; simpl; [reflexivity|].
  destruct (p x) eqn:Hp; simpl; rewrite ?Hp, IH; reflexivity.
Qed.

(** X13. On a database that answers, the clean-up at the instant [now]
    keeps exactly the sessions that [IsValid] accepts at [now], in their
    order, and the users as they are; a second clean-up at the same instant
    removes nothing more. *)
Theorem CleanupExpiredTokens_keeps_exactly_the_valid_sessions :
  forall (now : Z) (w : World),
    healthy w ->
    exists w1 w2,
      CleanupExpiredTokens now w = (None, w1) /\
      tokens w1 = filter (Token.IsValid now) (tokens w) /\
      users w1 = users w /\
      CleanupExpiredTokens now w1 = (None, w2) /\
      tokens w2 = tokens w1.
Proof.
  intros now w Hh.
  assert (Hsame : forall rows : list Token.t,
             filter (fun t => negb ((Token.ExpiresAt t <? now) || Token.Revoked t)) rows
             = filter (Token.IsValid now) rows).
  { intros rows. apply filter_ext. intros t.
    unfold Token.IsValid, Token.IsExpired, time.After.
    destruct (Token.ExpiresAt t <? now), (Token.Revoked t); reflexivity. }
  destruct (CleanupExpiredTokens_healthy now w Hh) as (w1 & Hu1 & Ht1 & Hh1 & Hc1).
  destruct (CleanupExpiredTokens_healthy now w1 Hh1) as (w2 & Hu2 & Ht2 & Hh2 & Hc2).
  rewrite Hsame in Ht1, Ht2.
  exists w1, w2. repeat split; try assumption.
  rewrite Ht2, Ht1. apply filter_idem.
Qed.

Lemma DeleteToken_healthy (id : string) (w : World) :
  healthy w ->
  exists w1, users w1 = users w /\
    tokens w1 = filter (fun t => negb (has_id id t)) (tokens w) /\ healthy w1 /\
    DeleteToken id w =
    (if count_where (has_id id) (tokens w) =? 0
     then Some (errorVar errors.ErrNotFound) else None, w1).
Proof.
  intros Hh. unfold DeleteToken.
  match goal with
  | |- context [ExecContext ?upd ?aff w] =>
      destruct (ExecContext_healthy upd aff w Hh) as (w0 & Hu & Ht & Hh0 & He);
      rewrite He; clear He; cbv beta; rewrite Ht
  end.
  eexists (with_tokens w0 _).
  split; [exact Hu|]. split; [reflexivity|].
  split; [now apply healthy_with_tokens|].
  destruct (count_where (has_id id) (tokens w) =? 0); reflexivity.
Qed.

(** X14. Deleting a stored session by id on a database that answers removes
    the rows with that id and no other; afterwards the id is unknown:
    deleting or revoking it again fails with ErrNotFound and changes
    nothing. *)
Theorem DeleteToken_removes_the_session :
  forall (id : string) (w : World),
    healthy w ->
    filter (has_id id) (tokens w) <> [] ->
    exists w1,
      DeleteToken id w = (None, w1) /\
      users w1 = users w /\
      (forall r, In r (tokens w1) <-> In r (tokens w) /\ Token.ID r <> id) /\
      (exists w2, DeleteToken id w1 = (Some (errorVar errors.ErrNotFound), w2) /\
                  tokens w2 = tokens w1) /\
      (exists w2, RevokeToken id w1 = (Some (errorVar errors.ErrNotFound), w2) /\
                  tokens w2 = tokens w1).
Proof.
  intros id w Hh Hsome.
  destruct (DeleteToken_healthy id w Hh) as (w1 & Hu1 & Ht1 & Hh1 & Hd1).
  rewrite (count_where_pos _ _ Hsome) in Hd1.
  assert (Hgone : filter (has_id id) (tokens w1) = []).
  { rewrite Ht1. clear. induction (tokens w) as [|x l IH]; simpl; [reflexivity|].
    destruct (has_id id x) eqn:Hx; simpl; [assumption|]. now rewrite Hx. }
  assert (Hcount : (count_where (has_id id) (tokens w1) =? 0) = true).
  { unfold count_where. now rewrite Hgone. }
  exists w1. repeat split; try assumption.
  - rewrite Ht1 in H. apply filter_In in H. tauto.
  - rewrite Ht1 in H. apply filter_In in H. destruct H as [_ H].
    apply negb_true_iff, String.eqb_neq in H. assumption.
  - intros [Hin Hid]. rewrite Ht1. apply filter_In. split; [assumption|].
    now apply negb_true_iff, String.eqb_neq.
  - destruct (DeleteToken_healthy id w1 Hh1) as (w2 & _ & Ht2 & _ & Hd2).
    rewrite Hcount in Hd2. exists w2. split; [assumption|].
    rewrite Ht2. clear - Hgone. induction (tokens w1) as [|x l IH]; simpl in *; [reflexivity|].
    destruct (has_id id x); [discriminate|]. simpl. now rewrite IH.
  - destruct (RevokeToken_healthy id w1 Hh1) as (w2 & _ & Ht2 & _ & Hr2).
    rewrite Hcount in Hr2. exists w2. split; [assumption|].
    rewrite Ht2. now apply revoke_where_none.
Qed.

(** ** The user store *)

Lemma UpdateUser_healthy (now : Z) (user : User.t) (w : World) :
  healthy w ->
  exists w1,
    users w1 = map (fun row => if user_has_id (User.ID user) row
                               then updated user now row else row) (users w) /\
    tokens w1 = tokens w /\ healthy w1 /\
    UpdateUser now user w =
    (if Z.of_nat (List.length (filter (user_has_id (User.ID user)) (users w))) =? 0
     then Some (errorVar errors.ErrNotFound) else None, w1).
Proof.
  intros Hh. unfold UpdateUser.
  match goal with
  | |- context [ExecContext ?upd ?aff w] =>
      destruct (ExecContext_healthy upd aff w Hh) as (w0 & Hu & Ht & Hh0 & He);
      rewrite He; clear He; cbv beta; rewrite Hu
  end.
  eexists (with_users w0 _).
  split; [reflexivity|]. split; [exact Ht|].
  split; [now apply healthy_with_users|].
  destruct (_ =? 0); reflexivity.
Qed.

Lemma DeleteUser_healthy (now : Z) (id : string) (w : World) :
  healthy w ->
  exists w1,
    users w1 = map (fun row => if user_has_id id row then soft_deleted now row else row)
                   (users w) /\
    tokens w1 = tokens w /\ healthy w1 /\
    DeleteUser now id w =
    (if Z.of_nat (List.length (filter (user_has_id id) (users w))) =? 0
     then Some (errorVar errors.ErrNotFound) else None, w1).
Proof.
  intros Hh. unfold DeleteUser.
  match goal with
  | |- context [ExecContext ?upd ?aff w] =>
      destruct (ExecContext_healthy upd aff w Hh) as (w0 & Hu & Ht & Hh0 & He);
      rewrite He; clear He; cbv beta; rewrite Hu
  end.
  eexists (with_users w0 _).
  split; [reflexivity|]. split; [exact Ht|].
  split; [now apply healthy_with_users|].
  destruct (_ =? 0); reflexivity.
Qed.

(** Selecting with [p] after rewriting the rows [sel] picks with [f], when
    [p] picks no row outside [sel] and [b] says whether it picks the
    rewritten ones. *)
Lemma filter_map_if {A : Type} (p sel : A -> bool) (f : A -> A) (b : bool) (l : list A) :
  (forall r, sel r = false -> p r = false) ->
  (forall r, sel r = true -> p (f r) = b) ->
  filter p (map (fun r => if sel r then f r else r) l)
  = if b then map f (filter sel l) else [].
Proof.
  intros Hout Hin. induction l as [|x l IH]; simpl.
  - now destruct b.
  - destruct (sel x) eqn:Hx.
    + rewrite (Hin x Hx), IH. now destruct b.
    + now rewrite (Hout x Hx), IH.
Qed.

Lemma nth_error_map_if {A : Type} (sel : A -> bool) (f : A -> A) (l : list A)
      (k : nat) (r : A) :
  nth_error l k = Some r -> sel r = false ->
  nth_error (map (fun r => if sel r then f r else r) l) k = Some r.
Proof.
  intros Hk Hsel. rewrite nth_error_map, Hk. simpl. now rewrite Hsel.
Qed.

Lemma filter_none {A : Type} (p : A -> bool) (l : list A) :
  (forall x, In x l -> p x = false) -> filter p l = [].
Proof.
  induction l as [|x l IH]; simpl; intros H; [reflexivity|].
  rewrite (H x) by now left. apply IH. intros y Hy. apply H. now right.
Qed.

Lemma existsb_none {A : Type} (p : A -> bool) (l : list A) :
  (forall x, In x l -> p x = false) -> existsb p l = false.
Proof.
  induction l as [|x l IH]; simpl; intros H; [reflexivity|].
  rewrite (H x) by now left. apply IH. intros y Hy. apply H. now right.
Qed.

(** X15. On a database that answers, a user who is not marked deleted and
    whose id, e-mail and user name no undeleted row carries is stored at the
    end of the table, the sessions untouched. The e-mail and the user name,
    free before, are reported taken afterwards, and the look-ups by id, by
    e-mail and by user name all return the row as it was written. *)
Theorem CreateUser_then_lookup :
  forall (user : User.t) (w : World),
    healthy w ->
    not_deleted user = true ->
    (forall u, In u (users w) -> not_deleted u = true ->
               User.ID u <> User.ID user /\
               User.Email u <> User.Email user /\
               User.Username u <> User.Username user) ->
    exists w1,
      CreateUser user w = (None, w1) /\
      users w1 = (users w ++ [user])%list /\
      tokens w1 = tokens w /\
      fst (IsEmailExists (User.Email user) w) = Ok false /\
      fst (IsUsernameExists (User.Username user) w) = Ok false /\
      fst (IsEmailExists (User.Email user) w1) = Ok true /\
      fst (IsUsernameExists (User.Username user) w1) = Ok true /\
      fst (GetUserByID (User.ID user) w1) = Ok user /\
      fst (GetUserByEmail (User.Email user) w1) = Ok user /\
      fst (GetUserByUsername (User.Username user) w1) = Ok user.
Proof.
  intros user w Hh Hlive Hfresh.
  assert (Hnone : forall (key : User.t -> string),
             (forall u, In u (users w) -> not_deleted u = true -> key u <> key user) ->
             forall x, In x (users w) ->
                       String.eqb (key x) (key user) && not_deleted x = false).
  { intros key Hkey x Hx. destruct (not_deleted x) eqn:Hd; [|apply andb_false_r].
    rewrite andb_true_r. apply String.eqb_neq. now apply Hkey. }
  pose proof (Hnone User.ID (fun u Hu Hd => proj1 (Hfresh u Hu Hd))) as Hid.
  pose proof (Hnone User.Email (fun u Hu Hd => proj1 (proj2 (Hfresh u Hu Hd)))) as Hemail.
  pose proof (Hnone User.Username (fun u Hu Hd => proj2 (proj2 (Hfresh u Hu Hd)))) as Hname.
  destruct (CreateUser_healthy user w Hh) as (w1 & Hu1 & Ht1 & Hh1 & Hc).
  exists w1. split; [assumption|]. split; [assumption|]. split; [assumption|].
  destruct (IsEmailExists_healthy (User.Email user) w Hh) as (? & _ & _ & _ & ->).
  destruct (IsUsernameExists_healthy (User.Username user) w Hh) as (? & _ & _ & _ & ->).
  destruct (IsEmailExists_healthy (User.Email user) w1 Hh1) as (? & _ & _ & _ & ->).
  destruct (IsUsernameExists_healthy (User.Username user) w1 Hh1) as (? & _ & _ & _ & ->).
  destruct (GetUserByID_healthy (User.ID user) w1 Hh1) as (? & _ & _ & _ & ->).
  destruct (GetUserByEmail_healthy (User.Email user) w1 Hh1) as (? & _ & _ & _ & ->).
  destruct (GetUserByUsername_healthy (User.Username user) w1 Hh1) as (? & _ & _ & _ & ->).
  cbn [fst]. rewrite Hu1, !existsb_app, !filter_app.
  rewrite (existsb_none _ _ Hemail), (existsb_none _ _ Hname).
  rewrite (filter_none _ _ Hid), (filter_none _ _ Hemail), (filter_none _ _ Hname).
  simpl. rewrite !String.eqb_refl, Hlive. simpl. repeat split.
Qed.

Lemma affected_zero_iff (id : string) (rows : list User.t) :
  (Z.of_nat (List.length (filter (user_has_id id) rows)) =? 0)
  = negb (existsb (user_has_id id) rows).
Proof.
  induction rows as [|x rows IH]; simpl; [reflexivity|].
  destruct (user_has_id id x); simpl; [reflexivity | assumption].
Qed.

Lemma existsb_map_if {A : Type} (sel : A -> bool) (f : A -> A) (l : list A) :
  (forall r, sel (f r) = sel r) ->
  existsb sel (map (fun r => if sel r then f r else r) l) = existsb sel l.
Proof.
  intros Hsel. induction l as [|x l IH]; simpl; [reflexivity|].
  rewrite IH. destruct (sel x) eqn:Hx; [now rewrite Hsel, Hx | now rewrite Hx].
Qed.

Lemma In_map_if {A : Type} (sel : A -> bool) (f : A -> A) (l : list A) (r : A) :
  In r (map (fun r => if sel r then f r else r) l) ->
  exists r0, In r0 l /\ r = (if sel r0 then f r0 else r0).
Proof.
  intros H. apply in_map_iff in H. destruct H as (r0 & Heq & Hin). eauto.
Qed.

Lemma GetUserByID_after_DeleteUser (now : Z) (id : string) (rows : list User.t) :
  filter (fun u => String.eqb (User.ID u) id && not_deleted u)
         (map (fun row => if user_has_id id row then soft_deleted now row else row) rows)
  = [].
Proof.
  apply (filter_map_if (fun u => String.eqb (User.ID u) id && not_deleted u)
                       (user_has_id id) (soft_deleted now) false rows).
  - intros r Hr. unfold user_has_id in Hr. now rewrite Hr.
  - intros r _. apply andb_false_r.
Qed.

(** X16. [DeleteUser] on a database that answers reports ErrNotFound exactly
    when no row has the id, and otherwise marks the rows with that id deleted
    in place: no row is removed, the other users and all sessions stay as
    they were, and the look-up by id fails afterwards with the wrapped
    no-rows error. Deleting the same id again reports what the first call
    reported, so a user already deleted is deleted again with success. *)
Theorem DeleteUser_is_a_soft_delete :
  forall (now now' : Z) (id : string) (w : World),
    healthy w ->
    exists w1,
      DeleteUser now id w =
      (if existsb (user_has_id id) (users w) then None
       else Some (errorVar errors.ErrNotFound), w1) /\
      tokens w1 = tokens w /\
      List.length (users w1) = List.length (users w) /\
      (forall u, In u (users w1) -> User.ID u = id -> User.Status u = "deleted") /\
      (forall k u, nth_error (users w) k = Some u -> User.ID u <> id ->
                   nth_error (users w1) k = Some u) /\
      fst (GetUserByID id w1) = Err no_rows /\
      fst (DeleteUser now' id w1) = fst (DeleteUser now id w).
Proof.
  intros now now' id w Hh.
  destruct (DeleteUser_healthy now id w Hh) as (w1 & Hu1 & Ht1 & Hh1 & Hd1).
  destruct (DeleteUser_healthy now' id w1 Hh1) as (w2 & _ & _ & _ & Hd2).
  rewrite affected_zero_iff in Hd1, Hd2.
  exists w1. split; [|split; [|split; [|split; [|split; [|split]]]]].
  - rewrite Hd1. now destruct (existsb _ _).
  - assumption.
  - rewrite Hu1. apply length_map.
  - intros u Hin Hid. rewrite Hu1 in Hin.
    destruct (In_map_if _ _ _ _ Hin) as (r0 & _ & ->).
    destruct (user_has_id id r0) eqn:Hsel; [reflexivity|].
    apply String.eqb_neq in Hsel. contradiction.
  - intros k u Hk Hid. rewrite Hu1. apply nth_error_map_if; [assumption|].
    now apply String.eqb_neq.
  - destruct (GetUserByID_healthy id w1 Hh1) as (? & _ & _ & _ & ->).
    cbn [fst]. now rewrite Hu1, GetUserByID_after_DeleteUser.
  - rewrite Hd1, Hd2. cbn [fst]. rewrite Hu1.
    now rewrite (existsb_map_if (user_has_id id) (soft_deleted now)).
Qed.

(** X17. [UpdateUser] on a database that answers reports ErrNotFound exactly
    when no row has the user's id. A row with the id keeps its id and its
    creation time, gets the clock reading as update time and every other
    column from the argument; the other rows and the sessions are untouched.
    The statement does not look at the status: when the argument is not
    marked deleted, the look-up by id returns the rewritten row afterwards,
    also for a row that was soft-deleted before. *)
Theorem UpdateUser_rewrites_the_row :
  forall (now : Z) (user : User.t) (w : World),
    healthy w ->
    exists w1,
      UpdateUser now user w =
      (if existsb (user_has_id (User.ID user)) (users w) then None
       else Some (errorVar errors.ErrNotFound), w1) /\
      tokens w1 = tokens w /\
      List.length (users w1) = List.length (users w) /\
      (forall k row, nth_error (users w) k = Some row -> User.ID row <> User.ID user ->
                     nth_error (users w1) k = Some row) /\
      (forall k row, nth_error (users w) k = Some row -> User.ID row = User.ID user ->
         exists row',
           nth_error (users w1) k = Some row' /\
           User.ID row' = User.ID row /\
           User.CreatedAt row' = User.CreatedAt row /\
           User.UpdatedAt row' = now /\
           User.Email row' = User.Email user /\
           User.Username row' = User.Username user /\
           User.PasswordHash row' = User.PasswordHash user /\
           User.Status row' = User.Status user) /\
      (forall row rest,
          filter (user_has_id (User.ID user)) (users w) = row :: rest ->
          not_deleted user = true ->
          fst (GetUserByID (User.ID user) w1) = Ok (updated user now row)).
Proof.
  intros now user w Hh.
  destruct (UpdateUser_healthy now user w Hh) as (w1 & Hu1 & Ht1 & Hh1 & Hd1).
  rewrite affected_zero_iff in Hd1.
  exists w1. split; [|split; [|split; [|split; [|split]]]].
  - rewrite Hd1. now destruct (existsb _ _).
  - assumption.
  - rewrite Hu1. apply length_map.
  - intros k row Hk Hid. rewrite Hu1. apply nth_error_map_if; [assumption|].
    now apply String.eqb_neq.
  - intros k row Hk Hid. exists (updated user now row).
    split; [|repeat split].
    rewrite Hu1, nth_error_map, Hk. simpl.
    unfold user_has_id. rewrite Hid, String.eqb_refl. reflexivity.
  - intros row rest Hrow Hlive.
    destruct (GetUserByID_healthy (User.ID user) w1 Hh1) as (? & _ & _ & _ & ->).
    cbn [fst]. rewrite Hu1.
    rewrite (filter_map_if (fun u => String.eqb (User.ID u) (User.ID user) && not_deleted u)
                           (user_has_id (User.ID user)) (updated user now) true).
    + now rewrite Hrow.
    + intros r Hr. unfold user_has_id in Hr. now rewrite Hr.
    + intros r Hr. unfold user_has_id in Hr. cbn [updated User.ID]. rewrite Hr.
      exact Hlive.
Qed.

(** ** The orchestrator on a database that answers *)

Lemma GenerateTokenPair_Ok (j : security.JWTManager) (now : Z)
      (userID organizationID roleID email : string) :
  userID <> "" ->
  security.GenerateTokenPair j now userID organizationID roleID email =
  Ok {| security.AccessToken :=
          security.generateAccessToken j now userID organizationID roleID email;
        security.RefreshToken :=
          security.generateRefreshToken j now userID organizationID roleID email;
        security.ExpiresIn := time.Seconds (security.accessTokenExpiry j);
        security.TokenType := "Bearer" |}.
Proof.
  intros Hne. unfold security.GenerateTokenPair.
  destruct (String.eqb_spec userID ""); [contradiction | reflexivity].
Qed.

Lemma generateAccessToken_validates (j : security.JWTManager) (now now' : Z)
      (userID organizationID roleID email : string) :
  time.Truncate now time.Second <= now' ->
  now' < time.Truncate (now + security.accessTokenExpiry j) time.Second ->
  security.ValidateToken j now'
    (security.generateAccessToken j now userID organizationID roleID email)
  = Ok (security.newClaims j now (security.accessTokenExpiry j)
          userID organizationID roleID email).
Proof.
  intros Hnbf Hexp. unfold security.generateAccessToken.
  rewrite ValidateToken_SignedString.
  destruct (string_dec _ _); [|contradiction].
  now rewrite minted_window.
Qed.

Lemma newSession_IsValid (id userID : string) (pair : security.TokenPair) (now now' : Z) :
  Token.IsValid now' (newSession id userID pair now) = (now' <=? now + 24 * time.Hour * 7).
Proof.
  unfold Token.IsValid, Token.IsExpired, time.After, newSession, time.Add. simpl.
  destruct (Z.ltb_spec (now + 604800000000000) now');
    destruct (Z.leb_spec now' (now + 604800000000000)); try reflexivity; lia.
Qed.

(** X18. On a database that answers, a login with the e-mail of an undeleted
    active user, a password that verifies against the stored hash and a
    non-empty user id succeeds. It appends one session to the store and
    changes nothing else; the session carries the pair returned, belongs to
    the user and stays valid until seven days after the login, whatever
    refresh-token lifetime the manager is configured with. With an
    access-token lifetime of at least a second the access token returned
    validates at once to the user's identity. *)
Theorem Login_opens_a_session :
  forall (a : authUsecase) (now : Z) (tokenID : string) (req : LoginRequest.t)
         (w : World) (user : User.t) (rest : list User.t),
    healthy w ->
    filter (fun u => String.eqb (User.Email u) (LoginRequest.Email req) && not_deleted u)
           (users w) = user :: rest ->
    security.Verify (passwordHasher a) (LoginRequest.Password req) (User.PasswordHash user)
    = true ->
    User.IsActive user = true ->
    User.ID user <> "" ->
    time.Second <= security.accessTokenExpiry (jwtManager a) ->
    exists resp w1 session,
      Login a now tokenID req w = (Ok resp, w1) /\
      healthy w1 /\
      users w1 = users w /\
      tokens w1 = (tokens w ++ [session])%list /\
      Token.ID session = tokenID /\
      Token.UserID session = User.ID user /\
      Token.AccessToken session = AuthResponse.AccessToken resp /\
      Token.RefreshToken session = AuthResponse.RefreshToken resp /\
      (forall now', Token.IsValid now' session = (now' <=? now + 7 * 24 * time.Hour)) /\
      AuthResponse.User resp = User.ToUserInfo user /\
      AuthResponse.TokenType resp = "Bearer" /\
      AuthResponse.ExpiresIn resp = time.Seconds (security.accessTokenExpiry (jwtManager a)) /\
      exists c,
        security.ValidateToken (jwtManager a) now (AuthResponse.AccessToken resp) = Ok c /\
        security.UserID c = User.ID user /\
        security.OrganizationID c = User.OrganizationID user /\
        security.RoleID c = User.RoleID user /\
        security.Email c = User.Email user.
Proof.
  intros a now tokenID req w user rest Hh Hrow Hverify Hactive Hid Hexpiry.
  unfold Login.
  destruct (GetUserByEmail_healthy (LoginRequest.Email req) w Hh)
    as (w0 & Hu0 & Ht0 & Hh0 & ->).
  rewrite Hrow. cbv iota. rewrite Hverify, Hactive. cbn [negb].
  rewrite (GenerateTokenPair_Ok _ now _ (User.OrganizationID user) (User.RoleID user)
             (User.Email user) Hid). cbv iota zeta.
  match goal with
  | |- context [CreateToken ?s w0] =>
      destruct (CreateToken_healthy s w0 Hh0) as (w1 & Hu1 & Ht1 & Hh1 & ->)
  end.
  eexists. exists w1. eexists.
  split; [reflexivity|]. split; [assumption|].
  split; [congruence|]. split; [rewrite Ht1, Ht0; reflexivity|].
  do 4 (split; [reflexivity|]).
  split; [intros now'; rewrite newSession_IsValid; reflexivity|].
  do 3 (split; [reflexivity|]).
  cbn [newAuthResponse AuthResponse.AccessToken security.AccessToken].
  destruct (now_inside_its_own_window now _ Hexpiry) as [Hnbf Hexp].
  eexists. split; [now apply generateAccessToken_validates|].
  repeat split.
Qed.

(** X19. A user who is stored but not active cannot log in: with the right
    password the login fails with ErrUserDisabled, answered 403, with a wrong
    one with ErrInvalidCredentials, answered 401, since the password is
    checked before the status. Neither attempt changes the store. *)
Theorem Login_of_a_disabled_user :
  forall (a : authUsecase) (now : Z) (tokenID : string) (req : LoginRequest.t)
         (w : World) (user : User.t) (rest : list User.t),
    healthy w ->
    filter (fun u => String.eqb (User.Email u) (LoginRequest.Email req) && not_deleted u)
           (users w) = user :: rest ->
    User.IsActive user = false ->
    exists e w1,
      Login a now tokenID req w = (Err e, w1) /\
      users w1 = users w /\ tokens w1 = tokens w /\
      e = (if security.Verify (passwordHasher a) (LoginRequest.Password req)
                (User.PasswordHash user)
           then errorVar errors.ErrUserDisabled
           else errorVar errors.ErrInvalidCredentials) /\
      delivery.status (delivery.handleError e)
      = (if security.Verify (passwordHasher a) (LoginRequest.Password req)
               (User.PasswordHash user)
         then 403 else 401).
Proof.
  intros a now tokenID req w user rest Hh Hrow Hactive. unfold Login.
  destruct (GetUserByEmail_healthy (LoginRequest.Email req) w Hh)
    as (w0 & Hu0 & Ht0 & Hh0 & ->).
  rewrite Hrow. cbv iota. rewrite Hactive.
  destruct (security.Verify _ _ _); cbn [negb];
    eexists; exists w0; repeat split; assumption.
Qed.

Lemma Hash_Err_inv (p : security.PasswordHandler) (salt password : string) (e : error) :
  security.Hash p salt password = Err e ->
  e = errorVar errors.ErrPasswordTooShort \/
  e = errorVar errors.bcrypt_ErrPasswordTooLong \/
  exists msg, e = errorString msg.
Proof.
  unfold security.Hash, bcrypt.GenerateFromPassword.
  destruct (security.len password <? 8); [intros H; inversion H; auto|].
  destruct (72 <? _); [intros H; inversion H; auto|].
  destruct (bcrypt.MaxCost <? _); intros H; inversion H; eauto.
Qed.


(** X20. The order in which [Register] refuses, on a database that answers:
    a taken e-mail gives ErrEmailTaken whatever else is wrong with the
    request; otherwise a taken user name gives ErrUsernameTaken; otherwise a
    password the hasher refuses (shorter than 8 bytes, longer than 72) gives
    the hasher's error wrapped, which the HTTP layer answers with 500. None
    of these refusals writes anything. *)
Theorem Register_refusals :
  forall (a : authUsecase) (now : Z) (userID tokenID salt : string)
         (req : RegisterRequest.t) (w : World),
    healthy w ->
    let email_taken :=
      existsb (fun u => String.eqb (User.Email u) (RegisterRequest.Email req) && not_deleted u)
              (users w) in
    let username_taken :=
      existsb (fun u => String.eqb (User.Username u) (RegisterRequest.Username req)
                        && not_deleted u) (users w) in
    let hashed := security.Hash (passwordHasher a) salt (RegisterRequest.Password req) in
    let r := Register a now userID tokenID salt req w in
    (email_taken = true -> fst r = Err (errorVar errors.ErrEmailTaken)) /\
    (email_taken = false -> username_taken = true ->
     fst r = Err (errorVar errors.ErrUsernameTaken)) /\
    (email_taken = false -> username_taken = false ->
     forall e, hashed = Err e ->
               fst r = Err (wrapError "failed to hash password" e) /\
               delivery.status (delivery.handleError (wrapError "failed to hash password" e))
               = 500) /\
    (email_taken = true \/ username_taken = true \/ is_ok hashed = false ->
     users (snd r) = users w /\ tokens (snd r) = tokens w).
Proof.
  intros a now userID tokenID salt req w Hh email_taken username_taken hashed r.
  subst r. unfold Register.
  destruct (IsEmailExists_healthy (RegisterRequest.Email req) w Hh)
    as (w1 & Hu1 & Ht1 & Hh1 & ->).
  fold email_taken. destruct email_taken eqn:He.
  { cbn [fst snd]. repeat split; try discriminate; assumption. }
  destruct (IsUsernameExists_healthy (RegisterRequest.Username req) w1 Hh1)
    as (w2 & Hu2 & Ht2 & Hh2 & ->).
  rewrite Hu1. fold username_taken. destruct username_taken eqn:Hn.
  { cbn [fst snd]. repeat split; try discriminate; congruence. }
  fold hashed. destruct hashed as [hash|e] eqn:Hhash.
  { split; [discriminate|]. split; [discriminate|]. split; [discriminate|].
    intros [H | [H | H]]; discriminate. }
  cbn [fst snd]. split; [discriminate|]. split; [discriminate|]. split.
  - intros _ _ e' He'. inversion He'; subst e'. split; [reflexivity|].
    destruct (Hash_Err_inv _ _ _ _ Hhash) as [-> | [-> | [msg ->]]]; reflexivity.
  - intros _. split; congruence.
Qed.



Lemma count_where_self (row : Token.t) (rows : list Token.t) :
  In row rows -> (count_where (has_id (Token.ID row)) rows =? 0) = false.
Proof.
  intros Hin. apply count_where_pos. intros Hnil.
  assert (Hf : In row (filter (has_id (Token.ID row)) rows)).
  { apply filter_In. split; [assumption|]. apply String.eqb_refl. }
  rewrite Hnil in Hf. contradiction.
Qed.

Lemma found_by_refresh_token (rt : security.TokenString) (rows : list Token.t)
      (row : Token.t) (rest : list Token.t) :
  newest (filter (by_refresh_token rt) rows) = row :: rest -> In row rows.
Proof.
  intros H. pose proof (newest_In _ _ _ H) as Hin. apply filter_In in Hin. tauto.
Qed.

(** X22. [Logout], on a database that answers, looks only at the session
    the refresh token finds and at its access token: when the access token
    supplied is another one it fails with ErrInvalidToken and writes nothing;
    when it is the same it revokes the rows with the session's id, whether
    or not the session was still valid. A logout repeated with the same two
    tokens therefore succeeds again and changes nothing more. *)
Theorem Logout_outcome_and_repeat :
  forall (a : authUsecase) (accessToken refreshToken : security.TokenString)
         (w : World) (row : Token.t) (rest : list Token.t),
    healthy w ->
    newest (filter (by_refresh_token refreshToken) (tokens w)) = row :: rest ->
    exists w1,
      users w1 = users w /\
      (Token.AccessToken row <> accessToken ->
       Logout a accessToken refreshToken w = (Some (errorVar errors.ErrInvalidToken), w1) /\
       tokens w1 = tokens w) /\
      (Token.AccessToken row = accessToken ->
       Logout a accessToken refreshToken w = (None, w1) /\
       tokens w1 = revoke_where (has_id (Token.ID row)) (tokens w) /\
       exists w2,
         Logout a accessToken refreshToken w1 = (None, w2) /\
         users w2 = users w /\ tokens w2 = tokens w1).
Proof.
  intros a accessToken refreshToken w row rest Hh Hrow.
  pose proof (found_by_refresh_token _ _ _ _ Hrow) as Hin.
  unfold Logout at 1 2.
  destruct (GetTokenByRefreshToken_healthy refreshToken w Hh) as (w0 & Hu0 & Ht0 & Hh0 & ->).
  rewrite Hrow. cbv iota.
  destruct (security.TokenString_eqb (Token.AccessToken row) accessToken) eqn:Hacc.
  - apply TokenString_eqb_eq in Hacc. cbn [negb].
    destruct (RevokeToken_healthy (Token.ID row) w0 Hh0) as (w1 & Hu1 & Ht1 & Hh1 & ->).
    rewrite Ht0, (count_where_self row _ Hin).
    exists w1. split; [congruence|]. split; [intros Hne; contradiction|].
    intros _. split; [reflexivity|]. split; [congruence|].
    rewrite Ht0 in Ht1.
    assert (Hrow1 : newest (filter (by_refresh_token refreshToken) (tokens w1))
                    = revoke row :: revoke_where (has_id (Token.ID row)) rest).
    { rewrite Ht1, filter_revoke_where by reflexivity.
      rewrite newest_revoke_where, Hrow. simpl.
      unfold has_id at 1. now rewrite String.eqb_refl. }
    unfold Logout.
    destruct (GetTokenByRefreshToken_healthy refreshToken w1 Hh1)
      as (w2 & Hu2 & Ht2 & Hh2 & ->).
    rewrite Hrow1. cbv iota.
    change (Token.AccessToken (revoke row)) with (Token.AccessToken row).
    change (Token.ID (revoke row)) with (Token.ID row).
    rewrite Hacc.
    assert (Hsame : security.TokenString_eqb accessToken accessToken = true)
      by now apply TokenString_eqb_eq.
    rewrite Hsame. cbn [negb].
    destruct (RevokeToken_healthy (Token.ID row) w2 Hh2) as (w3 & Hu3 & Ht3 & Hh3 & ->).
    rewrite Ht2, Ht1, count_where_revoke_where, (count_where_self row _ Hin) by reflexivity.
    exists w3. split; [reflexivity|]. split; [congruence|].
    rewrite Ht3, Ht2, Ht1. now apply revoke_where_idem.
  - cbn [negb]. exists w0. split; [assumption|]. split.
    + intros _. split; [reflexivity | assumption].
    + intros Heq. apply TokenString_eqb_eq in Heq. congruence.
Qed.

(** X23. What a successful rotation does, on a database that answers: given
    a refresh token whose newest session is valid and belongs to a user who
    is stored, not deleted and has a non-empty id, [RefreshToken] revokes the
    rows with that session's id, appends one session for the same user that
    is valid until seven days after the rotation, and returns a pair minted
    at the rotation. The user's status is not consulted: an inactive or
    suspended user, whom [Login] refuses, still rotates. *)
Theorem RefreshToken_rotates_the_session :
  forall (a : authUsecase) (now : Z) (tokenID : string) (refreshToken : security.TokenString)
         (w : World) (stored : Token.t) (rest : list Token.t)
         (user : User.t) (others : list User.t),
    healthy w ->
    newest (filter (by_refresh_token refreshToken) (tokens w)) = stored :: rest ->
    Token.IsValid now stored = true ->
    filter (fun u => String.eqb (User.ID u) (Token.UserID stored) && not_deleted u) (users w)
    = user :: others ->
    User.ID user <> "" ->
    exists resp w1 session,
      RefreshToken a now tokenID refreshToken w = (Ok resp, w1) /\
      users w1 = users w /\
      tokens w1 = (revoke_where (has_id (Token.ID stored)) (tokens w) ++ [session])%list /\
      Token.ID session = tokenID /\
      Token.UserID session = Token.UserID stored /\
      Token.AccessToken session = AuthResponse.AccessToken resp /\
      Token.RefreshToken session = AuthResponse.RefreshToken resp /\
      (forall now', Token.IsValid now' session = (now' <=? now + 7 * 24 * time.Hour)) /\
      AuthResponse.User resp = User.ToUserInfo user /\
      AuthResponse.AccessToken resp
      = security.generateAccessToken (jwtManager a) now (User.ID user)
          (User.OrganizationID user) (User.RoleID user) (User.Email user) /\
      AuthResponse.RefreshToken resp
      = security.generateRefreshToken (jwtManager a) now (User.ID user)
          (User.OrganizationID user) (User.RoleID user) (User.Email user).
Proof.
  intros a now tokenID refreshToken w stored rest user others Hh Hrow Hvalid Huser Hid.
  pose proof (found_by_refresh_token _ _ _ _ Hrow) as Hin.
  assert (Hsame : User.ID user = Token.UserID stored).
  { assert (Hf : In user (filter (fun u => String.eqb (User.ID u) (Token.UserID stored)
                                           && not_deleted u) (users w)))
      by (rewrite Huser; now left).
    apply filter_In in Hf. destruct Hf as [_ Hf].
    apply andb_true_iff in Hf. now apply String.eqb_eq. }
  unfold RefreshToken.
  destruct (GetTokenByRefreshToken_healthy refreshToken w Hh) as (w0 & Hu0 & Ht0 & Hh0 & ->).
  rewrite Hrow. cbv iota. rewrite Hvalid. cbn [negb].
  destruct (GetUserByID_healthy (Token.UserID stored) w0 Hh0) as (w1 & Hu1 & Ht1 & Hh1 & ->).
  rewrite Hu0, Huser. cbv iota.
  rewrite (GenerateTokenPair_Ok _ now _ (User.OrganizationID user) (User.RoleID user)
             (User.Email user) Hid). cbv iota zeta.
  destruct (RevokeToken_healthy (Token.ID stored) w1 Hh1) as (w2 & Hu2 & Ht2 & Hh2 & ->).
  rewrite Ht1, Ht0, (count_where_self stored _ Hin).
  match goal with
  | |- context [CreateToken ?s w2] =>
      destruct (CreateToken_healthy s w2 Hh2) as (w3 & Hu3 & Ht3 & Hh3 & ->)
  end.
  eexists. exists w3. eexists.
  split; [reflexivity|]. split; [congruence|].
  split; [rewrite Ht3, Ht2, Ht1, Ht0; reflexivity|].
  split; [reflexivity|]. split; [exact Hsame|].
  do 2 (split; [reflexivity|]).
  split; [intros now'; rewrite newSession_IsValid; reflexivity|].
  repeat split.
Qed.

(** X24. A soft delete leaves the user's sessions alone. After [DeleteUser],
    on a database that answers, the session table is what it was, so
    [ValidateToken] answers every token as before; a rotation with a valid
    session of the deleted user fails on the user look-up with the wrapped
    no-rows error, answered 500, and leaves the session unrevoked; and
    [GetCurrentUser] fails for the id with the same wrapped error. *)
Theorem DeleteUser_leaves_the_sessions :
  forall (a : authUsecase) (now now' : Z) (id : string) (w : World),
    healthy w ->
    exists w1,
      snd (DeleteUser now id w) = w1 /\
      healthy w1 /\
      tokens w1 = tokens w /\
      (forall t, fst (ValidateToken a now' t w1) = fst (ValidateToken a now' t w)) /\
      (forall tokenID rt stored rest,
          newest (filter (by_refresh_token rt) (tokens w)) = stored :: rest ->
          Token.IsValid now' stored = true ->
          Token.UserID stored = id ->
          exists w2,
            RefreshToken a now' tokenID rt w1
            = (Err (wrapError "failed to get user" no_rows), w2) /\
            tokens w2 = tokens w /\
            delivery.status (delivery.handleError (wrapError "failed to get user" no_rows))
            = 500) /\
      fst (GetCurrentUser a id w1) = Err (wrapError "failed to get user" no_rows).
Proof.
  intros a now now' id w Hh.
  destruct (DeleteUser_healthy now id w Hh) as (w1 & Hu1 & Ht1 & Hh1 & Hd).
  exists w1. split; [now rewrite Hd|]. split; [assumption|]. split; [assumption|].
  assert (Hgone : forall w', users w' = users w1 ->
             filter (fun u => String.eqb (User.ID u) id && not_deleted u) (users w') = []).
  { intros w' ->. rewrite Hu1. apply GetUserByID_after_DeleteUser. }
  split; [|split].
  - intros t. unfold ValidateToken.
    destruct (security.ValidateToken (jwtManager a) now' t) as [c|e]; [|reflexivity].
    destruct (GetTokenByAccessToken_healthy t w1 Hh1) as (? & _ & _ & _ & ->).
    destruct (GetTokenByAccessToken_healthy t w Hh) as (? & _ & _ & _ & ->).
    rewrite Ht1. destruct (newest _) as [|row ?]; cbn [fst]; [reflexivity|].
    destruct (negb (Token.IsValid now' row)); reflexivity.
  - intros tokenID rt stored rest Hrow Hvalid Hid. unfold RefreshToken.
    destruct (GetTokenByRefreshToken_healthy rt w1 Hh1) as (w2 & Hu2 & Ht2 & Hh2 & ->).
    rewrite Ht1, Hrow. cbv iota. rewrite Hvalid. cbn [negb].
    destruct (GetUserByID_healthy (Token.UserID stored) w2 Hh2)
      as (w3 & Hu3 & Ht3 & Hh3 & ->).
    rewrite Hid, (Hgone w2 Hu2).
    exists w3. split; [reflexivity|]. split; [congruence | reflexivity].
  - unfold GetCurrentUser.
    destruct (GetUserByID_healthy id w1 Hh1) as (w2 & Hu2 & Ht2 & Hh2 & ->).
    now rewrite (Hgone w1 eq_refl).
Qed.

(** ** The Auth middleware and the protected routes *)

Lemma Malformed_never_validates (j : security.JWTManager) (now : Z) (raw : string) :
  is_ok (security.ValidateToken j now (jwt.Malformed raw)) = false.
Proof.
  destruct (security.ValidateToken j now (jwt.Malformed raw)) as [c|e] eqn:H; [|reflexivity].
  apply ValidateToken_Ok_inv in H. destruct H as (h & Heq & _). discriminate Heq.
Qed.

(** X25. The verdicts of the Auth middleware. It passes the request on
    exactly when the header is "Bearer " followed by a token that
    [ValidateToken] accepts, and then the context holds the four identity
    fields of the token's claims. Every other request is answered 401
    UNAUTHORIZED, with the message "Token expired" exactly for a bearer token
    that fails validation with ErrTokenExpired; a header that holds no token
    is never passed on. *)
Theorem Auth_verdicts :
  forall (j : security.JWTManager) (now : Z) (authHeader : middleware.Authorization),
    (forall ctx,
        middleware.Auth j now authHeader = middleware.Next ctx <->
        exists t c,
          authHeader = middleware.HeaderBearer t /\
          security.ValidateToken j now t = Ok c /\
          ctx = {| middleware.user_id := security.UserID c;
                   middleware.organization_id := security.OrganizationID c;
                   middleware.role_id := security.RoleID c;
                   middleware.email := security.Email c |}) /\
    (forall resp,
        middleware.Auth j now authHeader = middleware.Answer resp ->
        delivery.status resp = 401 /\
        delivery.code resp = "UNAUTHORIZED" /\
        (delivery.message resp = "Token expired" <->
         middleware.header_is_empty authHeader = false /\
         middleware.has_bearer_prefix authHeader = true /\
         security.ValidateToken j now (middleware.bearer_token authHeader)
         = Err (errorVar errors.ErrTokenExpired))).
Proof.
  intros j now authHeader. split.
  - intros ctx. split.
    + unfold middleware.Auth.
      destruct (middleware.header_is_empty authHeader); [discriminate|].
      destruct (middleware.has_bearer_prefix authHeader); [|discriminate]. cbn [negb].
      destruct authHeader as [s | t]; cbn [middleware.bearer_token].
      * pose proof (Malformed_never_validates j now
                      (substring 7 (String.length s - 7) s)) as Hm.
        destruct (security.ValidateToken j now _) as [c|e]; [discriminate Hm|].
        destruct (errors.Is e errors.ErrTokenExpired); discriminate.
      * destruct (security.ValidateToken j now t) as [c|e] eqn:Hv.
        -- intros H. inversion H; subst. exists t, c. repeat split. assumption.
        -- destruct (errors.Is e errors.ErrTokenExpired); discriminate.
    + intros (t & c & -> & Hv & ->). unfold middleware.Auth.
      cbn [middleware.header_is_empty middleware.has_bearer_prefix negb
           middleware.bearer_token].
      now rewrite Hv.
  - intros resp. unfold middleware.Auth.
    destruct (middleware.header_is_empty authHeader) eqn:He.
    { intros H. inversion H; subst. cbn. repeat split; try discriminate.
      intros (Hf & _). discriminate Hf. }
    destruct (middleware.has_bearer_prefix authHeader) eqn:Hp; cbn [negb].
    2:{ intros H. inversion H; subst. cbn. repeat split; try discriminate.
        intros (_ & Hf & _). discriminate Hf. }
    destruct (security.ValidateToken j now (middleware.bearer_token authHeader))
      as [c|e] eqn:Hv; [discriminate|].
    destruct (ValidateToken_error_kinds j now _ e Hv) as [-> | ->]; cbn;
      intros H; inversion H; subst; cbn; repeat split; try discriminate.
    intros (_ & _ & Hf). discriminate Hf.
Qed.

Lemma statement_with_tokens (w : World) (ts : list Token.t) :
  statement (with_tokens w ts)
  = (fst (statement w), with_tokens (snd (statement w)) ts).
Proof.
  unfold statement. destruct w as [us ts0 os]. simpl.
  destruct os as [|[msg|] rest]; reflexivity.
Qed.

Lemma GetUserByID_with_tokens (id : string) (w : World) (ts : list Token.t) :
  fst (GetUserByID id (with_tokens w ts)) = fst (GetUserByID id w).
Proof.
  unfold GetUserByID, GetContext. rewrite statement_with_tokens.
  destruct (statement w) as [[err|] w']; cbn [fst snd]; [reflexivity|].
  cbn [users with_tokens].
  destruct (filter _ (users w')); reflexivity.
Qed.

Lemma RevokeUserTokens_with_tokens (userID : string) (w : World) (ts : list Token.t) :
  fst (RevokeUserTokens userID (with_tokens w ts)) = fst (RevokeUserTokens userID w).
Proof.
  unfold RevokeUserTokens, ExecContext. rewrite statement_with_tokens.
  destruct (statement w) as [[err|] w']; reflexivity.
Qed.

(** X26. The protected routes never read the session table. For every
    request, clock and database, the answer of GET /me and of
    POST /auth/revoke-all is the same whatever sessions are stored: the
    middleware checks the signature and the window of the bearer token and
    nothing else, so revoking or deleting a session does not close these
    routes to its access token. *)
Theorem protected_routes_ignore_the_session_table :
  forall (a : authUsecase) (now : Z) (authHeader : middleware.Authorization)
         (w : World) (sessions : list Token.t),
    fst (routes.me a now authHeader (with_tokens w sessions))
    = fst (routes.me a now authHeader w) /\
    fst (routes.revoke_all a now authHeader (with_tokens w sessions))
    = fst (routes.revoke_all a now authHeader w).
Proof.
  intros a now authHeader w sessions.
  unfold routes.me, routes.revoke_all, routes.protected.
  destruct (middleware.Auth (jwtManager a) now authHeader) as [resp | ctx];
    [split; reflexivity|].
  split.
  - unfold routes.GetCurrentUser.
    destruct (String.eqb (middleware.user_id ctx) ""); [reflexivity|].
    unfold GetCurrentUser.
    pose proof (GetUserByID_with_tokens (middleware.user_id ctx) w sessions) as H.
    destruct (GetUserByID _ (with_tokens w sessions)) as [[u|e] w1];
      destruct (GetUserByID _ w) as [[u'|e'] w1']; cbn [fst] in H;
      try discriminate H; inversion H; reflexivity.
  - unfold routes.RevokeAllTokens.
    destruct (String.eqb (middleware.user_id ctx) ""); [reflexivity|].
    unfold RevokeAllTokens.
    pose proof (RevokeUserTokens_with_tokens (middleware.user_id ctx) w sessions) as H.
    destruct (RevokeUserTokens _ (with_tokens w sessions)) as [[e|] w1];
      destruct (RevokeUserTokens _ w) as [[e'|] w1']; cbn [fst] in H;
      try discriminate H; inversion H; reflexivity.
Qed.

(** X27. GET /me on a database that answers, with a bearer token that
    validates to a non-empty user id: the answer is 200 with the profile of
    the stored, undeleted user with that id, or 500 when there is none; the
    tables are not written. In particular the answer is 200 after
    [RevokeAllTokens] for that user has revoked every session. *)
Theorem me_answers_from_the_claims :
  forall (a : authUsecase) (now : Z) (t : security.TokenString) (c : security.Claims)
         (w : World),
    healthy w ->
    security.ValidateToken (jwtManager a) now t = Ok c ->
    security.UserID c <> "" ->
    let found := filter (fun u => String.eqb (User.ID u) (security.UserID c) && not_deleted u)
                        (users w) in
    let r := routes.me a now (middleware.HeaderBearer t) w in
    users (snd r) = users w /\ tokens (snd r) = tokens w /\
    match found with
    | user :: _ =>
        fst r = routes.OK "User retrieved successfully" (Some (User.ToUserInfo user)) /\
        fst (routes.me a now (middleware.HeaderBearer t)
               (snd (RevokeAllTokens a (security.UserID c) w)))
        = fst r
    | [] =>
        delivery.status (routes.response (fst r)) = 500 /\ routes.profile (fst r) = None
    end.
Proof.
  intros a now t c w Hh Hv Hid found r. subst r found.
  assert (Hme : forall w', healthy w' -> users w' = users w ->
            exists w1, users w1 = users w /\ tokens w1 = tokens w' /\
              routes.me a now (middleware.HeaderBearer t) w'
              = (match filter (fun u => String.eqb (User.ID u) (security.UserID c)
                                        && not_deleted u) (users w) with
                 | user :: _ =>
                     routes.OK "User retrieved successfully" (Some (User.ToUserInfo user))
                 | [] =>
                     routes.failed (delivery.handleError
                                      (wrapError "failed to get user" no_rows))
                 end, w1)).
  { intros w' Hh' Hu'.
    unfold routes.me, routes.protected, middleware.Auth.
    cbn [middleware.header_is_empty middleware.has_bearer_prefix negb
         middleware.bearer_token].
    rewrite Hv. unfold routes.GetCurrentUser. cbn [middleware.user_id].
    destruct (String.eqb_spec (security.UserID c) ""); [contradiction|].
    unfold GetCurrentUser.
    destruct (GetUserByID_healthy (security.UserID c) w' Hh') as (w1 & Hu1 & Ht1 & Hh1 & ->).
    rewrite Hu'. exists w1. split; [congruence|]. split; [assumption|].
    destruct (filter _ (users w)); reflexivity. }
  destruct (Hme w Hh eq_refl) as (w1 & Hu1 & Ht1 & ->). cbn [fst snd].
  split; [assumption|]. split; [assumption|].
  destruct (filter _ (users w)) as [|user others] eqn:Hfound.
  - split; reflexivity.
  - split; [reflexivity|].
    destruct (RevokeUserTokens_healthy (security.UserID c) w Hh) as (w2 & Hu2 & Ht2 & Hh2 & Hr).
    unfold RevokeAllTokens. rewrite Hr. cbn [snd].
    destruct (Hme w2 Hh2 Hu2) as (w3 & _ & _ & ->). reflexivity.
Qed.

(** ** Tokens carry no identifier of their own *)



(* ================================================================== *)
(** * The further properties at the concrete deployment *)

(** X3 at Alice's first access token, read at the instant it expires. *)
Lemma ValidateToken_signed_but_expired_witness :
  security.ValidateToken Scenario.manager Scenario.t_expired
    (jwt.SignedString jwt.SHA256 Scenario.claims1 (security.secret Scenario.manager))
  = Err (errorVar errors.ErrTokenExpired).
Proof.
  apply (ValidateToken_signed_but_expired Scenario.manager Scenario.t_expired
           (905 * time.Second) jwt.SHA256 Scenario.claims1).
  - vm_compute. reflexivity.
  - vm_compute. discriminate.
Defined.


(** X5 at the pair minted when Alice registered, read a minute later. *)
Lemma GenerateTokenPair_access_token_round_trip_witness :
  "user-1" <> "" /\
  security.TokenType (Scenario.pair_at Scenario.t_register) = "Bearer" /\
  security.GetUserIDFromToken Scenario.manager Scenario.t_login
    (security.AccessToken (Scenario.pair_at Scenario.t_register)) = Ok "user-1" /\
  exists c,
    security.ValidateToken Scenario.manager Scenario.t_login
      (security.AccessToken (Scenario.pair_at Scenario.t_register)) = Ok c /\
    security.UserID c = "user-1" /\
    security.OrganizationID c = "org-1" /\
    security.RoleID c = "role-1" /\
    security.Email c = "a@x.com" /\
    jwt.Subject (security.RegisteredClaims c) = "user-1" /\
    jwt.Issuer (security.RegisteredClaims c) = security.issuer Scenario.manager.
Proof.
  apply (GenerateTokenPair_access_token_round_trip Scenario.manager
           Scenario.t_register Scenario.t_login "user-1" "org-1" "role-1" "a@x.com"
           (Scenario.pair_at Scenario.t_register)).
  - vm_compute. reflexivity.
  - vm_compute. discriminate.
  - vm_compute. reflexivity.
Defined.

(** X6 at Alice's first refresh token, presented a minute after it was
    minted. *)
Lemma RefreshAccessToken_outcome_witness :
  match security.RefreshAccessToken Scenario.manager Scenario.t_login Scenario.refresh1 with
  | Ok accessToken =>
      exists c c',
        security.ValidateToken Scenario.manager Scenario.t_login Scenario.refresh1 = Ok c /\
        security.ValidateToken Scenario.manager Scenario.t_login accessToken = Ok c' /\
        security.UserID c' = security.UserID c /\
        security.OrganizationID c' = security.OrganizationID c /\
        security.RoleID c' = security.RoleID c /\
        security.Email c' = security.Email c
  | Err e =>
      exists inner,
        security.ValidateToken Scenario.manager Scenario.t_login Scenario.refresh1
        = Err inner /\
        e = wrapError "invalid refresh token" inner /\
        (errors.Is e errors.ErrInvalidToken = true \/
         errors.Is e errors.ErrTokenExpired = true)
  end.
Proof.
  apply (RefreshAccessToken_outcome Scenario.manager Scenario.t_login Scenario.refresh1).
  vm_compute. discriminate.
Defined.

(** X7 at Alice's first access token, presented as if it were a refresh
    token. *)
Lemma RefreshAccessToken_accepts_an_access_token_witness :
  security.RefreshAccessToken Scenario.manager Scenario.t_login
    (security.AccessToken (Scenario.pair_at Scenario.t_register))
  = Ok (security.generateAccessToken Scenario.manager Scenario.t_login
          "user-1" "org-1" "role-1" "a@x.com").
Proof.
  apply (RefreshAccessToken_accepts_an_access_token Scenario.manager
           Scenario.t_register Scenario.t_login "user-1" "org-1" "role-1" "a@x.com"
           (Scenario.pair_at Scenario.t_register)).
  - vm_compute. reflexivity.
  - vm_compute. discriminate.
  - vm_compute. reflexivity.
Defined.


(** X9 at the refresh token of Alice's second device. *)
Lemma lookup_returns_the_newest_session_carrying_the_token_witness :
  match fst (GetTokenByRefreshToken Scenario.refresh2 Scenario.w_two_sessions) with
  | Ok row =>
      In row (tokens Scenario.w_two_sessions) /\
      Token.RefreshToken row = Scenario.refresh2 /\
      forall r, In r (tokens Scenario.w_two_sessions) ->
                Token.RefreshToken r = Scenario.refresh2 ->
                Token.CreatedAt r <= Token.CreatedAt row
  | Err e =>
      e = no_rows /\
      forall r, In r (tokens Scenario.w_two_sessions) ->
                Token.RefreshToken r <> Scenario.refresh2
  end /\
  match fst (GetTokenByAccessToken Scenario.refresh2 Scenario.w_two_sessions) with
  | Ok row =>
      In row (tokens Scenario.w_two_sessions) /\
      Token.AccessToken row = Scenario.refresh2 /\
      forall r, In r (tokens Scenario.w_two_sessions) ->
                Token.AccessToken r = Scenario.refresh2 ->
                Token.CreatedAt r <= Token.CreatedAt row
  | Err e =>
      e = no_rows /\
      forall r, In r (tokens Scenario.w_two_sessions) ->
                Token.AccessToken r <> Scenario.refresh2
  end.
Proof.
  apply (lookup_returns_the_newest_session_carrying_the_token
           Scenario.refresh2 Scenario.w_two_sessions).
  vm_compute. constructor.
Defined.

(** X10 at a session of Bob's, inserted beside Alice's two. *)
Lemma CreateToken_then_lookup_witness :
  exists w1,
    CreateToken Scenario.bob_session Scenario.w_with_bob = (None, w1) /\
    users w1 = users Scenario.w_with_bob /\
    tokens w1 = (tokens Scenario.w_with_bob ++ [Scenario.bob_session])%list /\
    fst (GetTokenByRefreshToken (Token.RefreshToken Scenario.bob_session) w1)
    = Ok Scenario.bob_session /\
    fst (GetTokenByAccessToken (Token.AccessToken Scenario.bob_session) w1)
    = Ok Scenario.bob_session.
Proof.
  apply (CreateToken_then_lookup Scenario.bob_session Scenario.w_with_bob).
  - vm_compute. constructor.
  - intros r Hin Hshare. vm_compute in Hin.
    destruct Hin as [<- | [<- | []]].
    + vm_compute. reflexivity.
    + exfalso. destruct Hshare as [H | H]; vm_compute in H; discriminate H.
Defined.

(** X11 at Alice's first session, with her second one beside it. *)
Lemma RevokeToken_is_idempotent_witness :
  exists w1 w2,
    RevokeToken "session-1" Scenario.w_two_sessions = (None, w1) /\
    RevokeToken "session-1" w1 = (None, w2) /\
    tokens w2 = tokens w1 /\
    users w1 = users Scenario.w_two_sessions /\
    (forall r now, In r (tokens w1) -> Token.ID r = "session-1" ->
                   Token.IsValid now r = false) /\
    (forall k r, nth_error (tokens Scenario.w_two_sessions) k = Some r ->
                 Token.ID r <> "session-1" ->
                 nth_error (tokens w1) k = Some r).
Proof.
  apply (RevokeToken_is_idempotent "session-1" Scenario.w_two_sessions).
  - vm_compute. constructor.
  - vm_compute. discriminate.
Defined.

(** X12 at Alice, whose two sessions are stored beside one of Bob's: hers
    are revoked, his is left as it was. *)
Lemma RevokeAllTokens_invalidates_the_sessions_of_the_identity_witness :
  exists w1,
    RevokeAllTokens Scenario.orchestrator "user-1" Scenario.w_bob_session = (None, w1) /\
    users w1 = users Scenario.w_bob_session /\
    (forall r now, In r (tokens w1) -> Token.UserID r = "user-1" ->
                   Token.IsValid now r = false) /\
    nth_error (tokens w1) 2 = Some Scenario.bob_session.
Proof.
  destruct (RevokeAllTokens_invalidates_the_sessions_of_the_identity
              Scenario.orchestrator "user-1" Scenario.w_bob_session)
    as (w1 & Hr & _ & Hu & _ & Hrevoked & Hothers & _).
  - vm_compute. constructor.
  - exists w1. split; [exact Hr|]. split; [exact Hu|]. split; [exact Hrevoked|].
    apply Hothers; [vm_compute; reflexivity | vm_compute; discriminate].
Defined.

(** X13 at the store after Alice's rotation, three minutes after the
    epoch: the revoked first session goes, the new one stays. *)
Lemma CleanupExpiredTokens_keeps_exactly_the_valid_sessions_witness :
  exists w1 w2,
    CleanupExpiredTokens Scenario.t_later Scenario.w_refreshed = (None, w1) /\
    tokens w1 = filter (Token.IsValid Scenario.t_later) (tokens Scenario.w_refreshed) /\
    users w1 = users Scenario.w_refreshed /\
    CleanupExpiredTokens Scenario.t_later w1 = (None, w2) /\
    tokens w2 = tokens w1.
Proof.
  apply (CleanupExpiredTokens_keeps_exactly_the_valid_sessions
           Scenario.t_later Scenario.w_refreshed).
  vm_compute. constructor.
Defined.

(** X14 at Alice's first session. *)
Lemma DeleteToken_removes_the_session_witness :
  exists w1,
    DeleteToken "session-1" Scenario.w_two_sessions = (None, w1) /\
    users w1 = users Scenario.w_two_sessions /\
    (forall r, In r (tokens w1) <->
               In r (tokens Scenario.w_two_sessions) /\ Token.ID r <> "session-1") /\
    (exists w2, DeleteToken "session-1" w1 = (Some (errorVar errors.ErrNotFound), w2) /\
                tokens w2 = tokens w1) /\
    (exists w2, RevokeToken "session-1" w1 = (Some (errorVar errors.ErrNotFound), w2) /\
                tokens w2 = tokens w1).
Proof.
  apply (DeleteToken_removes_the_session "session-1" Scenario.w_two_sessions).
  - vm_compute. constructor.
  - vm_compute. discriminate.
Defined.

(** X15 at Bob's row, written into the store that holds Alice. *)
Lemma CreateUser_then_lookup_witness :
  exists w1,
    CreateUser Scenario.bob_user Scenario.w_two_sessions = (None, w1) /\
    users w1 = (users Scenario.w_two_sessions ++ [Scenario.bob_user])%list /\
    tokens w1 = tokens Scenario.w_two_sessions /\
    fst (IsEmailExists (User.Email Scenario.bob_user) Scenario.w_two_sessions) = Ok false /\
    fst (IsUsernameExists (User.Username Scenario.bob_user) Scenario.w_two_sessions)
    = Ok false /\
    fst (IsEmailExists (User.Email Scenario.bob_user) w1) = Ok true /\
    fst (IsUsernameExists (User.Username Scenario.bob_user) w1) = Ok true /\
    fst (GetUserByID (User.ID Scenario.bob_user) w1) = Ok Scenario.bob_user /\
    fst (GetUserByEmail (User.Email Scenario.bob_user) w1) = Ok Scenario.bob_user /\
    fst (GetUserByUsername (User.Username Scenario.bob_user) w1) = Ok Scenario.bob_user.
Proof.
  apply (CreateUser_then_lookup Scenario.bob_user Scenario.w_two_sessions).
  - vm_compute. constructor.
  - vm_compute. reflexivity.
  - intros u Hin _. vm_compute in Hin. destruct Hin as [<- | []].
    repeat split; vm_compute; discriminate.
Defined.

(** X16 at Alice's row: deleted, looked up, deleted again. *)
Lemma DeleteUser_is_a_soft_delete_witness :
  exists w1,
    DeleteUser Scenario.t_later "user-1" Scenario.w_two_sessions = (None, w1) /\
    tokens w1 = tokens Scenario.w_two_sessions /\
    List.length (users w1) = List.length (users Scenario.w_two_sessions) /\
    fst (GetUserByID "user-1" w1) = Err no_rows /\
    fst (DeleteUser Scenario.t_later "user-1" w1) = None.
Proof.
  destruct (DeleteUser_is_a_soft_delete Scenario.t_later Scenario.t_later "user-1"
              Scenario.w_two_sessions)
    as (w1 & Hd & Ht & Hl & _ & _ & Hg & Hagain).
  - vm_compute. constructor.
  - assert (He : existsb (user_has_id "user-1") (users Scenario.w_two_sessions) = true)
      by (vm_compute; reflexivity).
    rewrite He in Hd. exists w1. repeat split; assumption.
Defined.

(** X17 at Alice's row, rewritten with its own columns: only the update
    time changes. *)
Lemma UpdateUser_rewrites_the_row_witness :
  exists w1,
    UpdateUser Scenario.t_later Scenario.alice_user Scenario.w_two_sessions = (None, w1) /\
    tokens w1 = tokens Scenario.w_two_sessions /\
    fst (GetUserByID "user-1" w1)
    = Ok (updated Scenario.alice_user Scenario.t_later Scenario.alice_user).
Proof.
  destruct (UpdateUser_rewrites_the_row Scenario.t_later Scenario.alice_user
              Scenario.w_two_sessions)
    as (w1 & Hd & Ht & _ & _ & _ & Hg).
  - vm_compute. constructor.
  - assert (He : existsb (user_has_id (User.ID Scenario.alice_user))
                         (users Scenario.w_two_sessions) = true)
      by (vm_compute; reflexivity).
    rewrite He in Hd. exists w1. split; [exact Hd|]. split; [exact Ht|].
    apply (Hg Scenario.alice_user []); vm_compute; reflexivity.
Defined.

(** X18 at Alice's login from her second device. *)
Lemma Login_opens_a_session_witness :
  exists resp w1 session,
    Login Scenario.orchestrator Scenario.t_login "session-2"
      {| LoginRequest.Email := "a@x.com"; LoginRequest.Password := "longenough1" |}
      Scenario.w_registered = (Ok resp, w1) /\
    users w1 = users Scenario.w_registered /\
    tokens w1 = (tokens Scenario.w_registered ++ [session])%list /\
    Token.ID session = "session-2" /\
    Token.UserID session = "user-1" /\
    (forall now', Token.IsValid now' session
                  = (now' <=? Scenario.t_login + 7 * 24 * time.Hour)) /\
    AuthResponse.User resp = User.ToUserInfo Scenario.alice_user /\
    exists c,
      security.ValidateToken Scenario.manager Scenario.t_login
        (AuthResponse.AccessToken resp) = Ok c /\
      security.UserID c = "user-1".
Proof.
  destruct (Login_opens_a_session Scenario.orchestrator Scenario.t_login "session-2"
              {| LoginRequest.Email := "a@x.com"; LoginRequest.Password := "longenough1" |}
              Scenario.w_registered Scenario.alice_user [])
    as (resp & w1 & session & Hl & _ & Hu & Ht & Hid & Huid & _ & _ & Hvalid & Hinfo
        & _ & _ & c & Hc & Hcu & _).
  - vm_compute. constructor.
  - vm_compute. reflexivity.
  - vm_compute. reflexivity.
  - vm_compute. reflexivity.
  - vm_compute. discriminate.
  - vm_compute. discriminate.
  - exists resp, w1, session. repeat split; try assumption.
    exists c. split; assumption.
Defined.

(** X19 at Bob, suspended, who presents his right password. *)
Lemma Login_of_a_disabled_user_witness :
  exists e w1,
    Login Scenario.orchestrator Scenario.t_later "session-8"
      {| LoginRequest.Email := "b@x.com"; LoginRequest.Password := "bobs-password" |}
      Scenario.w_with_bob = (Err e, w1) /\
    users w1 = users Scenario.w_with_bob /\
    tokens w1 = tokens Scenario.w_with_bob /\
    e = errorVar errors.ErrUserDisabled /\
    delivery.status (delivery.handleError e) = 403.
Proof.
  destruct (Login_of_a_disabled_user Scenario.orchestrator Scenario.t_later "session-8"
              {| LoginRequest.Email := "b@x.com"; LoginRequest.Password := "bobs-password" |}
              Scenario.w_with_bob Scenario.bob_user [])
    as (e & w1 & Hl & Hu & Ht & He & Hs).
  - vm_compute. constructor.
  - vm_compute. reflexivity.
  - vm_compute. reflexivity.
  - exists e, w1. repeat split; assumption.
Defined.

(** X20 at a second registration with Alice's e-mail. *)
Lemma Register_refusals_witness :
  fst (Register Scenario.orchestrator Scenario.t_later "user-3" "session-8" "salt"
         Scenario.alice Scenario.w_two_sessions)
  = Err (errorVar errors.ErrEmailTaken) /\
  users (snd (Register Scenario.orchestrator Scenario.t_later "user-3" "session-8" "salt"
                Scenario.alice Scenario.w_two_sessions))
  = users Scenario.w_two_sessions /\
  tokens (snd (Register Scenario.orchestrator Scenario.t_later "user-3" "session-8" "salt"
                 Scenario.alice Scenario.w_two_sessions))
  = tokens Scenario.w_two_sessions.
Proof.
  assert (Hh : healthy Scenario.w_two_sessions) by (vm_compute; constructor).
  pose proof (Register_refusals Scenario.orchestrator Scenario.t_later "user-3" "session-8"
                "salt" Scenario.alice Scenario.w_two_sessions Hh) as H.
  cbv zeta in H. destruct H as (Hemail & _ & _ & Hsame).
  split.
  - apply Hemail. vm_compute. reflexivity.
  - apply Hsame. left. vm_compute. reflexivity.
Defined.


(** X22 at the logout of Alice's second device. *)
Lemma Logout_outcome_and_repeat_witness :
  exists w1,
    users w1 = users Scenario.w_two_sessions /\
    (Token.AccessToken Scenario.session2 <> Scenario.access2 ->
     Logout Scenario.orchestrator Scenario.access2 Scenario.refresh2 Scenario.w_two_sessions
     = (Some (errorVar errors.ErrInvalidToken), w1) /\
     tokens w1 = tokens Scenario.w_two_sessions) /\
    (Token.AccessToken Scenario.session2 = Scenario.access2 ->
     Logout Scenario.orchestrator Scenario.access2 Scenario.refresh2 Scenario.w_two_sessions
     = (None, w1) /\
     tokens w1 = revoke_where (has_id (Token.ID Scenario.session2))
                   (tokens Scenario.w_two_sessions) /\
     exists w2,
       Logout Scenario.orchestrator Scenario.access2 Scenario.refresh2 w1 = (None, w2) /\
       users w2 = users Scenario.w_two_sessions /\ tokens w2 = tokens w1).
Proof.
  apply (Logout_outcome_and_repeat Scenario.orchestrator Scenario.access2 Scenario.refresh2
           Scenario.w_two_sessions Scenario.session2 []).
  - vm_compute. constructor.
  - vm_compute. reflexivity.
Defined.

(** X23 at Bob, suspended, who rotates the session he opened before. *)
Lemma RefreshToken_rotates_the_session_witness :
  User.IsActive Scenario.bob_user = false /\
  exists resp w1 session,
    RefreshToken Scenario.orchestrator Scenario.t_later "session-8"
      (security.RefreshToken Scenario.bob_pair) Scenario.w_bob_session = (Ok resp, w1) /\
    users w1 = users Scenario.w_bob_session /\
    tokens w1 = (revoke_where (has_id (Token.ID Scenario.bob_session))
                   (tokens Scenario.w_bob_session) ++ [session])%list /\
    Token.UserID session = "user-2" /\
    AuthResponse.User resp = User.ToUserInfo Scenario.bob_user.
Proof.
  split; [vm_compute; reflexivity|].
  destruct (RefreshToken_rotates_the_session Scenario.orchestrator Scenario.t_later
              "session-8" (security.RefreshToken Scenario.bob_pair) Scenario.w_bob_session
              Scenario.bob_session [] Scenario.bob_user [])
    as (resp & w1 & session & Hr & Hu & Ht & _ & Huid & _ & _ & _ & Hinfo & _).
  - vm_compute. constructor.
  - vm_compute. reflexivity.
  - vm_compute. reflexivity.
  - vm_compute. reflexivity.
  - vm_compute. discriminate.
  - exists resp, w1, session. repeat split; assumption.
Defined.

(** X24 at Alice, deleted while her second device holds a valid session. *)
Lemma DeleteUser_leaves_the_sessions_witness :
  exists w1,
    snd (DeleteUser Scenario.t_later "user-1" Scenario.w_two_sessions) = w1 /\
    tokens w1 = tokens Scenario.w_two_sessions /\
    (exists w2,
        RefreshToken Scenario.orchestrator Scenario.t_later "session-8" Scenario.refresh2 w1
        = (Err (wrapError "failed to get user" no_rows), w2) /\
        tokens w2 = tokens Scenario.w_two_sessions) /\
    fst (GetCurrentUser Scenario.orchestrator "user-1" w1)
    = Err (wrapError "failed to get user" no_rows).
Proof.
  destruct (DeleteUser_leaves_the_sessions Scenario.orchestrator Scenario.t_later
              Scenario.t_later "user-1" Scenario.w_two_sessions)
    as (w1 & Hd & _ & Ht & _ & Hrot & Hme).
  - vm_compute. constructor.
  - exists w1. split; [exact Hd|]. split; [exact Ht|]. split; [|exact Hme].
    destruct (Hrot "session-8" Scenario.refresh2 Scenario.session2 [])
      as (w2 & Hr & Ht2 & _).
    + vm_compute. reflexivity.
    + vm_compute. reflexivity.
    + reflexivity.
    + exists w2. split; assumption.
Defined.

(** X27 at Alice's first access token, a minute after it was minted, before
    and after all her sessions are revoked. *)
Lemma me_answers_from_the_claims_witness :
  fst (routes.me Scenario.orchestrator Scenario.t_login
         (middleware.HeaderBearer Scenario.access1) Scenario.w_two_sessions)
  = routes.OK "User retrieved successfully" (Some (User.ToUserInfo Scenario.alice_user)) /\
  fst (routes.me Scenario.orchestrator Scenario.t_login
         (middleware.HeaderBearer Scenario.access1)
         (snd (RevokeAllTokens Scenario.orchestrator "user-1" Scenario.w_two_sessions)))
  = routes.OK "User retrieved successfully" (Some (User.ToUserInfo Scenario.alice_user)).
Proof.
  assert (Hh : healthy Scenario.w_two_sessions) by (vm_compute; constructor).
  assert (Hv : security.ValidateToken (jwtManager Scenario.orchestrator) Scenario.t_login
                 Scenario.access1 = Ok Scenario.claims1) by (vm_compute; reflexivity).
  assert (Hid : security.UserID Scenario.claims1 <> "") by (vm_compute; discriminate).
  pose proof (me_answers_from_the_claims Scenario.orchestrator Scenario.t_login
                Scenario.access1 Scenario.claims1 Scenario.w_two_sessions Hh Hv Hid) as H.
  cbv zeta in H. destruct H as (_ & _ & H).
  assert (Hf : filter (fun u => String.eqb (User.ID u) (security.UserID Scenario.claims1)
                                && not_deleted u) (users Scenario.w_two_sessions)
               = [Scenario.alice_user]) by (vm_compute; reflexivity).
  rewrite Hf in H. destruct H as [Hme Hafter].
  split; [exact Hme|]. rewrite <- Hme. exact Hafter.
Defined.

